(** * The web client of the search service: ingest, search and settings pages

    A shallow embedding of the React components under [src/frontend] and
    [src/unnamed]: the event handlers of the ingest form, of the search form
    and of the settings form, over an explicit model of what they touch
    (the component's state store, the network, the timer queue).

    Conventions:
    - a JavaScript string is the list of its UTF-16 code units;
    - a handler is a function of the state it closed over (the values that
      [useState] gave the render that created the handler); the setters write
      to the store, which the running handler does not read back;
    - [fetch] is answered by an environment: a state machine that maps a
      request to a network failure or a response;
    - in the pages as they are embedded first, one handler (or one timer
      callback) runs to completion before the next event is taken; the
      chapter on the interleaved ingest page suspends the handlers at their
      awaits instead. *)

From Stdlib Require Import ZArith NArith List String Ascii Bool Lia.
From Stdlib Require Import DecimalString.
Import ListNotations.

Set Implicit Arguments.
Set Warnings "-register-all".

(* ================================================================== *)
(** * JavaScript strings *)

Definition jsstring := list N.

(** A source literal, read as code units. *)
Definition str (s : string) : jsstring :=
  map N_of_ascii (list_ascii_of_string s).

Fixpoint jsstring_eqb (a b : jsstring) : bool :=
  match a, b with
  | [], [] => true
  | x :: a', y :: b' => (x =? y)%N && jsstring_eqb a' b'
  | _, _ => false
  end.

(** A string is truthy when it is not empty. *)
Definition truthy_str (s : jsstring) : bool :=
  match s with [] => false | _ :: _ => true end.

(** WhiteSpace and LineTerminator code units, as [String.prototype.trim]
    strips them. *)
Definition is_js_space (c : N) : bool :=
  ((9 <=? c) && (c <=? 13) || (c =? 32) || (c =? 160) || (c =? 5760)
   || (8192 <=? c) && (c <=? 8202) || (c =? 8232) || (c =? 8233)
   || (c =? 8239) || (c =? 8287) || (c =? 12288) || (c =? 65279))%N.

Fixpoint trim_start (s : jsstring) : jsstring :=
  match s with
  | c :: r => if is_js_space c then trim_start r else s
  | [] => []
  end.

Definition trim (s : jsstring) : jsstring :=
  rev (trim_start (rev (trim_start s))).

(** Decimal rendering of an integer-valued number. *)
Definition decimal (z : Z) : jsstring :=
  str (NilZero.string_of_int (Z.to_int z)).

(* ================================================================== *)
(** * JSON values

    The value of a parsed JSON text. A number carries the text JavaScript
    prints for it (what [String(n)] and [JSON.stringify(n)] produce), so a
    number sent back is the number that was received. *)

Inductive json : Type :=
| JNull
| JBool (b : bool)
| JNum (text : jsstring)
| JStr (s : jsstring)
| JArr (elems : list json)
| JObj (members : list (jsstring * json)).

(** A JavaScript value as the handlers see them: [None] is [undefined]. *)
Definition jsval := option json.

Definition undefined : jsval := None.

Definition number (z : Z) : json := JNum (decimal z).

(** Last binding of [k]: [JSON.parse] keeps the last of repeated keys. *)
Fixpoint lookup_member (k : jsstring) (ms : list (jsstring * json)) : jsval :=
  match ms with
  | [] => None
  | (k', v) :: r =>
      match lookup_member k r with
      | Some w => Some w
      | None => if jsstring_eqb k k' then Some v else None
      end
  end.

Definition truthy (v : jsval) : bool :=
  match v with
  | None | Some JNull => false
  | Some (JBool b) => b
  | Some (JNum t) =>
      negb (jsstring_eqb t (str "0") || jsstring_eqb t (str "NaN"))
  | Some (JStr s) => truthy_str s
  | Some (JArr _) | Some (JObj _) => true
  end.

Fixpoint join (sep : jsstring) (parts : list jsstring) : jsstring :=
  match parts with
  | [] => []
  | [p] => p
  | p :: r => p ++ sep ++ join sep r
  end.

(** All the texts, when every one is there. *)
Fixpoint all_texts (parts : list (option jsstring)) : option (list jsstring) :=
  match parts with
  | [] => Some []
  | Some p :: r =>
      match all_texts r with
      | Some ps => Some (p :: ps)
      | None => None
      end
  | None :: _ => None
  end.

(** [String(v)] for a JSON value, [None] when the conversion throws.
    An object prints through the [toString] it inherits, unless it has a
    member of that name: a member parsed from JSON is not a function, the
    inherited [valueOf] gives the object back, and the conversion throws a
    [TypeError]. An array prints its elements joined by commas, with
    [null] as the empty string, and throws when an element does. *)
Fixpoint ToString_json (v : json) : option jsstring :=
  match v with
  | JNull => Some (str "null")
  | JBool true => Some (str "true")
  | JBool false => Some (str "false")
  | JNum t => Some t
  | JStr s => Some s
  | JArr l =>
      match
        all_texts
          (map (fun e => match e with JNull => Some [] | _ => ToString_json e end) l)
      with
      | Some parts => Some (join (str ",") parts)
      | None => None
      end
  | JObj ms =>
      match lookup_member (str "toString") ms with
      | Some _ => None
      | None => Some (str "[object Object]")
      end
  end.

Definition ToString (v : jsval) : option jsstring :=
  match v with
  | None => Some (str "undefined")
  | Some j => ToString_json j
  end.

Definition bool_toString (b : bool) : jsstring :=
  if b then str "true" else str "false".

(** An object reference is truthy, [null] is not. *)
Definition non_null {A : Type} (o : option A) : bool :=
  match o with Some _ => true | None => false end.

Fixpoint starts_with (prefix s : jsstring) : bool :=
  match prefix, s with
  | [], _ => true
  | p :: prefix', c :: s' => (p =? c)%N && starts_with prefix' s'
  | _ :: _, [] => false
  end.

(** [s.includes(needle)] *)
Fixpoint includes (s needle : jsstring) : bool :=
  starts_with needle s ||
  match s with
  | [] => false
  | _ :: s' => includes s' needle
  end.

(* ================================================================== *)
(** * [JSON.parse]

    A lexer (a finite automaton over code units) followed by a pushdown
    automaton over tokens; both read their input once, left to right. *)

Inductive token : Type :=
| TLBrace | TRBrace | TLBrack | TRBrack | TColon | TComma
| TString (s : jsstring)
| TNumber (text : jsstring)
| TTrue | TFalse | TNull.

Inductive num_state : Type :=
| NMinus | NZero | NInt | NDot | NFrac | NExp | NExpSign | NExpDigits.

Inductive lex_mode : Type :=
| LStart
| LString (acc : jsstring)
| LEscape (acc : jsstring)
| LUnicode (acc : jsstring) (remaining : nat) (code : N)
| LNumber (st : num_state) (acc : jsstring)
| LLiteral (rest : jsstring) (t : token).

Definition is_digit (c : N) : bool := ((48 <=? c) && (c <=? 57))%N.

Definition hex_value (c : N) : option N :=
  if is_digit c then Some (c - 48)%N
  else if ((97 <=? c) && (c <=? 102))%N then Some (c - 87)%N
  else if ((65 <=? c) && (c <=? 70))%N then Some (c - 55)%N
  else None.

(** JSON white space: tab, line feed, carriage return, space. *)
Definition is_json_space (c : N) : bool :=
  ((c =? 9) || (c =? 10) || (c =? 13) || (c =? 32))%N.

Definition lex_start (c : N) : option (lex_mode * list token) :=
  if is_json_space c then Some (LStart, [])
  else if (c =? 123)%N then Some (LStart, [TLBrace])
  else if (c =? 125)%N then Some (LStart, [TRBrace])
  else if (c =? 91)%N then Some (LStart, [TLBrack])
  else if (c =? 93)%N then Some (LStart, [TRBrack])
  else if (c =? 58)%N then Some (LStart, [TColon])
  else if (c =? 44)%N then Some (LStart, [TComma])
  else if (c =? 34)%N then Some (LString [], [])
  else if (c =? 45)%N then Some (LNumber NMinus [c], [])
  else if (c =? 48)%N then Some (LNumber NZero [c], [])
  else if is_digit c then Some (LNumber NInt [c], [])
  else if (c =? 116)%N then Some (LLiteral (str "rue") TTrue, [])
  else if (c =? 102)%N then Some (LLiteral (str "alse") TFalse, [])
  else if (c =? 110)%N then Some (LLiteral (str "ull") TNull, [])
  else None.

Definition is_e (c : N) : bool := ((c =? 101) || (c =? 69))%N.

(** The number automaton: [Some st'] continues the number, [None] means
    the code unit does not belong to it. *)
Definition num_step (st : num_state) (c : N) : option num_state :=
  match st with
  | NMinus => if (c =? 48)%N then Some NZero
              else if is_digit c then Some NInt else None
  | NZero => if (c =? 46)%N then Some NDot
             else if is_e c then Some NExp else None
  | NInt => if is_digit c then Some NInt
            else if (c =? 46)%N then Some NDot
            else if is_e c then Some NExp else None
  | NDot => if is_digit c then Some NFrac else None
  | NFrac => if is_digit c then Some NFrac
             else if is_e c then Some NExp else None
  | NExp => if ((c =? 43) || (c =? 45))%N then Some NExpSign
            else if is_digit c then Some NExpDigits else None
  | NExpSign => if is_digit c then Some NExpDigits else None
  | NExpDigits => if is_digit c then Some NExpDigits else None
  end.

Definition num_accepting (st : num_state) : bool :=
  match st with
  | NZero | NInt | NFrac | NExpDigits => true
  | _ => false
  end.

Definition lex_escape (c : N) : option N :=
  if (c =? 34)%N then Some 34%N
  else if (c =? 92)%N then Some 92%N
  else if (c =? 47)%N then Some 47%N
  else if (c =? 98)%N then Some 8%N
  else if (c =? 102)%N then Some 12%N
  else if (c =? 110)%N then Some 10%N
  else if (c =? 114)%N then Some 13%N
  else if (c =? 116)%N then Some 9%N
  else None.

Definition lex_step (m : lex_mode) (c : N) : option (lex_mode * list token) :=
  match m with
  | LStart => lex_start c
  | LString acc =>
      if (c =? 34)%N then Some (LStart, [TString (rev acc)])
      else if (c =? 92)%N then Some (LEscape acc, [])
      else if (c <? 32)%N then None
      else Some (LString (c :: acc), [])
  | LEscape acc =>
      if (c =? 117)%N then Some (LUnicode acc 4 0%N, [])
      else match lex_escape c with
           | Some d => Some (LString (d :: acc), [])
           | None => None
           end
  | LUnicode acc remaining code =>
      match hex_value c with
      | None => None
      | Some h =>
          let code' := (code * 16 + h)%N in
          match remaining with
          | 0%nat | 1%nat => Some (LString (code' :: acc), [])
          | S n => Some (LUnicode acc n code', [])
          end
      end
  | LNumber st acc =>
      match num_step st c with
      | Some st' => Some (LNumber st' (c :: acc), [])
      | None =>
          if num_accepting st then
            match lex_start c with
            | Some (m', ts) => Some (m', TNumber (rev acc) :: ts)
            | None => None
            end
          else None
      end
  | LLiteral rest t =>
      match rest with
      | [] => None
      | r :: rest' =>
          if (c =? r)%N then
            match rest' with
            | [] => Some (LStart, [t])
            | _ :: _ => Some (LLiteral rest' t, [])
            end
          else None
      end
  end.

Definition lex_end (m : lex_mode) : option (list token) :=
  match m with
  | LStart => Some []
  | LNumber st acc =>
      if num_accepting st then Some [TNumber (rev acc)] else None
  | _ => None
  end.

Fixpoint lex (m : lex_mode) (s : jsstring) : option (list token) :=
  match s with
  | [] => lex_end m
  | c :: r =>
      match lex_step m c with
      | None => None
      | Some (m', ts) =>
          match lex m' r with
          | None => None
          | Some ts' => Some (ts ++ ts')
          end
      end
  end.

(** The containers that are open, innermost first. *)
Inductive frame : Type :=
| FArr (elems_rev : list json)
| FObj (members_rev : list (jsstring * json))
| FObjVal (members_rev : list (jsstring * json)) (key : jsstring).

Inductive expect : Type :=
| XValue | XValueOrClose | XKeyOrClose | XKey | XColon | XCommaOrClose
| XEnd (v : json).

Definition pstate : Type := expect * list frame.

Definition complete (v : json) (stack : list frame) : option pstate :=
  match stack with
  | [] => Some (XEnd v, [])
  | FArr es :: st => Some (XCommaOrClose, FArr (v :: es) :: st)
  | FObjVal ms k :: st => Some (XCommaOrClose, FObj ((k, v) :: ms) :: st)
  | FObj _ :: _ => None
  end.

Definition start_value (t : token) (stack : list frame) : option pstate :=
  match t with
  | TString s => complete (JStr s) stack
  | TNumber n => complete (JNum n) stack
  | TTrue => complete (JBool true) stack
  | TFalse => complete (JBool false) stack
  | TNull => complete JNull stack
  | TLBrack => Some (XValueOrClose, FArr [] :: stack)
  | TLBrace => Some (XKeyOrClose, FObj [] :: stack)
  | _ => None
  end.

Definition close_array (stack : list frame) : option pstate :=
  match stack with
  | FArr es :: st => complete (JArr (rev es)) st
  | _ => None
  end.

Definition close_object (stack : list frame) : option pstate :=
  match stack with
  | FObj ms :: st => complete (JObj (rev ms)) st
  | _ => None
  end.

Definition read_key (t : token) (stack : list frame) : option pstate :=
  match t, stack with
  | TString k, FObj ms :: st => Some (XColon, FObjVal ms k :: st)
  | _, _ => None
  end.

Definition parse_step (p : pstate) (t : token) : option pstate :=
  let (x, stack) := p in
  match x with
  | XValue => start_value t stack
  | XValueOrClose =>
      match t with
      | TRBrack => close_array stack
      | _ => start_value t stack
      end
  | XKeyOrClose =>
      match t with
      | TRBrace => close_object stack
      | _ => read_key t stack
      end
  | XKey => read_key t stack
  | XColon =>
      match t with
      | TColon => Some (XValue, stack)
      | _ => None
      end
  | XCommaOrClose =>
      match t, stack with
      | TComma, FArr _ :: _ => Some (XValue, stack)
      | TComma, FObj _ :: _ => Some (XKey, stack)
      | TRBrack, _ => close_array stack
      | TRBrace, _ => close_object stack
      | _, _ => None
      end
  | XEnd _ => None
  end.

Fixpoint parse_tokens (p : pstate) (ts : list token) : option json :=
  match ts with
  | [] => match p with (XEnd v, _) => Some v | _ => None end
  | t :: r =>
      match parse_step p t with
      | None => None
      | Some p' => parse_tokens p' r
      end
  end.

(** [JSON.parse(text)]: [None] stands for the [SyntaxError] it throws.
    A number keeps the text it was written with. *)
Definition JSON_parse (text : jsstring) : option json :=
  match lex LStart text with
  | None => None
  | Some ts => parse_tokens (XValue, []) ts
  end.

Definition is_object (v : json) : bool :=
  match v with JObj _ => true | _ => false end.

(* ================================================================== *)
(** * The network and the browser *)

Record File : Type := mkFile { file_name : jsstring; file_bytes : list N }.

Inductive form_value : Type :=
| FormString (s : jsstring)
| FormFile (f : File).

(** [FormData]: the fields in the order they were appended. *)
Definition FormData := list (jsstring * form_value).

Definition append (fd : FormData) (k : string) (v : form_value) : FormData :=
  fd ++ [(str k, v)].

Inductive http_method : Type := GET | POST.

(** The body of a request; [JsonBody v] is the text [JSON.stringify] makes
    of [v]. *)
Inductive req_body : Type :=
| NoBody
| JsonBody (v : json)
| FormBody (fd : FormData).

Record Request : Type := mkRequest {
  url : jsstring;
  method : http_method;
  headers : list (jsstring * jsstring);
  body : req_body
}.

(** What [response.json()] finds: a JSON value, or a text that does not
    parse (the promise rejects with the engine's message). *)
Inductive payload : Type :=
| Parsed (v : json)
| Unparsable (syntax_error : jsstring).

Record Response : Type := mkResponse {
  status : N;
  statusText : jsstring;
  content : payload
}.

(** [response.ok]: the status is in the range 200-299. *)
Definition ok (r : Response) : bool :=
  ((200 <=? status r) && (status r <=? 299))%N.

(** [fetch] rejects on a network failure and resolves to a response
    otherwise, whatever its status. *)
Inductive FetchResult : Type :=
| NetworkError (reason : jsstring)
| Answer (r : Response).

(** A thrown [Error] with its [message]. *)
Inductive error : Type := Error (msg : jsstring).

Definition err_message (e : error) : jsstring :=
  match e with Error m => m end.

Inductive event : Type :=
| Fetch (req : Request) (res : FetchResult)
| SetTimeout (ms : N)
| ConsoleWarn (label : jsstring) (err : error)
| ToastError (title : jsstring) (description : option jsstring)
| ToastSuccess (title : jsstring) (description : option jsstring).

(** [JSON.stringify] of an object literal drops the properties whose value
    is [undefined]. *)
Fixpoint stringify_object (props : list (string * jsval)) : list (jsstring * json) :=
  match props with
  | [] => []
  | (k, Some v) :: r => (str k, v) :: stringify_object r
  | (_, None) :: r => stringify_object r
  end.

Definition dq : jsstring := [34%N].

(** The message of the [TypeError] that V8 throws when an object has no
    primitive value to convert to. *)
Definition not_primitive : jsstring :=
  str "Cannot convert object to primitive value".

(** What reading a property gives: a value (or [undefined]), or a
    method that the value inherits from its prototype. *)
Inductive property : Type :=
| Data (v : jsval)
| Method (name : string).

(* ================================================================== *)
(** * Handlers as computations

    A statement of a handler either completes normally, returns from the
    enclosing function, or throws; it acts on the store of the component,
    on the environment behind [fetch], on the log of what the page did,
    and on the queue of pending timers. *)

Inductive completion (R A : Type) : Type :=
| Normal (a : A)
| Return (r : R)
| Throw (e : error).

Arguments Normal {R A} a.
Arguments Return {R A} r.
Arguments Throw {R A} e.

Section Effects.

Variables (St Task Env : Type).

(** The environment answers a request and moves on. *)
Variable net : Request -> Env -> FetchResult * Env.

Record Sys : Type := mkSys {
  store : St;
  env : Env;
  trace : list event;
  timers : list (N * Task)
}.

Definition M (R A : Type) : Type := Sys -> completion R A * Sys.

Definition ret {R A} (a : A) : M R A := fun sys => (Normal a, sys).

Definition bind {R A B} (m : M R A) (k : A -> M R B) : M R B :=
  fun sys =>
    match m sys with
    | (Normal a, sys') => k a sys'
    | (Return r, sys') => (Return r, sys')
    | (Throw e, sys') => (Throw e, sys')
    end.

Definition throw {R A} (e : error) : M R A := fun sys => (Throw e, sys).

Definition return_ {R A} (r : R) : M R A := fun sys => (Return r, sys).

Definition try_catch {R A} (body : M R A) (handler : error -> M R A) : M R A :=
  fun sys =>
    match body sys with
    | (Throw e, sys') => handler e sys'
    | other => other
    end.

Definition try_finally {R A} (body : M R A) (finalizer : M R unit) : M R A :=
  fun sys =>
    let (c, sys') := body sys in
    match finalizer sys' with
    | (Normal _, sys'') => (c, sys'')
    | (Return r, sys'') => (Return r, sys'')
    | (Throw e, sys'') => (Throw e, sys'')
    end.

(** A call: the body's [return v] is the value of the call; falling off
    the end gives [dflt] (what [undefined] stands for at that type). *)
Definition call {R R'} (body : M R unit) (dflt : R) : M R' R :=
  fun sys =>
    match body sys with
    | (Normal _, sys') => (Normal dflt, sys')
    | (Return r, sys') => (Normal r, sys')
    | (Throw e, sys') => (Throw e, sys')
    end.

Definition when {R} (c : bool) (m : M R unit) : M R unit :=
  if c then m else ret tt.

(** A state setter: the store changes, the running handler's own
    variables do not. *)
Definition modify {R} (f : St -> St) : M R unit :=
  fun sys => (Normal tt, mkSys (f (store sys)) (env sys) (trace sys) (timers sys)).

Definition emit {R} (e : event) : M R unit :=
  fun sys => (Normal tt, mkSys (store sys) (env sys) (trace sys ++ [e]) (timers sys)).

Definition fetch {R} (req : Request) : M R Response :=
  fun sys =>
    let (res, env') := net req (env sys) in
    let sys' := mkSys (store sys) env' (trace sys ++ [Fetch req res]) (timers sys) in
    match res with
    | NetworkError reason => (Throw (Error reason), sys')
    | Answer r => (Normal r, sys')
    end.

Definition setTimeout {R} (t : Task) (ms : N) : M R unit :=
  fun sys =>
    (Normal tt,
     mkSys (store sys) (env sys) (trace sys ++ [SetTimeout ms]) (timers sys ++ [(ms, t)])).

(** [await response.json()] *)
Definition response_json {R} (r : Response) : M R json :=
  match content r with
  | Parsed v => ret v
  | Unparsable m => throw (Error m)
  end.

(** [v.k] for a property [k] that no prototype has, which is every
    property the pages read but [search]: reading a property of [null]
    or [undefined] throws a [TypeError] (with the message V8 gives it);
    a value that is not an object has no such property. *)
Definition get_prop {R} (v : jsval) (k : string) : M R jsval :=
  match v with
  | None =>
      throw (Error (str "Cannot read properties of undefined (reading '"
                    ++ str k ++ str "')"))
  | Some JNull =>
      throw (Error (str "Cannot read properties of null (reading '"
                    ++ str k ++ str "')"))
  | Some (JObj ms) => ret (lookup_member (str k) ms)
  | Some _ => ret None
  end.

(** [v.k] in general: of the properties the pages read, [search] is
    also a method of strings ([String.prototype.search]), so reading it
    from a string gives that function and not [undefined]. *)
Definition get_member {R} (v : jsval) (k : string) : M R property :=
  match v with
  | Some (JStr _) =>
      if String.eqb k "search" then ret (Method k) else ret (Data None)
  | _ => bind (get_prop v k) (fun x => ret (Data x))
  end.

(** [p.k] for what a read gave: a function has none of the properties
    the pages read. *)
Definition get_prop_of {R} (p : property) (k : string) : M R jsval :=
  match p with
  | Data v => get_prop v k
  | Method _ => ret None
  end.

(** [String(v)] as a step of a handler: what a template literal and
    [new Error(v)] do with [v]. *)
Definition to_string {R} (v : jsval) : M R jsstring :=
  match ToString v with
  | Some t => ret t
  | None => throw (Error not_primitive)
  end.

(** The page after a handler ran; a rejection nobody handles ends the
    handler like a return. *)
Definition run (h : M unit unit) (sys : Sys) : Sys := snd (h sys).

Variable run_task : Task -> M unit unit.

(** The timer queue: the callback that was scheduled first fires
    first; [None] when [fuel] callbacks did not empty the queue. *)
Fixpoint run_timers (fuel : nat) (sys : Sys) : option Sys :=
  match timers sys with
  | [] => Some sys
  | (_, t) :: rest =>
      match fuel with
      | O => None
      | S fuel' =>
          run_timers fuel'
            (run (run_task t) (mkSys (store sys) (env sys) (trace sys) rest))
      end
  end.

End Effects.

Arguments ret {St Task Env R A} a.
Arguments throw {St Task Env R A} e.
Arguments return_ {St Task Env R A} r.
Arguments modify {St Task Env R} f.
Arguments emit {St Task Env R} e.
Arguments setTimeout {St Task Env R} t ms.
Arguments response_json {St Task Env R} r.
Arguments get_prop {St Task Env R} v k.
Arguments get_member {St Task Env R} v k.
Arguments get_prop_of {St Task Env R} p k.
Arguments to_string {St Task Env R} v.
Arguments when {St Task Env R} c m.
Arguments mkSys {St Task Env} store env trace timers.

Declare Scope js_scope.
Delimit Scope js_scope with js.
Notation "x <- m ; k" := (bind m (fun x => k))
  (at level 61, m at next level, right associativity) : js_scope.
Notation "m ;; k" := (bind m (fun _ => k))
  (at level 61, right associativity) : js_scope.

Local Open Scope string_scope.
Local Open Scope list_scope.
Local Open Scope js_scope.

(* ================================================================== *)
(** * The ingest page *)

Module Ingest.

(** The [useState] cells of [IngestPage]. *)
Record State : Type := mkState {
  docId : jsstring;
  title : jsstring;
  text : jsstring;
  file : option File;
  metadata : jsstring;
  sync : bool;
  loading : bool;
  message : jsstring;
  error : jsstring
}.

Definition initial : State :=
  mkState [] [] [] None [] false false [] [].

Definition with_docId v s :=
  mkState v (title s) (text s) (file s) (metadata s) (sync s) (loading s) (message s) (error s).
Definition with_title v s :=
  mkState (docId s) v (text s) (file s) (metadata s) (sync s) (loading s) (message s) (error s).
Definition with_text v s :=
  mkState (docId s) (title s) v (file s) (metadata s) (sync s) (loading s) (message s) (error s).
Definition with_file v s :=
  mkState (docId s) (title s) (text s) v (metadata s) (sync s) (loading s) (message s) (error s).
Definition with_metadata v s :=
  mkState (docId s) (title s) (text s) (file s) v (sync s) (loading s) (message s) (error s).
Definition with_sync v s :=
  mkState (docId s) (title s) (text s) (file s) (metadata s) v (loading s) (message s) (error s).
Definition with_loading v s :=
  mkState (docId s) (title s) (text s) (file s) (metadata s) (sync s) v (message s) (error s).
Definition with_message v s :=
  mkState (docId s) (title s) (text s) (file s) (metadata s) (sync s) (loading s) v (error s).
Definition with_error v s :=
  mkState (docId s) (title s) (text s) (file s) (metadata s) (sync s) (loading s) (message s) v.

(** A pending timer callback: the [poll] closure of one submission,
    with the value its [attempts] counter has reached. *)
Inductive task : Type := Poll (doc : jsstring) (attempts : nat).

(** Computations of the ingest page. *)
Definition IM (Env R A : Type) : Type := M State task Env R A.

Definition setDocId {Env R} v : IM Env R unit := modify (with_docId v).
Definition setTitle {Env R} v : IM Env R unit := modify (with_title v).
Definition setText {Env R} v : IM Env R unit := modify (with_text v).
Definition setFile {Env R} v : IM Env R unit := modify (with_file v).
Definition setMetadata {Env R} v : IM Env R unit := modify (with_metadata v).
Definition setSync {Env R} v : IM Env R unit := modify (with_sync v).
Definition setLoading {Env R} v : IM Env R unit := modify (with_loading v).
Definition setMessage {Env R} v : IM Env R unit := modify (with_message v).
Definition setError {Env R} v : IM Env R unit := modify (with_error v).

Definition maxAttempts : nat := 10.
Definition pollInterval : N := 1000.

Definition started_message (doc : jsstring) : jsstring :=
  str "Document " ++ dq ++ doc ++ dq ++ str " ingestion started...".

(** The message of a finished ingestion, with the chunk count as it
    prints. *)
Definition ingested_message (doc : jsstring) (chunk_count : jsstring) : jsstring :=
  str "Document " ++ dq ++ doc ++ dq ++ str " ingested successfully with "
  ++ chunk_count ++ str " chunks".

Definition ingest_request (base : jsstring) (fd : FormData) : Request :=
  mkRequest (base ++ str "/ingest") POST [] (FormBody fd).

Definition doc_request (base doc : jsstring) : Request :=
  mkRequest (base ++ str "/docs/" ++ doc) GET [] NoBody.

(** The metadata field of the form data: [JSON.parse(metadata)] is
    called for its exception only. *)
Definition validated_metadata {Env R} (fd : FormData) (metadata : jsstring)
  : IM Env R FormData :=
  match JSON_parse metadata with
  | Some _ => ret (append fd "metadata" (FormString metadata))
  | None => throw (Error (str "Unexpected token in JSON"))
  end.

(** The fields [handleSubmit] appends before it looks at the metadata
    (the same in both versions of the page). *)
Definition form_fields (s : State) : FormData :=
  let formData := [] in
  let formData := append formData "doc_id" (FormString (docId s)) in
  let formData := append formData "sync" (FormString (bool_toString (sync s))) in
  let formData :=
    if truthy_str (title s)
    then append formData "title" (FormString (title s)) else formData in
  let formData :=
    if truthy_str (text s)
    then append formData "text" (FormString (text s)) else formData in
  match file s with
  | Some f => append formData "file" (FormFile f)
  | None => formData
  end.

(** ** [src/unnamed/part_001]: the page of the first front end *)
Module Jsx.
Section Handlers.

Variable Env : Type.
Variable net : Request -> Env -> FetchResult * Env.

Definition API_BASE : jsstring := str "http://localhost:8000".

Definition pollForCompletion (doc : jsstring) : IM Env unit bool :=
  call
    (try_catch
       (docResponse <- fetch net (doc_request API_BASE doc);
        if ok docResponse then
          docData <- response_json docResponse;
          chunk_count <- get_prop (Some docData) "chunk_count";
          count <- to_string chunk_count;
          setMessage (ingested_message doc count);;
          return_ true
        else if (status docResponse =? 404)%N then
          (* Document not found yet, continue polling *)
          return_ false
        else
          throw (Error (str "Failed to fetch document: "
                        ++ decimal (Z.of_N (status docResponse)))))
       (fun err =>
          emit (ConsoleWarn (str "Error polling for document completion:") err);;
          return_ false))
    false.

Definition poll (doc : jsstring) (attempts : nat) : IM Env unit unit :=
  let attempts := S attempts in
  completed <- pollForCompletion doc;
  if completed || (maxAttempts <=? attempts)%nat then
    (* Clear form *)
    setDocId [];; setTitle [];; setText [];; setFile None;; setMetadata []
  else
    setTimeout (Poll doc attempts) pollInterval.

Definition run_task (t : task) : IM Env unit unit :=
  match t with Poll doc attempts => poll doc attempts end.

Definition handleSubmit (s : State) : IM Env unit unit :=
  when (negb (truthy_str (trim (docId s))))
    (setError (str "Document ID is required");; return_ tt);;
  when (negb (truthy_str (text s)) && negb (non_null (file s)))
    (setError (str "Either text content or a file must be provided");;
     return_ tt);;
  setLoading true;;
  setError [];;
  setMessage [];;
  try_finally
    (try_catch
       (formData <-
          (if truthy_str (metadata s) then
             (* Validate JSON *)
             try_catch
               (validated_metadata (form_fields s) (metadata s))
               (fun _ =>
                  setError (str "Invalid JSON in metadata");;
                  setLoading false;;
                  return_ tt)
           else ret (form_fields s));
        response <- fetch net (ingest_request API_BASE formData);
        when (negb (ok response))
          (errorData <- response_json response;
           detail <- get_prop (Some errorData) "detail";
           message <-
             (if truthy detail then to_string detail
              else ret (str "HTTP " ++ decimal (Z.of_N (status response))));
           throw (Error message));;
        data <- response_json response;
        if sync s then
          (* Synchronous mode - we have the final result immediately *)
          chunk_count <- get_prop (Some data) "chunk_count";
          count <- to_string chunk_count;
          setMessage (ingested_message (docId s) count);;
          setDocId [];; setTitle [];; setText [];; setFile None;; setMetadata []
        else
          (* Asynchronous mode - poll for completion *)
          setMessage (started_message (docId s));;
          (* Start polling after a short delay *)
          setTimeout (Poll (docId s) 0) 500)
       (fun err => setError (err_message err)))
    (setLoading false).

(** [selectedFile] is [e.target.files[0]]: [None] when the dialog was
    dismissed. *)
Definition handleFileChange (selectedFile : option File) : IM Env unit unit :=
  match selectedFile with
  | Some f =>
      setFile (Some f);;
      (* Clear text if file is selected *)
      setText []
  | None => ret tt
  end.

End Handlers.
End Jsx.

(** ** [src/frontend/components/navigation.tsx], second part: the page of
    the second front end ([ingest-page.tsx]) *)
Module Tsx.
Section Handlers.

Variable Env : Type.
Variable net : Request -> Env -> FetchResult * Env.

(** [process.env.NEXT_PUBLIC_API_URL], [None] when it is not set. *)
Variable NEXT_PUBLIC_API_URL : option jsstring.

Definition API_BASE : jsstring :=
  match NEXT_PUBLIC_API_URL with
  | Some (c :: r) => c :: r
  | _ => str "http://localhost:8000"
  end.

Definition clearForm {R} : IM Env R unit :=
  setDocId [];; setTitle [];; setText [];; setFile None;; setMetadata [].

Definition poll (doc : jsstring) (attempts : nat) : IM Env unit unit :=
  let attempts := S attempts in
  try_catch
    (docResponse <- fetch net (doc_request API_BASE doc);
     when (ok docResponse)
       (docData <- response_json docResponse;
        chunk_count <- get_prop (Some docData) "chunk_count";
        count <- to_string chunk_count;
        setMessage (ingested_message doc count);;
        emit (ToastSuccess (str "Document ingested!") None);;
        clearForm;;
        return_ tt))
    (fun err => emit (ConsoleWarn (str "Error polling:") err));;
  if (attempts <? maxAttempts)%nat then
    setTimeout (Poll doc attempts) pollInterval
  else
    clearForm.

Definition run_task (t : task) : IM Env unit unit :=
  match t with Poll doc attempts => poll doc attempts end.

(** [attempts] starts at 0 in the closure that [poll] shares with its
    rescheduled self. *)
Definition pollForCompletion (doc : jsstring) : IM Env unit unit :=
  setTimeout (Poll doc 0) 500.

Definition handleSubmit (s : State) : IM Env unit unit :=
  when (negb (truthy_str (trim (docId s))))
    (setError (str "Document ID is required");; return_ tt);;
  when (negb (truthy_str (text s)) && negb (non_null (file s)))
    (setError (str "Either text content or a file must be provided");;
     return_ tt);;
  setLoading true;;
  setError [];;
  setMessage [];;
  try_finally
    (try_catch
       (formData <-
          (if truthy_str (metadata s) then
             try_catch
               (validated_metadata (form_fields s) (metadata s))
               (fun _ =>
                  setError (str "Invalid JSON in metadata");;
                  setLoading false;;
                  return_ tt)
           else ret (form_fields s));
        response <- fetch net (ingest_request API_BASE formData);
        when (negb (ok response))
          (errorData <- response_json response;
           detail <- get_prop (Some errorData) "detail";
           message <-
             (if truthy detail then to_string detail
              else ret (str "HTTP " ++ decimal (Z.of_N (status response))));
           throw (Error message));;
        data <- response_json response;
        if sync s then
          chunk_count <- get_prop (Some data) "chunk_count";
          count <- to_string chunk_count;
          setMessage (ingested_message (docId s) count);;
          chunk_count' <- get_prop (Some data) "chunk_count";
          count' <- to_string chunk_count';
          emit (ToastSuccess (str "Document ingested!")
                  (Some (count' ++ str " chunks created")));;
          clearForm
        else
          setMessage (started_message (docId s));;
          _ <- call (R':=unit) (pollForCompletion (docId s)) tt;
          ret tt)
       (fun err =>
          let errorMessage := err_message err in
          setError errorMessage;;
          emit (ToastError (str "Ingestion failed") (Some errorMessage))))
    (setLoading false).

Definition handleFileChange (selectedFile : option File) : IM Env unit unit :=
  match selectedFile with
  | Some f => setFile (Some f);; setText []
  | None => ret tt
  end.

End Handlers.
End Tsx.

(** ** The form as the user drives it

    What the rendered inputs let through: every input is disabled while
    [loading], and the text area also while a file is selected
    ([disabled={loading || file}]). Any pending timer callback
    may fire between two user events. Each callback runs to its end
    here; [Interleaved], further down, suspends them at their awaits. *)
Inductive ui_event : Type :=
| TypeDocId (v : jsstring)
| TypeTitle (v : jsstring)
| TypeText (v : jsstring)
| ChooseFile (files0 : option File)
| TypeMetadata (v : jsstring)
| ToggleSync (checked : bool)
| SubmitForm
| TimerFires (which : nat).

Section Form.

Variable Env : Type.
Variable handleSubmit : State -> IM Env unit unit.
Variable handleFileChange : option File -> IM Env unit unit.
Variable run_task : task -> IM Env unit unit.

Definition enabled (e : ui_event) (sys : Sys State task Env) : bool :=
  match e with
  | TypeText _ => negb (loading (store sys) || non_null (file (store sys)))
  | TimerFires _ => true
  | _ => negb (loading (store sys))
  end.

Definition fire (e : ui_event) (sys : Sys State task Env) : Sys State task Env :=
  match e with
  | TypeDocId v => run (setDocId v) sys
  | TypeTitle v => run (setTitle v) sys
  | TypeText v => run (setText v) sys
  | ChooseFile files0 => run (handleFileChange files0) sys
  | TypeMetadata v => run (setMetadata v) sys
  | ToggleSync checked => run (setSync checked) sys
  | SubmitForm => run (handleSubmit (store sys)) sys
  | TimerFires which =>
      match nth_error (timers sys) which with
      | None => sys
      | Some (_, t) =>
          run (run_task t)
            (mkSys (store sys) (env sys) (trace sys)
               (firstn which (timers sys) ++ skipn (S which) (timers sys)))
      end
  end.

Definition ui_step (e : ui_event) (sys : Sys State task Env) : Sys State task Env :=
  if enabled e sys then fire e sys else sys.

(** The states of the page that a sequence of events leads to from the
    freshly mounted form. *)
Inductive reachable : Sys State task Env -> Prop :=
| reach_mount (w : Env) : reachable (mkSys initial w [] [])
| reach_step (e : ui_event) (sys : Sys State task Env) :
    reachable sys -> reachable (ui_step e sys).

End Form.

End Ingest.

(* ================================================================== *)
(** * The search page *)

Module Search.

Definition search_headers : list (jsstring * jsstring) :=
  [(str "Content-Type", str "application/json")].

Definition search_request (base : jsstring) (props : list (string * jsval)) : Request :=
  mkRequest (base ++ str "/search") POST search_headers
    (JsonBody (JObj (stringify_object props))).

Definition config_request (base : jsstring) : Request :=
  mkRequest (base ++ str "/config") GET [] NoBody.

(** ** [src/frontend/src/components/SearchPage.jsx] *)
Module Jsx.

Record State : Type := mkState {
  query : jsstring;
  results : jsval;
  loading : bool;
  searchTime : jsval;
  hybrid : bool;
  rerank : jsval;
  topK : jsval;
  error : jsstring
}.

Definition initial : State :=
  mkState [] (Some (JArr [])) false (Some (number 0)) true
    (Some (JBool true)) (Some (number 5)) [].

Definition with_results v s :=
  mkState (query s) v (loading s) (searchTime s) (hybrid s) (rerank s) (topK s) (error s).
Definition with_loading v s :=
  mkState (query s) (results s) v (searchTime s) (hybrid s) (rerank s) (topK s) (error s).
Definition with_searchTime v s :=
  mkState (query s) (results s) (loading s) v (hybrid s) (rerank s) (topK s) (error s).
Definition with_rerank v s :=
  mkState (query s) (results s) (loading s) (searchTime s) (hybrid s) v (topK s) (error s).
Definition with_topK v s :=
  mkState (query s) (results s) (loading s) (searchTime s) (hybrid s) (rerank s) v (error s).
Definition with_error v s :=
  mkState (query s) (results s) (loading s) (searchTime s) (hybrid s) (rerank s) (topK s) v.

Definition SM (Env R A : Type) : Type := M State Empty_set Env R A.

Section Handlers.

Variable Env : Type.
Variable net : Request -> Env -> FetchResult * Env.

Definition API_BASE : jsstring := str "http://localhost:8000".

Definition setResults {R} v : SM Env R unit := modify (with_results v).
Definition setLoading {R} v : SM Env R unit := modify (with_loading v).
Definition setSearchTime {R} v : SM Env R unit := modify (with_searchTime v).
Definition setRerank {R} v : SM Env R unit := modify (with_rerank v).
Definition setTopK {R} v : SM Env R unit := modify (with_topK v).
Definition setError {R} v : SM Env R unit := modify (with_error v).

(** The effect that runs once, when the page is mounted. *)
Definition loadConfig : SM Env unit unit :=
  try_catch
    (response <- fetch net (config_request API_BASE);
     when (ok response)
       (config <- response_json response;
        search <- get_member (Some config) "search";
        top_k <- get_prop_of search "top_k";
        setTopK top_k;;
        search' <- get_member (Some config) "search";
        reranker_enabled <- get_prop_of search' "reranker_enabled";
        setRerank reranker_enabled))
    (fun err =>
       emit (ConsoleWarn (str "Could not load config, using defaults:") err)).

Definition handleSearch (s : State) : SM Env unit unit :=
  when (negb (truthy_str (trim (query s)))) (return_ tt);;
  setLoading true;;
  setError [];;
  setResults (Some (JArr []));;
  try_finally
    (try_catch
       (response <-
          fetch net
            (search_request API_BASE
               [("q", Some (JStr (query s)));
                ("top_k", topK s);
                ("hybrid", Some (JBool (hybrid s)));
                ("rerank", rerank s)]);
        when (negb (ok response))
          (throw (Error (str "Search failed: " ++ statusText response)));;
        data <- response_json response;
        results <- get_prop (Some data) "results";
        setResults results;;
        search_time_ms <- get_prop (Some data) "search_time_ms";
        setSearchTime search_time_ms)
       (fun err => setError (err_message err)))
    (setLoading false).

End Handlers.
End Jsx.

(** ** [src/unnamed/part_002]: the search page that reloads the
    configuration before it searches *)
Module Reload.

Record State : Type := mkState {
  query : jsstring;
  results : jsval;
  loading : bool;
  searchTime : jsval;
  hybrid : bool;
  rerank : jsval;
  topK : jsval;
  hasSearched : bool
}.

Definition initial : State :=
  mkState [] (Some (JArr [])) false (Some (number 0)) true
    (Some (JBool true)) (Some (number 5)) false.

Definition with_results v s :=
  mkState (query s) v (loading s) (searchTime s) (hybrid s) (rerank s) (topK s) (hasSearched s).
Definition with_loading v s :=
  mkState (query s) (results s) v (searchTime s) (hybrid s) (rerank s) (topK s) (hasSearched s).
Definition with_searchTime v s :=
  mkState (query s) (results s) (loading s) v (hybrid s) (rerank s) (topK s) (hasSearched s).
Definition with_rerank v s :=
  mkState (query s) (results s) (loading s) (searchTime s) (hybrid s) v (topK s) (hasSearched s).
Definition with_topK v s :=
  mkState (query s) (results s) (loading s) (searchTime s) (hybrid s) (rerank s) v (hasSearched s).
Definition with_hasSearched v s :=
  mkState (query s) (results s) (loading s) (searchTime s) (hybrid s) (rerank s) (topK s) v.

Definition SM (Env R A : Type) : Type := M State Empty_set Env R A.

Section Handlers.

Variable Env : Type.
Variable net : Request -> Env -> FetchResult * Env.
Variable NEXT_PUBLIC_API_URL : option jsstring.

Definition API_BASE : jsstring :=
  match NEXT_PUBLIC_API_URL with
  | Some (c :: r) => c :: r
  | _ => str "http://localhost:8000"
  end.

Definition setResults {R} v : SM Env R unit := modify (with_results v).
Definition setLoading {R} v : SM Env R unit := modify (with_loading v).
Definition setSearchTime {R} v : SM Env R unit := modify (with_searchTime v).
Definition setRerank {R} v : SM Env R unit := modify (with_rerank v).
Definition setTopK {R} v : SM Env R unit := modify (with_topK v).
Definition setHasSearched {R} v : SM Env R unit := modify (with_hasSearched v).

Definition loadConfig : SM Env unit unit :=
  try_catch
    (response <- fetch net (config_request API_BASE);
     when (ok response)
       (config <- response_json response;
        search <- get_member (Some config) "search";
        top_k <- get_prop_of search "top_k";
        setTopK top_k;;
        search' <- get_member (Some config) "search";
        reranker_enabled <- get_prop_of search' "reranker_enabled";
        setRerank reranker_enabled))
    (fun err =>
       emit (ConsoleWarn (str "Could not reload config, using current values:") err)).

(** [topK], [hybrid] and [rerank] in the request are the handler's own
    variables: the values of the render that created it. *)
Definition handleSearch (s : State) : SM Env unit unit :=
  when (negb (truthy_str (trim (query s)))) (return_ tt);;
  setLoading true;;
  setResults (Some (JArr []));;
  setHasSearched true;;
  try_finally
    (try_catch
       ((* Reload config before search to ensure latest settings *)
        _ <- call (R':=unit) loadConfig tt;
        response <-
          fetch net
            (search_request API_BASE
               [("q", Some (JStr (query s)));
                ("top_k", topK s);
                ("hybrid", Some (JBool (hybrid s)));
                ("rerank", rerank s)]);
        when (negb (ok response))
          (throw (Error (str "Search failed: " ++ statusText response)));;
        data <- response_json response;
        results <- get_prop (Some data) "results";
        setResults results;;
        search_time_ms <- get_prop (Some data) "search_time_ms";
        setSearchTime search_time_ms)
       (fun err =>
          emit (ToastError (str "Search failed") (Some (err_message err)))))
    (setLoading false).

End Handlers.
End Reload.

(** ** [src/frontend/components/search-page.tsx]: the search page with
    pagination *)
Module Paged.

Record State : Type := mkState {
  query : jsstring;
  results : jsval;
  loading : bool;
  searchTime : jsval;
  hybrid : bool;
  rerank : jsval;
  topK : jsval;
  hasSearched : bool;
  currentPage : Z;
  totalCount : jsval;
  pageSize : Z
}.

Definition initial : State :=
  mkState [] (Some (JArr [])) false (Some (number 0)) true
    (Some (JBool true)) (Some (number 5)) false 1 (Some (number 0)) 5.

Definition with_results v s :=
  mkState (query s) v (loading s) (searchTime s) (hybrid s) (rerank s) (topK s)
    (hasSearched s) (currentPage s) (totalCount s) (pageSize s).
Definition with_loading v s :=
  mkState (query s) (results s) v (searchTime s) (hybrid s) (rerank s) (topK s)
    (hasSearched s) (currentPage s) (totalCount s) (pageSize s).
Definition with_searchTime v s :=
  mkState (query s) (results s) (loading s) v (hybrid s) (rerank s) (topK s)
    (hasSearched s) (currentPage s) (totalCount s) (pageSize s).
Definition with_hasSearched v s :=
  mkState (query s) (results s) (loading s) (searchTime s) (hybrid s) (rerank s) (topK s)
    v (currentPage s) (totalCount s) (pageSize s).
Definition with_currentPage v s :=
  mkState (query s) (results s) (loading s) (searchTime s) (hybrid s) (rerank s) (topK s)
    (hasSearched s) v (totalCount s) (pageSize s).
Definition with_totalCount v s :=
  mkState (query s) (results s) (loading s) (searchTime s) (hybrid s) (rerank s) (topK s)
    (hasSearched s) (currentPage s) v (pageSize s).

Definition SM (Env R A : Type) : Type := M State Empty_set Env R A.

Section Handlers.

Variable Env : Type.
Variable net : Request -> Env -> FetchResult * Env.
Variable NEXT_PUBLIC_API_URL : option jsstring.

Definition API_BASE : jsstring :=
  match NEXT_PUBLIC_API_URL with
  | Some (c :: r) => c :: r
  | _ => str "http://localhost:8000"
  end.

Definition setResults {R} v : SM Env R unit := modify (with_results v).
Definition setLoading {R} v : SM Env R unit := modify (with_loading v).
Definition setSearchTime {R} v : SM Env R unit := modify (with_searchTime v).
Definition setHasSearched {R} v : SM Env R unit := modify (with_hasSearched v).
Definition setCurrentPage {R} v : SM Env R unit := modify (with_currentPage v).
Definition setTotalCount {R} v : SM Env R unit := modify (with_totalCount v).

Definition performSearch (s : State) (page : Z) : SM Env json unit :=
  let offset := ((page - 1) * pageSize s)%Z in
  response <-
    fetch net
      (search_request API_BASE
         [("q", Some (JStr (query s)));
          ("top_k", topK s);
          ("offset", Some (number offset));
          ("limit", Some (number (pageSize s)));
          ("hybrid", Some (JBool (hybrid s)));
          ("rerank", rerank s)]);
  when (negb (ok response))
    (throw (Error (str "Search failed: " ++ statusText response)));;
  data <- response_json response;
  results <- get_prop (Some data) "results";
  setResults results;;
  total_count <- get_prop (Some data) "total_count";
  setTotalCount total_count;;
  setCurrentPage page;;
  search_time_ms <- get_prop (Some data) "search_time_ms";
  setSearchTime search_time_ms;;
  return_ data.

Definition handleSearch (s : State) : SM Env unit unit :=
  when (negb (truthy_str (trim (query s)))) (return_ tt);;
  setLoading true;;
  setResults (Some (JArr []));;
  setHasSearched true;;
  setCurrentPage 1%Z;;
  try_finally
    (try_catch
       (_ <- call (R':=unit) (performSearch s 1) JNull;
        ret tt)
       (fun err =>
          emit (ToastError (str "Search failed") (Some (err_message err)))))
    (setLoading false).

End Handlers.
End Paged.

End Search.

(* ================================================================== *)
(** * The settings page *)

Module Settings.

(** The sections of the configuration record. *)
Inductive section : Type := Database | Vector | Embedding | SearchSettings.

Inductive category : Type := Dynamic | RestartNeeded.

(** A validation verdict, [{ valid, message }]. *)
Definition verdict (valid : bool) (msg : jsstring) : jsval :=
  Some (JObj [(str "valid", JBool valid); (str "message", JStr msg)]).

Definition is_verdict (v : jsval) : bool :=
  match v with
  | Some (JObj ms) =>
      match lookup_member (str "valid") ms, lookup_member (str "message") ms with
      | Some (JBool _), Some (JStr _) => true
      | _, _ => false
      end
  | _ => false
  end.

Definition validate_request (base dbUrl : jsstring) : Request :=
  mkRequest (base ++ str "/config/validate-db") POST []
    (FormBody (append [] "db_url" (FormString dbUrl))).

Definition save_request (base : jsstring) (updates : json) : Request :=
  mkRequest (base ++ str "/config") POST
    [(str "Content-Type", str "application/json")] (JsonBody updates).

Definition reload_request (base : jsstring) : Request :=
  mkRequest (base ++ str "/config/reload") POST [] NoBody.

(** [s || null] for a string [s] *)
Definition or_null (s : jsstring) : json :=
  if truthy_str s then JStr s else JNull.

(** ** [src/frontend/src/components/SettingsPage.jsx] *)
Module Jsx.

(** The form cells, one per input of the page. *)
Record Fields : Type := mkFields {
  dbUrl : jsstring;
  dbPoolSize : json;
  dbMaxOverflow : json;
  vectorBackend : jsstring;
  faissIndexPath : jsstring;
  faissM : json;
  faissEfConstruction : json;
  faissEfSearch : json;
  embeddingProvider : jsstring;
  embeddingModel : jsstring;
  embeddingDimension : json;
  openaiApiKey : jsstring;
  chunkTokens : json;
  topK : json;
  rerankerEnabled : bool;
  rerankerModel : jsstring
}.

Record State : Type := mkState {
  config : jsval;
  loading : bool;
  saving : bool;
  message : jsstring;
  error : jsstring;
  fields : Fields;
  dbValidation : jsval;
  validatingDb : bool
}.

Definition initial : State :=
  mkState (Some JNull) true false [] []
    (mkFields [] (number 10) (number 20)
       (str "faiss") (str "/data/faiss") (number 32) (number 200) (number 64)
       (str "local") (str "all-mpnet-base-v2") (number 768) []
       (number 512) (number 5) false (str "cross-encoder/ms-marco-MiniLM-L-6-v2"))
    (Some JNull) false.

Definition with_config v s :=
  mkState v (loading s) (saving s) (message s) (error s) (fields s) (dbValidation s) (validatingDb s).
Definition with_saving v s :=
  mkState (config s) (loading s) v (message s) (error s) (fields s) (dbValidation s) (validatingDb s).
Definition with_message v s :=
  mkState (config s) (loading s) (saving s) v (error s) (fields s) (dbValidation s) (validatingDb s).
Definition with_error v s :=
  mkState (config s) (loading s) (saving s) (message s) v (fields s) (dbValidation s) (validatingDb s).
Definition with_dbValidation v s :=
  mkState (config s) (loading s) (saving s) (message s) (error s) (fields s) v (validatingDb s).
Definition with_validatingDb v s :=
  mkState (config s) (loading s) (saving s) (message s) (error s) (fields s) (dbValidation s) v.

Definition SM (Env R A : Type) : Type := M State Empty_set Env R A.

(** The object [saveConfig] posts. *)
Definition updates (f : Fields) : json :=
  JObj
    [(str "database",
      JObj [(str "url", JStr (dbUrl f));
            (str "pool_size", dbPoolSize f);
            (str "max_overflow", dbMaxOverflow f)]);
     (str "vector",
      JObj [(str "backend", JStr (vectorBackend f));
            (str "faiss_index_path", JStr (faissIndexPath f));
            (str "faiss_m", faissM f);
            (str "faiss_ef_construction", faissEfConstruction f);
            (str "faiss_ef_search", faissEfSearch f)]);
     (str "embedding",
      JObj [(str "provider", JStr (embeddingProvider f));
            (str "model", JStr (embeddingModel f));
            (str "dimension", embeddingDimension f);
            (str "openai_api_key", or_null (openaiApiKey f))]);
     (str "search",
      JObj [(str "chunk_tokens", chunkTokens f);
            (str "top_k", topK f);
            (str "reranker_enabled", JBool (rerankerEnabled f));
            (str "reranker_model", JStr (rerankerModel f))])].

Definition saved_message : jsstring :=
  str "Configuration saved successfully! Restart the service to apply changes.".

Section Handlers.

Variable Env : Type.
Variable net : Request -> Env -> FetchResult * Env.

Definition API_BASE : jsstring := str "http://localhost:8000".

Definition setConfig {R} v : SM Env R unit := modify (with_config v).
Definition setSaving {R} v : SM Env R unit := modify (with_saving v).
Definition setMessage {R} v : SM Env R unit := modify (with_message v).
Definition setError {R} v : SM Env R unit := modify (with_error v).
Definition setDbValidation {R} v : SM Env R unit := modify (with_dbValidation v).
Definition setValidatingDb {R} v : SM Env R unit := modify (with_validatingDb v).

Definition validateDatabase (s : State) : SM Env unit unit :=
  when (negb (truthy_str (trim (dbUrl (fields s)))))
    (setDbValidation (verdict false (str "Database URL is required"));;
     return_ tt);;
  try_finally
    (try_catch
       (setValidatingDb true;;
        response <- fetch net (validate_request API_BASE (dbUrl (fields s)));
        when (negb (ok response)) (throw (Error (str "Validation failed")));;
        result <- response_json response;
        setDbValidation (Some result))
       (fun err => setDbValidation (verdict false (err_message err))))
    (setValidatingDb false).

Definition saveConfig (s : State) : SM Env unit unit :=
  try_finally
    (try_catch
       (setSaving true;;
        setError [];;
        setMessage [];;
        response <- fetch net (save_request API_BASE (updates (fields s)));
        when (negb (ok response))
          (throw (Error (str "Failed to save configuration")));;
        newConfig <- response_json response;
        setConfig (Some newConfig);;
        setMessage saved_message)
       (fun err => setError (err_message err)))
    (setSaving false).

End Handlers.
End Jsx.

(** ** [src/frontend/components/settings-page.tsx] *)
Module Tsx.

Record Fields : Type := mkFields {
  dbUrl : jsstring;
  dbPoolSize : json;
  dbMaxOverflow : json;
  vectorBackend : jsstring;
  faissIndexPath : jsstring;
  faissM : json;
  faissEfConstruction : json;
  faissEfSearch : json;
  embeddingProvider : jsstring;
  embeddingModel : jsstring;
  embeddingDimension : json;
  openaiApiKey : jsstring;
  openaiModel : jsstring;
  chunkTokens : json;
  topK : json;
  rerankerEnabled : bool;
  rerankerModel : jsstring
}.

Record State : Type := mkState {
  loading : bool;
  saving : bool;
  message : jsstring;
  error : jsstring;
  fields : Fields;
  dbValidation : jsval;
  validatingDb : bool
}.

Definition initial : State :=
  mkState true false [] []
    (mkFields [] (number 10) (number 20)
       (str "faiss") (str "/data/faiss") (number 32) (number 200) (number 64)
       (str "local") (str "all-mpnet-base-v2") (number 768) []
       (str "text-embedding-3-small")
       (number 512) (number 5) false (str "cross-encoder/ms-marco-MiniLM-L-6-v2"))
    (Some JNull) false.

Definition with_saving v s :=
  mkState (loading s) v (message s) (error s) (fields s) (dbValidation s) (validatingDb s).
Definition with_message v s :=
  mkState (loading s) (saving s) v (error s) (fields s) (dbValidation s) (validatingDb s).
Definition with_error v s :=
  mkState (loading s) (saving s) (message s) v (fields s) (dbValidation s) (validatingDb s).
Definition with_dbValidation v s :=
  mkState (loading s) (saving s) (message s) (error s) (fields s) v (validatingDb s).
Definition with_validatingDb v s :=
  mkState (loading s) (saving s) (message s) (error s) (fields s) (dbValidation s) v.

Definition SM (Env R A : Type) : Type := M State Empty_set Env R A.

Definition updates (f : Fields) : json :=
  JObj
    [(str "database",
      JObj [(str "url", JStr (dbUrl f));
            (str "pool_size", dbPoolSize f);
            (str "max_overflow", dbMaxOverflow f)]);
     (str "vector",
      JObj [(str "backend", JStr (vectorBackend f));
            (str "faiss_index_path", JStr (faissIndexPath f));
            (str "faiss_m", faissM f);
            (str "faiss_ef_construction", faissEfConstruction f);
            (str "faiss_ef_search", faissEfSearch f)]);
     (str "embedding",
      JObj [(str "provider", JStr (embeddingProvider f));
            (str "model", JStr (embeddingModel f));
            (str "dimension", embeddingDimension f);
            (str "openai_api_key", or_null (openaiApiKey f));
            (str "openai_model", JStr (openaiModel f))]);
     (str "search",
      JObj [(str "chunk_tokens", chunkTokens f);
            (str "top_k", topK f);
            (str "reranker_enabled", JBool (rerankerEnabled f));
            (str "reranker_model", JStr (rerankerModel f))])].

Definition saved_message : jsstring := str "Configuration saved successfully!".

(** The legend under the page header: which sections apply without a
    restart. The database section is in neither list. *)
Definition legend (sec : section) : option category :=
  match sec with
  | SearchSettings => Some Dynamic
  | Embedding | Vector => Some RestartNeeded
  | Database => None
  end.

(** The note rendered inside the success alert, when the message
    contains the word saved. *)
Definition restart_note (message : jsstring) : option jsstring :=
  if includes message (str "saved") then
    Some (str "Note: Some changes (embedding models, vector backends) require server restart to take effect.")
  else None.

Section Handlers.

Variable Env : Type.
Variable net : Request -> Env -> FetchResult * Env.
Variable NEXT_PUBLIC_API_URL : option jsstring.

Definition API_BASE : jsstring :=
  match NEXT_PUBLIC_API_URL with
  | Some (c :: r) => c :: r
  | _ => str "http://localhost:8000"
  end.

Definition setSaving {R} v : SM Env R unit := modify (with_saving v).
Definition setMessage {R} v : SM Env R unit := modify (with_message v).
Definition setError {R} v : SM Env R unit := modify (with_error v).
Definition setDbValidation {R} v : SM Env R unit := modify (with_dbValidation v).
Definition setValidatingDb {R} v : SM Env R unit := modify (with_validatingDb v).

Definition validateDatabase (s : State) : SM Env unit unit :=
  when (negb (truthy_str (trim (dbUrl (fields s)))))
    (setDbValidation (verdict false (str "Database URL is required"));;
     return_ tt);;
  try_finally
    (try_catch
       (setValidatingDb true;;
        response <- fetch net (validate_request API_BASE (dbUrl (fields s)));
        when (negb (ok response)) (throw (Error (str "Validation failed")));;
        result <- response_json response;
        setDbValidation (Some result))
       (fun err => setDbValidation (verdict false (err_message err))))
    (setValidatingDb false).

Definition saveConfig (s : State) : SM Env unit unit :=
  try_finally
    (try_catch
       (setSaving true;;
        setError [];;
        setMessage [];;
        response <- fetch net (save_request API_BASE (updates (fields s)));
        when (negb (ok response))
          (throw (Error (str "Failed to save configuration")));;
        (* Try to reload configuration on the server *)
        try_catch
          (_ <- fetch net (reload_request API_BASE); ret tt)
          (fun reloadErr =>
             emit (ConsoleWarn (str "Could not reload configuration on server:")
                     reloadErr));;
        setMessage saved_message;;
        emit (ToastSuccess (str "Configuration saved!") None))
       (fun err =>
          let errorMessage := err_message err in
          setError errorMessage;;
          emit (ToastError (str "Save failed") (Some errorMessage))))
    (setSaving false).

End Handlers.
End Tsx.

End Settings.

(* ================================================================== *)
(** * The shell around the pages *)

Module Shell.

(** The three pages, [search], [ingest] and [settings]. *)
Inductive page : Type := SearchPage | IngestPage | SettingsPage.

Definition id_of (p : page) : jsstring :=
  match p with
  | SearchPage => str "search"
  | IngestPage => str "ingest"
  | SettingsPage => str "settings"
  end.

Definition page_eqb (a b : page) : bool :=
  match a, b with
  | SearchPage, SearchPage | IngestPage, IngestPage
  | SettingsPage, SettingsPage => true
  | _, _ => false
  end.

(** ** [src/frontend/src/App.jsx] *)
Module Jsx.

(** [useState('search')] *)
Definition initial : jsstring := str "search".

(** The [onClick] of the button of page [b]. *)
Definition onClick (b : page) (currentPage : jsstring) : jsstring := id_of b.

(** The button of page [b] has the classes of the current page. *)
Definition highlighted (b : page) (currentPage : jsstring) : bool :=
  jsstring_eqb currentPage (id_of b).

(** The page rendered in [main]. *)
Definition main (currentPage : jsstring) : page :=
  if jsstring_eqb currentPage (str "search") then SearchPage
  else if jsstring_eqb currentPage (str "ingest") then IngestPage
  else SettingsPage.

End Jsx.

(** ** [src/unnamed/part_000] ([Home]) with the [Navigation] of
    [src/frontend/components/navigation.tsx] *)
Module Tsx.

Record navItem : Type := mkItem { id : page; label : jsstring }.

Definition navItems : list navItem :=
  [mkItem SearchPage (str "Search");
   mkItem IngestPage (str "Ingest");
   mkItem SettingsPage (str "Settings")].

(** [useState<"search" | "ingest" | "settings">("search")] *)
Definition initial : page := SearchPage.

Definition isActive (currentPage : page) (item : navItem) : bool :=
  page_eqb currentPage (id item).

(** [onClick={() => onNavigate(item.id)}], with [onNavigate] the setter
    of [currentPage]. *)
Definition onClick (item : navItem) (currentPage : page) : page := id item.

(** The item of [navItems] for a page. *)
Definition item_of (p : page) : navItem :=
  match p with
  | SearchPage => mkItem SearchPage (str "Search")
  | IngestPage => mkItem IngestPage (str "Ingest")
  | SettingsPage => mkItem SettingsPage (str "Settings")
  end.

(** The pages rendered in [main], one conditional each. *)
Definition main (currentPage : page) : list page :=
  (if page_eqb currentPage SearchPage then [SearchPage] else [])
  ++ (if page_eqb currentPage IngestPage then [IngestPage] else [])
  ++ (if page_eqb currentPage SettingsPage then [SettingsPage] else []).

End Tsx.

End Shell.

(* ================================================================== *)
(** * Concrete environments and page states *)

Module Scenario.

Definition ok_json (v : json) : FetchResult :=
  Answer (mkResponse 200 (str "OK") (Parsed v)).

Definition not_found : FetchResult :=
  Answer (mkResponse 404 (str "Not Found")
            (Parsed (JObj [(str "detail", JStr (str "Document not found"))]))).

Definition local_base : jsstring := str "http://localhost:8000".

(** A service whose stored search settings are by now [top_k = 10] and
    [reranker_enabled = false], and whose index is empty. *)
Definition fresh_config : json :=
  JObj [(str "search",
         JObj [(str "top_k", number 10);
               (str "reranker_enabled", JBool false)])].

Definition empty_results : json :=
  JObj [(str "query", JStr (str "fox"));
        (str "results", JArr []);
        (str "total_count", number 0);
        (str "offset", number 0);
        (str "limit", number 5);
        (str "search_time_ms", number 3)].

Definition search_service (req : Request) (w : unit) : FetchResult * unit :=
  if jsstring_eqb (url req) (local_base ++ str "/config")
  then (ok_json fresh_config, w)
  else (ok_json empty_results, w).

(** The page with the settings it loaded when it was mounted (5 and
    true), and a query typed in. *)
Definition fox_query : Search.Reload.State :=
  Search.Reload.mkState (str "fox") (Some (JArr [])) false (Some (number 0))
    true (Some (JBool true)) (Some (number 5)) false.

Definition fox_query_jsx : Search.Jsx.State :=
  Search.Jsx.mkState (str "fox") (Some (JArr [])) false (Some (number 0))
    true (Some (JBool true)) (Some (number 5)) [].

Definition blank_query : Search.Reload.State :=
  Search.Reload.mkState (str "   ") (Some (JArr [])) false (Some (number 0))
    true (Some (JBool true)) (Some (number 5)) false.

(** A service that accepts every ingestion and finishes it at once. *)
Definition accepting (req : Request) (w : unit) : FetchResult * unit :=
  (ok_json (JObj [(str "status", JStr (str "started"));
                  (str "chunk_count", number 1)]), w).

(** A service that accepts an ingestion and needs longer than ten polls
    to finish it: the document is there from the eleventh request for it
    on. The state counts the requests for the document. *)
Definition slow_ingestion (req : Request) (polls : nat) : FetchResult * nat :=
  match method req with
  | POST => (ok_json (JObj [(str "status", JStr (str "started"))]), polls)
  | GET =>
      if (polls <? 10)%nat then (not_found, S polls)
      else (ok_json (JObj [(str "doc_id", JStr (str "docX"));
                           (str "chunk_count", number 3)]), S polls)
  end.

(** A service that finishes the ingestion before the third poll. *)
Definition quick_ingestion (req : Request) (polls : nat) : FetchResult * nat :=
  match method req with
  | POST => (ok_json (JObj [(str "status", JStr (str "started"))]), polls)
  | GET =>
      if (polls <? 2)%nat then (not_found, S polls)
      else (ok_json (JObj [(str "doc_id", JStr (str "docX"));
                           (str "chunk_count", number 3)]), S polls)
  end.

Definition report_pdf : File := mkFile (str "report.pdf") [37; 80; 68; 70]%N.

Definition text_form : Ingest.State :=
  Ingest.mkState (str "docX") [] (str "The quick brown fox") None [] false false [] [].

Definition array_metadata_form : Ingest.State :=
  Ingest.mkState (str "docX") [] (str "The quick brown fox") None (str "[1]")
    false false [] [].

Definition broken_metadata_form : Ingest.State :=
  Ingest.mkState (str "docX") [] (str "The quick brown fox") None (str "{author}")
    false false [] [].

Definition blank_id_form : Ingest.State :=
  Ingest.mkState (str "  ") [] (str "The quick brown fox") None [] false false [] [].

Definition empty_form : Ingest.State :=
  Ingest.mkState (str "docX") [] [] None [] false false [] [].

(** A configuration service: the state is the saved record; a post to
    [/config] replaces it, validation and reload leave it alone. *)
Definition config_service (req : Request) (saved : json) : FetchResult * json :=
  if jsstring_eqb (url req) (local_base ++ str "/config/validate-db") then
    (ok_json (JObj [(str "valid", JBool true);
                    (str "message", JStr (str "Database connection successful"))]),
     saved)
  else if jsstring_eqb (url req) (local_base ++ str "/config/reload") then
    (ok_json (JObj [(str "status", JStr (str "reloaded"))]), saved)
  else
    match method req, body req with
    | POST, JsonBody v => (ok_json v, v)
    | _, _ => (ok_json saved, saved)
    end.

Definition settings_loaded : Settings.Jsx.State :=
  Settings.Jsx.mkState (Some JNull) false false [] []
    (Settings.Jsx.mkFields (str "postgresql://u:p@db:5432/search")
       (number 10) (number 20)
       (str "faiss") (str "/data/faiss") (number 32) (number 200) (number 64)
       (str "local") (str "all-mpnet-base-v2") (number 768) []
       (number 512) (number 5) false (str "cross-encoder/ms-marco-MiniLM-L-6-v2"))
    (Some JNull) false.

Definition tsx_fields (provider : jsstring) (top_k : Z) : Settings.Tsx.Fields :=
  Settings.Tsx.mkFields (str "postgresql://u:p@db:5432/search")
    (number 10) (number 20)
    (str "faiss") (str "/data/faiss") (number 32) (number 200) (number 64)
    provider (str "all-mpnet-base-v2") (number 768) []
    (str "text-embedding-3-small")
    (number 512) (number top_k) false (str "cross-encoder/ms-marco-MiniLM-L-6-v2").

Definition jsx_fields (provider : jsstring) (top_k : Z) : Settings.Jsx.Fields :=
  Settings.Jsx.mkFields (str "postgresql://u:p@db:5432/search")
    (number 10) (number 20)
    (str "faiss") (str "/data/faiss") (number 32) (number 200) (number 64)
    provider (str "all-mpnet-base-v2") (number 768) []
    (number 512) (number top_k) false (str "cross-encoder/ms-marco-MiniLM-L-6-v2").

(** Two edits of the loaded form: one changes a search setting only,
    the other the embedding provider only. *)
Definition edit_top_k_jsx : Settings.Jsx.State :=
  Settings.Jsx.mkState (Some JNull) false false [] [] (jsx_fields (str "local") 10)
    (Some JNull) false.

Definition edit_provider_jsx : Settings.Jsx.State :=
  Settings.Jsx.mkState (Some JNull) false false [] [] (jsx_fields (str "openai") 5)
    (Some JNull) false.

Definition edit_top_k_tsx : Settings.Tsx.State :=
  Settings.Tsx.mkState false false [] [] (tsx_fields (str "local") 10) (Some JNull) false.

Definition edit_provider_tsx : Settings.Tsx.State :=
  Settings.Tsx.mkState false false [] [] (tsx_fields (str "openai") 5) (Some JNull) false.

Definition start {St Task Env : Type} (s : St) (w : Env) : Sys St Task Env :=
  mkSys s w [] [].

End Scenario.

(** ** Services and forms for the outcomes *)

Module Outcome.

Definition sync_form : Ingest.State :=
  Ingest.mkState (str "docX") [] (str "The quick brown fox") None [] true false [] [].

(** A service that has the document already. *)
Definition conflict : Response :=
  mkResponse 409 (str "Conflict")
    (Parsed (JObj [(str "detail", JStr (str "Document already exists"))])).

Definition rejecting (req : Request) (w : unit) : FetchResult * unit :=
  (Answer conflict, w).

(** A service whose answers hold, as [chunk_count] and as [detail], an
    object with a [toString] member of its own. *)
Definition unprintable_value : json := JObj [(str "toString", JStr (str "3"))].

Definition unprintable_count : Response :=
  mkResponse 200 (str "OK") (Parsed (JObj [(str "chunk_count", unprintable_value)])).

Definition unprintable (req : Request) (w : unit) : FetchResult * unit :=
  (Answer unprintable_count, w).

Definition unprintable_detail : Response :=
  mkResponse 422 (str "Unprocessable Entity")
    (Parsed (JObj [(str "detail", unprintable_value)])).

Definition rejecting_unprintable (req : Request) (w : unit) : FetchResult * unit :=
  (Answer unprintable_detail, w).

(** No service at all. *)
Definition offline (req : Request) (w : unit) : FetchResult * unit :=
  (NetworkError (str "Failed to fetch"), w).

(** A service whose configuration has a search section without
    [top_k]. *)
Definition partial_section : list (jsstring * json) :=
  [(str "reranker_enabled", JBool false)].

Definition partial_config : Response :=
  mkResponse 200 (str "OK") (Parsed (JObj [(str "search", JObj partial_section)])).

Definition partial_service (req : Request) (w : unit) : FetchResult * unit :=
  (Answer partial_config, w).



(** A service that answers with a JSON string. *)
Definition text_config : Response :=
  mkResponse 200 (str "OK") (Parsed (JStr (str "maintenance"))).

Definition answering_text (req : Request) (w : unit) : FetchResult * unit :=
  (Answer text_config, w).

Definition fox_query_paged : Search.Paged.State :=
  Search.Paged.mkState (str "fox") (Some (JArr [])) false (Some (number 0)) true
    (Some (JBool true)) (Some (number 5)) false 1 (Some (number 0)) 5.

End Outcome.

(* ================================================================== *)
(** * Vocabulary of the properties *)

(** A string of white space only (the empty string included). *)
Definition blank (s : jsstring) : bool := forallb is_js_space s.

(** The requests a log records, oldest first. *)
Fixpoint requests (tr : list event) : list Request :=
  match tr with
  | [] => []
  | Fetch req _ :: r => req :: requests r
  | _ :: r => requests r
  end.

(** The answers a log records, oldest first. *)
Fixpoint answers (tr : list event) : list FetchResult :=
  match tr with
  | [] => []
  | Fetch _ res :: r => res :: answers r
  | _ :: r => answers r
  end.

(** The delays of the timers a log records. *)
Fixpoint delays (tr : list event) : list N :=
  match tr with
  | [] => []
  | SetTimeout ms :: r => ms :: delays r
  | _ :: r => delays r
  end.

(** A member of the JSON object a request carries. *)
Definition body_member (req : Request) (k : string) : jsval :=
  match body req with
  | JsonBody (JObj ms) => lookup_member (str k) ms
  | _ => None
  end.

(** A field of the form data a request carries. *)
Fixpoint form_field (k : jsstring) (fd : FormData) : option form_value :=
  match fd with
  | [] => None
  | (k', v) :: r => if jsstring_eqb k k' then Some v else form_field k r
  end.

Definition body_field (req : Request) (k : string) : option form_value :=
  match body req with
  | FormBody fd => form_field (str k) fd
  | _ => None
  end.

(** The search request of each version of the page, from the state its
    handler closed over. *)
Definition jsx_search (s : Search.Jsx.State) : Request :=
  Search.search_request Search.Jsx.API_BASE
    [("q", Some (JStr (Search.Jsx.query s)));
     ("top_k", Search.Jsx.topK s);
     ("hybrid", Some (JBool (Search.Jsx.hybrid s)));
     ("rerank", Search.Jsx.rerank s)].

Definition reload_search (api : option jsstring) (s : Search.Reload.State) : Request :=
  Search.search_request (Search.Reload.API_BASE api)
    [("q", Some (JStr (Search.Reload.query s)));
     ("top_k", Search.Reload.topK s);
     ("hybrid", Some (JBool (Search.Reload.hybrid s)));
     ("rerank", Search.Reload.rerank s)].

Definition paged_search (api : option jsstring) (s : Search.Paged.State) (page : Z)
  : Request :=
  Search.search_request (Search.Paged.API_BASE api)
    [("q", Some (JStr (Search.Paged.query s)));
     ("top_k", Search.Paged.topK s);
     ("offset", Some (number ((page - 1) * Search.Paged.pageSize s)));
     ("limit", Some (number (Search.Paged.pageSize s)));
     ("hybrid", Some (JBool (Search.Paged.hybrid s)));
     ("rerank", Search.Paged.rerank s)].

(** What [handleSubmit] checks before it sends anything. *)
Definition has_content (s : Ingest.State) : bool :=
  truthy_str (Ingest.text s) || non_null (Ingest.file s).

Definition metadata_accepted (s : Ingest.State) : bool :=
  negb (truthy_str (Ingest.metadata s)) || non_null (JSON_parse (Ingest.metadata s)).

Definition valid_submission (s : Ingest.State) : bool :=
  negb (blank (Ingest.docId s)) && has_content s && metadata_accepted s.

(** The form data of the request, metadata included. *)
Definition submitted_form (s : Ingest.State) : FormData :=
  if truthy_str (Ingest.metadata s)
  then append (Ingest.form_fields s) "metadata" (FormString (Ingest.metadata s))
  else Ingest.form_fields s.

(** What is asked of a submission: a document id, and exactly one of
    a text and a file. *)
Definition meets_requirement (s : Ingest.State) : bool :=
  negb (blank (Ingest.docId s))
  && xorb (truthy_str (Ingest.text s)) (non_null (Ingest.file s)).

(** The validation error of a form that [handleSubmit] turns down at
    one of its two checks. *)
Definition validation_error (s : Ingest.State) : jsstring :=
  if blank (Ingest.docId s) then str "Document ID is required"
  else str "Either text content or a file must be provided".

(** The form with its five inputs emptied. *)
Definition cleared (s : Ingest.State) : Ingest.State :=
  Ingest.with_metadata []
    (Ingest.with_file None
       (Ingest.with_text [] (Ingest.with_title [] (Ingest.with_docId [] s)))).

Definition is_cleared (s : Ingest.State) : Prop :=
  Ingest.docId s = [] /\ Ingest.title s = [] /\ Ingest.text s = [] /\
  Ingest.file s = None /\ Ingest.metadata s = [].

(** What a poll makes of an answer: the chunk count as it prints, when
    the answer is a success whose body can be read as a document (it
    parses, is not [null], and its [chunk_count] can be converted to a
    string); [None] otherwise (not found, another failure, no answer, a
    body that cannot be read). *)
Definition document_of (res : FetchResult) : option jsstring :=
  match res with
  | NetworkError _ => None
  | Answer r =>
      if ok r then
        match content r with
        | Parsed JNull => None
        | Parsed (JObj ms) => ToString (lookup_member (str "chunk_count") ms)
        | Parsed _ => ToString None
        | Unparsable _ => None
        end
      else None
  end.

Definition pending (res : FetchResult) : Prop := document_of res = None.

(** Every poll but the last found the document pending. *)
Fixpoint pending_until_last (l : list FetchResult) : Prop :=
  match l with
  | [] => True
  | res :: r =>
      match r with
      | [] => True
      | _ :: _ => pending res /\ pending_until_last r
      end
  end.

(** A request that carries a text field and a file field. *)
Definition text_and_file (req : Request) : bool :=
  non_null (body_field req "text") && non_null (body_field req "file").

(** The invariant of the ingest form. *)
Definition file_excludes_text (s : Ingest.State) : Prop :=
  Ingest.file s <> None -> Ingest.text s = [].

(** What one firing of the [poll] timer does, for a page with base URL
    [base] and timer callbacks [run_task]. *)
Definition poll_step_spec {Env : Type}
    (net : Request -> Env -> FetchResult * Env) (base : jsstring)
    (run_task : Ingest.task -> Ingest.IM Env unit unit) : Prop :=
  forall doc a (sys : Sys Ingest.State Ingest.task Env),
    timers sys = [] ->
    let req := Ingest.doc_request base doc in
    let res := fst (net req (env sys)) in
    let sys' := run (run_task (Ingest.Poll doc a)) sys in
    env sys' = snd (net req (env sys)) /\
    requests (trace sys') = requests (trace sys) ++ [req] /\
    answers (trace sys') = answers (trace sys) ++ [res] /\
    match document_of res with
    | Some cc =>
        timers sys' = [] /\
        store sys' = cleared (Ingest.with_message (Ingest.ingested_message doc cc) (store sys)) /\
        delays (trace sys') = delays (trace sys)
    | None =>
        if (S a <? Ingest.maxAttempts)%nat then
          timers sys' = [(Ingest.pollInterval, Ingest.Poll doc (S a))] /\
          store sys' = store sys /\
          delays (trace sys') = delays (trace sys) ++ [Ingest.pollInterval]
        else
          timers sys' = [] /\
          store sys' = cleared (store sys) /\
          delays (trace sys') = delays (trace sys)
    end.

(** The text and the file cells after a handler: as they were, or both
    emptied. *)
Definition keeps_or_clears (s s' : Ingest.State) : Prop :=
  (Ingest.text s' = Ingest.text s /\ Ingest.file s' = Ingest.file s)
  \/ (Ingest.text s' = [] /\ Ingest.file s' = None).

(** The invariant of the page: no text next to a selected file, in the
    form and in every request that was sent. *)
Definition form_invariant {Env : Type} (sys : Sys Ingest.State Ingest.task Env) : Prop :=
  file_excludes_text (store sys) /\
  Forall (fun req => text_and_file req = false) (requests (trace sys)).

(** ** The service behind a validation *)

Module Service.

(** Modelled from the spec: the service's [validate_db_connection],
    which is not under [src/] (the settings pages are its callers). The
    spec gives it as [validate_db_connection(url)] with the result
    [{valid: bool, message}], [without mutating any stored
    configuration]. Whether the database behind a URL can be reached is
    not the service's to decide: [probe] stands for it. The second
    component is the stored configuration record after the call. *)
Definition validate_db_connection (probe : jsstring -> bool * jsstring)
    (url : jsstring) (stored : json) : json * json :=
  let (valid, message) := probe url in
  (JObj [(str "valid", JBool valid); (str "message", JStr message)], stored).

(** Modelled from the spec: the route [POST /config/validate-db] in
    front of it, which is not under [src/] either. The URL comes in the
    form field [db_url]; a request without it is an invalid input, and
    [every failure returns a structured error with the kind and a
    human-readable message]. *)
Definition validate_db (probe : jsstring -> bool * jsstring)
    (req : Request) (stored : json) : FetchResult * json :=
  match body_field req "db_url" with
  | Some (FormString url) =>
      let (verdict, stored') := validate_db_connection probe url stored in
      (Answer (mkResponse 200 (str "OK") (Parsed verdict)), stored')
  | _ =>
      (Answer (mkResponse 422 (str "Unprocessable Entity")
                 (Parsed (JObj [(str "kind", JStr (str "InvalidInputError"));
                                (str "message", JStr (str "db_url is required"))]))),
       stored)
  end.

(** The service as a page reaches it: the network may lose a request,
    which the service then never sees. *)
Definition behind (lost : Request -> option jsstring)
    (service : Request -> json -> FetchResult * json)
    (req : Request) (stored : json) : FetchResult * json :=
  match lost req with
  | Some reason => (NetworkError reason, stored)
  | None => service req stored
  end.

End Service.

(** ** Outcomes of the handlers *)

(** The error a rejected ingestion shows: the [detail] of the answer
    when it is truthy (as it prints; the message of the [TypeError] when
    it cannot be converted to a string), the status otherwise. *)
Definition rejection_message (r : Response) (ms : list (jsstring * json)) : jsstring :=
  if truthy (lookup_member (str "detail") ms)
  then match ToString (lookup_member (str "detail") ms) with
       | Some message => message
       | None => not_primitive
       end
  else str "HTTP " ++ decimal (Z.of_N (status r)).

(** The store after a submission that got as far as the request and
    failed with the error [e]. *)
Definition failed_submission (e : jsstring) (s : Ingest.State) : Ingest.State :=
  Ingest.with_loading false
    (Ingest.with_error e
       (Ingest.with_message [] (Ingest.with_error [] (Ingest.with_loading true s)))).

(** The store after a synchronous submission that succeeded. *)
Definition ingested (doc : jsstring) (chunk_count : jsstring) (s : Ingest.State)
  : Ingest.State :=
  Ingest.with_loading false
    (cleared
       (Ingest.with_message (Ingest.ingested_message doc chunk_count)
          (Ingest.with_message [] (Ingest.with_error [] (Ingest.with_loading true s))))).

(** The requests for a document (the polls) and the posts (the
    submissions) that a log records. *)
Definition is_get (req : Request) : bool :=
  match method req with GET => true | POST => false end.

Definition polls_sent (tr : list event) : nat :=
  List.length (filter is_get (requests tr)).

Definition submissions_sent (tr : list event) : nat :=
  List.length (filter (fun req => negb (is_get req)) (requests tr)).

(** The polls a pending timer may still make. *)
Definition attempts_left (t : Ingest.task) : nat :=
  match t with Ingest.Poll _ attempts => Ingest.maxAttempts - attempts end.

Fixpoint polls_left (tm : list (N * Ingest.task)) : nat :=
  match tm with
  | [] => 0
  | (_, t) :: r => attempts_left t + polls_left r
  end.

Definition within_attempts (dt : N * Ingest.task) : Prop :=
  match snd dt with Ingest.Poll _ attempts => (attempts < Ingest.maxAttempts)%nat end.

(** The inputs of the ingest form are what they were. *)
Definition same_inputs (s s' : Ingest.State) : Prop :=
  Ingest.docId s' = Ingest.docId s /\ Ingest.title s' = Ingest.title s /\
  Ingest.text s' = Ingest.text s /\ Ingest.file s' = Ingest.file s /\
  Ingest.metadata s' = Ingest.metadata s /\ Ingest.sync s' = Ingest.sync s.

(** The message of a search that the service did not accept. *)
Definition search_failed (r : Response) : jsstring :=
  str "Search failed: " ++ statusText r.

(** The error of reading a property of [undefined] (the message V8
    gives it). *)
Definition undefined_property (k : string) : error :=
  Error (str "Cannot read properties of undefined (reading '" ++ str k ++ str "')").

(** The store of the settings page after a save that failed with the
    error [e], and after a save that went through. *)
Definition jsx_save_failed (e : jsstring) (s : Settings.Jsx.State) : Settings.Jsx.State :=
  Settings.Jsx.with_saving false
    (Settings.Jsx.with_error e
       (Settings.Jsx.with_message []
          (Settings.Jsx.with_error [] (Settings.Jsx.with_saving true s)))).

Definition tsx_save_failed (e : jsstring) (s : Settings.Tsx.State) : Settings.Tsx.State :=
  Settings.Tsx.with_saving false
    (Settings.Tsx.with_error e
       (Settings.Tsx.with_message []
          (Settings.Tsx.with_error [] (Settings.Tsx.with_saving true s)))).

Definition tsx_saved (s : Settings.Tsx.State) : Settings.Tsx.State :=
  Settings.Tsx.with_saving false
    (Settings.Tsx.with_message Settings.Tsx.saved_message
       (Settings.Tsx.with_message []
          (Settings.Tsx.with_error [] (Settings.Tsx.with_saving true s)))).

(** The store of the settings page after a validation that reached the
    request and ended with the verdict [v]. *)
Definition jsx_validated (v : jsval) (s : Settings.Jsx.State) : Settings.Jsx.State :=
  Settings.Jsx.with_validatingDb false
    (Settings.Jsx.with_dbValidation v (Settings.Jsx.with_validatingDb true s)).

Definition tsx_validated (v : jsval) (s : Settings.Tsx.State) : Settings.Tsx.State :=
  Settings.Tsx.with_validatingDb false
    (Settings.Tsx.with_dbValidation v (Settings.Tsx.with_validatingDb true s)).

(** The verdict a validation ends with, from what the environment gave. *)
Definition verdict_of (res : FetchResult) : jsval :=
  match res with
  | NetworkError reason => Settings.verdict false reason
  | Answer r =>
      if ok r then
        match content r with
        | Parsed v => Some v
        | Unparsable m => Settings.verdict false m
        end
      else Settings.verdict false (str "Validation failed")
  end.

(** The error a save ends with in [SettingsPage.jsx], [None] when it
    went through. *)
Definition jsx_save_error (res : FetchResult) : option jsstring :=
  match res with
  | NetworkError reason => Some reason
  | Answer r =>
      if ok r then
        match content r with
        | Parsed _ => None
        | Unparsable m => Some m
        end
      else Some (str "Failed to save configuration")
  end.

(** The error of a request that was not answered with a success: the
    reason when there was no answer, the status text otherwise. *)
Definition refused (res : FetchResult) : option jsstring :=
  match res with
  | NetworkError reason => Some reason
  | Answer r => if ok r then None else Some (search_failed r)
  end.

(** A configuration request that gave nothing to read: no answer, or an
    answer that is not a success. *)
Definition unavailable (res : FetchResult) : bool :=
  match res with
  | NetworkError _ => true
  | Answer r => negb (ok r)
  end.

(** What the console gets from a configuration request: the failure of
    the network, under the label of the page. *)
Definition warned (label : jsstring) (res : FetchResult) : list event :=
  match res with
  | NetworkError reason => [ConsoleWarn label (Error reason)]
  | Answer _ => []
  end.

(** The page of the button clicked last, the first page when there was
    no click. *)
Definition last_clicked (clicks : list Shell.page) : Shell.page :=
  last clicks Shell.SearchPage.

(** [v.k] for a value [v] that is neither [null] nor [undefined]. *)
Definition property_of (v : json) (k : string) : jsval :=
  match v with
  | JObj ms => lookup_member (str k) ms
  | _ => None
  end.

(** The store of the paged search page after [performSearch] read the
    answer [data] for the page [page]. *)
Definition page_loaded (data : json) (page : Z) (s : Search.Paged.State)
  : Search.Paged.State :=
  Search.Paged.with_searchTime (property_of data "search_time_ms")
    (Search.Paged.with_currentPage page
       (Search.Paged.with_totalCount (property_of data "total_count")
          (Search.Paged.with_results (property_of data "results") s))).

(* ================================================================== *)
(** * The ingest page, one await at a time

    A handler runs until it awaits; while it waits, timer callbacks and
    other handlers run, and see what it wrote so far. Here the handlers
    of the ingest page are the steps they take, with every [await] a
    point where the handler is suspended. *)

Module Interleaved.

Section Programs.

Variables St Task : Type.

(** What a handler does next: it ends, writes a cell, logs, schedules a
    timer callback, sends a request and awaits the answer, or awaits
    something that is there already (the body of an answer, the result
    of an [async] function it called). *)
Inductive prog (R A : Type) : Type :=
| Done (c : completion R A)
| Write (f : St -> St) (k : prog R A)
| Log (e : event) (k : prog R A)
| Schedule (ms : N) (t : Task) (k : prog R A)
| Await (req : Request) (k : FetchResult -> prog R A)
| Pause (k : prog R A).

Arguments Done {R A} c.

Definition ret {R A} (a : A) : prog R A := Done (Normal a).
Definition throw {R A} (e : error) : prog R A := Done (Throw e).
Definition return_ {R A} (r : R) : prog R A := Done (Return r).

Fixpoint bind {R A B} (p : prog R A) (k : A -> prog R B) : prog R B :=
  match p with
  | Done (Normal a) => k a
  | Done (Return r) => Done (Return r)
  | Done (Throw e) => Done (Throw e)
  | Write f p' => Write f (bind p' k)
  | Log e p' => Log e (bind p' k)
  | Schedule ms t p' => Schedule ms t (bind p' k)
  | Await req c => Await req (fun res => bind (c res) k)
  | Pause p' => Pause (bind p' k)
  end.

Fixpoint try_catch {R A} (body : prog R A) (handler : error -> prog R A) : prog R A :=
  match body with
  | Done (Throw e) => handler e
  | Done c => Done c
  | Write f p => Write f (try_catch p handler)
  | Log e p => Log e (try_catch p handler)
  | Schedule ms t p => Schedule ms t (try_catch p handler)
  | Await req c => Await req (fun res => try_catch (c res) handler)
  | Pause p => Pause (try_catch p handler)
  end.

(** The finalizer, then the completion [c] of the body (unless the
    finalizer returns or throws itself). *)
Fixpoint finally_ {R A} (finalizer : prog R unit) (c : completion R A) : prog R A :=
  match finalizer with
  | Done (Normal _) => Done c
  | Done (Return r) => Done (Return r)
  | Done (Throw e) => Done (Throw e)
  | Write f p => Write f (finally_ p c)
  | Log e p => Log e (finally_ p c)
  | Schedule ms t p => Schedule ms t (finally_ p c)
  | Await req k => Await req (fun res => finally_ (k res) c)
  | Pause p => Pause (finally_ p c)
  end.

Fixpoint try_finally {R A} (body : prog R A) (finalizer : prog R unit) : prog R A :=
  match body with
  | Done c => finally_ finalizer c
  | Write f p => Write f (try_finally p finalizer)
  | Log e p => Log e (try_finally p finalizer)
  | Schedule ms t p => Schedule ms t (try_finally p finalizer)
  | Await req c => Await req (fun res => try_finally (c res) finalizer)
  | Pause p => Pause (try_finally p finalizer)
  end.

Fixpoint call {R R'} (body : prog R unit) (dflt : R) : prog R' R :=
  match body with
  | Done (Normal _) => Done (Normal dflt)
  | Done (Return r) => Done (Normal r)
  | Done (Throw e) => Done (Throw e)
  | Write f p => Write f (call p dflt)
  | Log e p => Log e (call p dflt)
  | Schedule ms t p => Schedule ms t (call p dflt)
  | Await req c => Await req (fun res => call (c res) dflt)
  | Pause p => Pause (call p dflt)
  end.

Definition when {R} (c : bool) (m : prog R unit) : prog R unit :=
  if c then m else ret tt.

Definition modify {R} (f : St -> St) : prog R unit := Write f (ret tt).
Definition emit {R} (e : event) : prog R unit := Log e (ret tt).
Definition setTimeout {R} (t : Task) (ms : N) : prog R unit := Schedule ms t (ret tt).

(** [await fetch(req)] *)
Definition fetch {R} (req : Request) : prog R Response :=
  Await req (fun res =>
    match res with
    | NetworkError reason => throw (Error reason)
    | Answer r => ret r
    end).

(** [await response.json()] *)
Definition response_json {R} (r : Response) : prog R json :=
  Pause
    match content r with
    | Parsed v => ret v
    | Unparsable m => throw (Error m)
    end.

(** [await f()] for an [async] function [f] that was called: the
    caller goes on after the result is there. *)
Definition await {R A} (m : prog R A) : prog R A :=
  bind m (fun a => Pause (ret a)).

Definition get_prop {R} (v : jsval) (k : string) : prog R jsval :=
  match v with
  | None =>
      throw (Error (str "Cannot read properties of undefined (reading '"
                    ++ str k ++ str "')"))
  | Some JNull =>
      throw (Error (str "Cannot read properties of null (reading '"
                    ++ str k ++ str "')"))
  | Some (JObj ms) => ret (lookup_member (str k) ms)
  | Some _ => ret None
  end.

Definition to_string {R} (v : jsval) : prog R jsstring :=
  match ToString v with
  | Some t => ret t
  | None => throw (Error not_primitive)
  end.

Section Running.

Variable Env : Type.
Variable net : Request -> Env -> FetchResult * Env.

(** A program run without interruption. *)
Fixpoint exec {R A} (p : prog R A) (sys : Sys St Task Env)
  : completion R A * Sys St Task Env :=
  match p with
  | Done c => (c, sys)
  | Write f k => exec k (mkSys (f (store sys)) (env sys) (trace sys) (timers sys))
  | Log e k => exec k (mkSys (store sys) (env sys) (trace sys ++ [e]) (timers sys))
  | Schedule ms t k =>
      exec k (mkSys (store sys) (env sys) (trace sys ++ [SetTimeout ms])
                (timers sys ++ [(ms, t)]))
  | Await req k =>
      let (res, env') := net req (env sys) in
      exec (k res) (mkSys (store sys) env' (trace sys ++ [Fetch req res]) (timers sys))
  | Pause k => exec k sys
  end.

(** A program run up to its next [await]: the page as it is then, and
    what is left of the program ([None] when it ended). The request of
    an [await] is sent, and answered by the environment, before the
    program is suspended; the answer is delivered when it resumes. *)
Fixpoint advance {R A} (p : prog R A) (sys : Sys St Task Env)
  : Sys St Task Env * option (prog R A) :=
  match p with
  | Done _ => (sys, None)
  | Write f k => advance k (mkSys (f (store sys)) (env sys) (trace sys) (timers sys))
  | Log e k => advance k (mkSys (store sys) (env sys) (trace sys ++ [e]) (timers sys))
  | Schedule ms t k =>
      advance k (mkSys (store sys) (env sys) (trace sys ++ [SetTimeout ms])
                   (timers sys ++ [(ms, t)]))
  | Await req k =>
      let (res, env') := net req (env sys) in
      (mkSys (store sys) env' (trace sys ++ [Fetch req res]) (timers sys), Some (k res))
  | Pause k => (sys, Some k)
  end.

(** The page with the handlers that are suspended. *)
Record Page : Type := mkPage {
  page : Sys St Task Env;
  suspended : list (prog unit unit)
}.

(** A callback starts, or goes on, on the page [sys], next to the
    suspended handlers [others]. *)
Definition proceed (p : prog unit unit) (sys : Sys St Task Env)
    (others : list (prog unit unit)) : Page :=
  let (sys', rest) := advance p sys in
  mkPage sys' (others ++ match rest with Some k => [k] | None => [] end).

End Running.

End Programs.

Arguments Done {St Task R A} c.
Arguments ret {St Task R A} a.
Arguments throw {St Task R A} e.
Arguments return_ {St Task R A} r.
Arguments modify {St Task R} f.
Arguments emit {St Task R} e.
Arguments setTimeout {St Task R} t ms.
Arguments fetch {St Task R} req.
Arguments response_json {St Task R} r.
Arguments get_prop {St Task R} v k.
Arguments to_string {St Task R} v.
Arguments when {St Task R} c m.

Declare Scope steps_scope.
Delimit Scope steps_scope with steps.
Notation "x <- m ; k" := (bind m (fun x => k))
  (at level 61, m at next level, right associativity) : steps_scope.
Notation "m ;; k" := (bind m (fun _ => k))
  (at level 61, right associativity) : steps_scope.

Local Open Scope steps_scope.

Definition IP (R A : Type) : Type := prog Ingest.State Ingest.task R A.

Definition setDocId {R} v : IP R unit := modify (Ingest.with_docId v).
Definition setTitle {R} v : IP R unit := modify (Ingest.with_title v).
Definition setText {R} v : IP R unit := modify (Ingest.with_text v).
Definition setFile {R} v : IP R unit := modify (Ingest.with_file v).
Definition setMetadata {R} v : IP R unit := modify (Ingest.with_metadata v).
Definition setSync {R} v : IP R unit := modify (Ingest.with_sync v).
Definition setLoading {R} v : IP R unit := modify (Ingest.with_loading v).
Definition setMessage {R} v : IP R unit := modify (Ingest.with_message v).
Definition setError {R} v : IP R unit := modify (Ingest.with_error v).

Definition validated_metadata {R} (fd : FormData) (metadata : jsstring)
  : IP R FormData :=
  match JSON_parse metadata with
  | Some _ => ret (append fd "metadata" (FormString metadata))
  | None => throw (Error (str "Unexpected token in JSON"))
  end.

(** ** [src/unnamed/part_001] *)
Module Jsx.

Definition pollForCompletion (doc : jsstring) : IP unit bool :=
  call
    (try_catch
       (docResponse <- fetch (Ingest.doc_request Ingest.Jsx.API_BASE doc);
        if ok docResponse then
          docData <- response_json docResponse;
          chunk_count <- get_prop (Some docData) "chunk_count";
          count <- to_string chunk_count;
          setMessage (Ingest.ingested_message doc count);;
          return_ true
        else if (status docResponse =? 404)%N then
          return_ false
        else
          throw (Error (str "Failed to fetch document: "
                        ++ decimal (Z.of_N (status docResponse)))))
       (fun err =>
          emit (ConsoleWarn (str "Error polling for document completion:") err);;
          return_ false))
    false.

Definition poll (doc : jsstring) (attempts : nat) : IP unit unit :=
  let attempts := S attempts in
  completed <- await (pollForCompletion doc);
  if completed || (Ingest.maxAttempts <=? attempts)%nat then
    setDocId [];; setTitle [];; setText [];; setFile None;; setMetadata []
  else
    setTimeout (Ingest.Poll doc attempts) Ingest.pollInterval.

Definition run_task (t : Ingest.task) : IP unit unit :=
  match t with Ingest.Poll doc attempts => poll doc attempts end.

Definition handleSubmit (s : Ingest.State) : IP unit unit :=
  when (negb (truthy_str (trim (Ingest.docId s))))
    (setError (str "Document ID is required");; return_ tt);;
  when (negb (truthy_str (Ingest.text s)) && negb (non_null (Ingest.file s)))
    (setError (str "Either text content or a file must be provided");;
     return_ tt);;
  setLoading true;;
  setError [];;
  setMessage [];;
  try_finally
    (try_catch
       (formData <-
          (if truthy_str (Ingest.metadata s) then
             try_catch
               (validated_metadata (Ingest.form_fields s) (Ingest.metadata s))
               (fun _ =>
                  setError (str "Invalid JSON in metadata");;
                  setLoading false;;
                  return_ tt)
           else ret (Ingest.form_fields s));
        response <- fetch (Ingest.ingest_request Ingest.Jsx.API_BASE formData);
        when (negb (ok response))
          (errorData <- response_json response;
           detail <- get_prop (Some errorData) "detail";
           message <-
             (if truthy detail then to_string detail
              else ret (str "HTTP " ++ decimal (Z.of_N (status response))));
           throw (Error message));;
        data <- response_json response;
        if Ingest.sync s then
          chunk_count <- get_prop (Some data) "chunk_count";
          count <- to_string chunk_count;
          setMessage (Ingest.ingested_message (Ingest.docId s) count);;
          setDocId [];; setTitle [];; setText [];; setFile None;; setMetadata []
        else
          setMessage (Ingest.started_message (Ingest.docId s));;
          setTimeout (Ingest.Poll (Ingest.docId s) 0) 500)
       (fun err => setError (err_message err)))
    (setLoading false).

Definition handleFileChange (selectedFile : option File) : IP unit unit :=
  match selectedFile with
  | Some f => setFile (Some f);; setText []
  | None => ret tt
  end.

End Jsx.

(** ** [ingest-page.tsx] *)
Module Tsx.

Section Handlers.

Variable NEXT_PUBLIC_API_URL : option jsstring.

Definition clearForm {R} : IP R unit :=
  setDocId [];; setTitle [];; setText [];; setFile None;; setMetadata [].

Definition poll (doc : jsstring) (attempts : nat) : IP unit unit :=
  let attempts := S attempts in
  try_catch
    (docResponse <-
       fetch (Ingest.doc_request (Ingest.Tsx.API_BASE NEXT_PUBLIC_API_URL) doc);
     when (ok docResponse)
       (docData <- response_json docResponse;
        chunk_count <- get_prop (Some docData) "chunk_count";
        count <- to_string chunk_count;
        setMessage (Ingest.ingested_message doc count);;
        emit (ToastSuccess (str "Document ingested!") None);;
        clearForm;;
        return_ tt))
    (fun err => emit (ConsoleWarn (str "Error polling:") err));;
  if (attempts <? Ingest.maxAttempts)%nat then
    setTimeout (Ingest.Poll doc attempts) Ingest.pollInterval
  else
    clearForm.

Definition run_task (t : Ingest.task) : IP unit unit :=
  match t with Ingest.Poll doc attempts => poll doc attempts end.

Definition pollForCompletion (doc : jsstring) : IP unit unit :=
  setTimeout (Ingest.Poll doc 0) 500.

Definition handleSubmit (s : Ingest.State) : IP unit unit :=
  when (negb (truthy_str (trim (Ingest.docId s))))
    (setError (str "Document ID is required");; return_ tt);;
  when (negb (truthy_str (Ingest.text s)) && negb (non_null (Ingest.file s)))
    (setError (str "Either text content or a file must be provided");;
     return_ tt);;
  setLoading true;;
  setError [];;
  setMessage [];;
  try_finally
    (try_catch
       (formData <-
          (if truthy_str (Ingest.metadata s) then
             try_catch
               (validated_metadata (Ingest.form_fields s) (Ingest.metadata s))
               (fun _ =>
                  setError (str "Invalid JSON in metadata");;
                  setLoading false;;
                  return_ tt)
           else ret (Ingest.form_fields s));
        response <-
          fetch (Ingest.ingest_request (Ingest.Tsx.API_BASE NEXT_PUBLIC_API_URL)
                   formData);
        when (negb (ok response))
          (errorData <- response_json response;
           detail <- get_prop (Some errorData) "detail";
           message <-
             (if truthy detail then to_string detail
              else ret (str "HTTP " ++ decimal (Z.of_N (status response))));
           throw (Error message));;
        data <- response_json response;
        if Ingest.sync s then
          chunk_count <- get_prop (Some data) "chunk_count";
          count <- to_string chunk_count;
          setMessage (Ingest.ingested_message (Ingest.docId s) count);;
          chunk_count' <- get_prop (Some data) "chunk_count";
          count' <- to_string chunk_count';
          emit (ToastSuccess (str "Document ingested!")
                  (Some (count' ++ str " chunks created")));;
          clearForm
        else
          setMessage (Ingest.started_message (Ingest.docId s));;
          _ <- call (R':=unit) (pollForCompletion (Ingest.docId s)) tt;
          ret tt)
       (fun err =>
          let errorMessage := err_message err in
          setError errorMessage;;
          emit (ToastError (str "Ingestion failed") (Some errorMessage))))
    (setLoading false).

Definition handleFileChange (selectedFile : option File) : IP unit unit :=
  match selectedFile with
  | Some f => setFile (Some f);; setText []
  | None => ret tt
  end.

End Handlers.

End Tsx.

(** ** The page as events drive it *)

(** An event of the form, or the resumption of a suspended handler. *)
Inductive step_event : Type :=
| Ui (e : Ingest.ui_event)
| Resumes (which : nat).

Section Stepping.

Variable Env : Type.
Variable net : Request -> Env -> FetchResult * Env.
Variable handleSubmit : Ingest.State -> IP unit unit.
Variable handleFileChange : option File -> IP unit unit.
Variable run_task : Ingest.task -> IP unit unit.

Definition IPage : Type := Page Ingest.State Ingest.task Env.

(** The callback of an event that the form lets through. *)
Definition callback (e : Ingest.ui_event) (s : Ingest.State) : IP unit unit :=
  match e with
  | Ingest.TypeDocId v => setDocId v
  | Ingest.TypeTitle v => setTitle v
  | Ingest.TypeText v => setText v
  | Ingest.ChooseFile files0 => handleFileChange files0
  | Ingest.TypeMetadata v => setMetadata v
  | Ingest.ToggleSync checked => setSync checked
  | Ingest.SubmitForm => handleSubmit s
  | Ingest.TimerFires _ => ret tt
  end.

Definition step (ev : step_event) (pg : IPage) : IPage :=
  match ev with
  | Ui (Ingest.TimerFires which) =>
      match nth_error (timers (page pg)) which with
      | None => pg
      | Some (_, t) =>
          proceed net (run_task t)
            (mkSys (store (page pg)) (env (page pg)) (trace (page pg))
               (firstn which (timers (page pg)) ++ skipn (S which) (timers (page pg))))
            (suspended pg)
      end
  | Ui e =>
      if Ingest.enabled e (page pg)
      then proceed net (callback e (store (page pg))) (page pg) (suspended pg)
      else pg
  | Resumes which =>
      match nth_error (suspended pg) which with
      | None => pg
      | Some k =>
          proceed net k (page pg)
            (firstn which (suspended pg) ++ skipn (S which) (suspended pg))
      end
  end.

(** The pages that events lead to from the freshly mounted form. *)
Inductive reachable : IPage -> Prop :=
| reach_mount (w : Env) : reachable (mkPage (mkSys Ingest.initial w [] []) [])
| reach_step (ev : step_event) (pg : IPage) :
    reachable pg -> reachable (step ev pg).

End Stepping.

(** The polls that a suspended handler may still cause: a handler is
    funded with [b] when every request for a document it sends takes one
    of [b], every poll it schedules has attempts left and takes what it
    may still make, and a submission it sends adds ten. What it logs
    besides is no request. *)
Inductive funded {R A : Type} : IP R A -> nat -> Prop :=
| funded_done c b : funded (Done c) b
| funded_write f k b : funded k b -> funded (Write f k) b
| funded_log e k b : requests [e] = [] -> funded k b -> funded (Log e k) b
| funded_pause k b : funded k b -> funded (Pause k) b
| funded_schedule ms t k b :
    within_attempts (ms, t) ->
    (attempts_left t <= b)%nat ->
    funded k (b - attempts_left t) ->
    funded (Schedule ms t k) b
| funded_await req k b :
    (is_get req = true -> 1 <= b)%nat ->
    (forall res,
       funded (k res) (if is_get req then b - 1 else b + Ingest.maxAttempts)%nat) ->
    funded (Await req k) b.

(** The budget of the polling: every pending poll has attempts left,
    and the polls made, those the pending timers can still make and
    those the suspended handlers are funded with are at most ten for
    each submission sent. *)
Definition poll_budget {Env : Type} (pg : Page Ingest.State Ingest.task Env) : Prop :=
  Forall within_attempts (timers (page pg)) /\
  exists funds,
    Forall2 funded (suspended pg) funds /\
    (polls_sent (trace (page pg)) + polls_left (timers (page pg)) + list_sum funds
     <= Ingest.maxAttempts * submissions_sent (trace (page pg)))%nat.

End Interleaved.

(* ================================================================== *)
(** * Properties *)

Arguments str : simpl never.
Arguments trim : simpl never.
Arguments decimal : simpl never.
Arguments JSON_parse : simpl never.
Arguments ToString : simpl never.
Arguments number : simpl never.
Arguments Search.search_request : simpl never.
Arguments Search.config_request : simpl never.
Arguments Ingest.ingest_request : simpl never.
Arguments Ingest.doc_request : simpl never.
Arguments Ingest.form_fields : simpl never.
Arguments Ingest.ingested_message : simpl never.
Arguments Ingest.started_message : simpl never.
Arguments Settings.validate_request : simpl never.
Arguments Settings.save_request : simpl never.
Arguments Settings.reload_request : simpl never.

(** ** Reading properties *)

(** [get_prop] is the general read for every property but [search]. *)
Lemma get_member_agrees {St Task Env R : Type} (v : jsval) (k : string)
      (sys : Sys St Task Env) :
  k <> "search" ->
  get_member (R:=R) v k sys = bind (get_prop v k) (fun x => ret (Data x)) sys.
Proof.
  intros Hk. unfold get_member.
  destruct v as [[| | |s| |]|]; try reflexivity.
  destruct (String.eqb_spec k "search") as [E|_]; [now elim Hk | reflexivity].
Qed.

(** ** Strings *)

Lemma trim_start_blank (s : jsstring) :
  blank s = true -> trim_start s = [].
Proof.
  induction s as [|c r IH]; simpl; [reflexivity|].
  intros H. apply andb_true_iff in H as [Hc Hr].
  rewrite Hc. now apply IH.
Qed.

Lemma trim_start_nil (s : jsstring) :
  trim_start s = [] -> blank s = true.
Proof.
  induction s as [|c r IH]; simpl; [reflexivity|].
  destruct (is_js_space c); [intros; now apply IH | discriminate].
Qed.

Lemma trim_start_suffix (s : jsstring) :
  exists pre, s = pre ++ trim_start s /\ blank pre = true.
Proof.
  induction s as [|c r [pre [E B]]]; simpl.
  - now exists [].
  - destruct (is_js_space c) eqn:Hc.
    + exists (c :: pre). simpl. rewrite Hc, B. now rewrite <- E.
    + now exists [].
Qed.

Lemma blank_app (a b : jsstring) :
  blank (a ++ b) = blank a && blank b.
Proof. apply forallb_app. Qed.

Lemma blank_rev (s : jsstring) : blank (rev s) = blank s.
Proof.
  induction s as [|c r IH]; simpl; [reflexivity|].
  rewrite blank_app, IH. simpl. rewrite andb_true_r. apply andb_comm.
Qed.

(** [trim] leaves nothing exactly when the string is blank. *)
Lemma trim_blank (s : jsstring) :
  trim s = [] <-> blank s = true.
Proof.
  unfold trim. split.
  - intros H.
    assert (H1 : trim_start (rev (trim_start s)) = []).
    { destruct (trim_start (rev (trim_start s))) as [|c r]; [reflexivity|].
      simpl in H. now destruct (rev r). }
    apply trim_start_nil in H1. rewrite blank_rev in H1.
    destruct (trim_start_suffix s) as [pre [E B]].
    rewrite E, blank_app, B, H1. reflexivity.
  - intros H. now rewrite (trim_start_blank _ H).
Qed.

Lemma truthy_trim_blank (s : jsstring) :
  blank s = true -> truthy_str (trim s) = false.
Proof. intros H. apply trim_blank in H. now rewrite H. Qed.

Lemma truthy_trim_filled (s : jsstring) :
  blank s = false -> truthy_str (trim s) = true.
Proof.
  intros H. destruct (trim s) eqn:E; [|reflexivity].
  apply trim_blank in E. congruence.
Qed.

(** ** The search form *)

Section SearchNoop.

Variable Env : Type.
Variable net : Request -> Env -> FetchResult * Env.
Variable api : option jsstring.

Lemma handleSearch_jsx_blank (s : Search.Jsx.State) sys :
  blank (Search.Jsx.query s) = true ->
  run (Search.Jsx.handleSearch net s) sys = sys.
Proof.
  intros H. unfold run, Search.Jsx.handleSearch, bind, when.
  rewrite (truthy_trim_blank _ H). reflexivity.
Qed.

Lemma handleSearch_reload_blank (s : Search.Reload.State) sys :
  blank (Search.Reload.query s) = true ->
  run (Search.Reload.handleSearch net api s) sys = sys.
Proof.
  intros H. unfold run, Search.Reload.handleSearch, bind, when.
  rewrite (truthy_trim_blank _ H). reflexivity.
Qed.

Lemma handleSearch_paged_blank (s : Search.Paged.State) sys :
  blank (Search.Paged.query s) = true ->
  run (Search.Paged.handleSearch net api s) sys = sys.
Proof.
  intros H. unfold run, Search.Paged.handleSearch, bind, when.
  rewrite (truthy_trim_blank _ H). reflexivity.
Qed.

End SearchNoop.

(** C10. Submitting the search form with an empty or whitespace-only
    query does nothing: in each of the three versions of the page the
    handler returns before it touches anything, so the store (results,
    loading flag, search time and every other cell), the environment and
    the log of requests are what they were; no request was issued. *)
Theorem C10_blank_query_is_noop :
  forall (Env : Type) (net : Request -> Env -> FetchResult * Env)
         (api : option jsstring),
    (forall s sys, blank (Search.Jsx.query s) = true ->
       run (Search.Jsx.handleSearch net s) sys = sys) /\
    (forall s sys, blank (Search.Reload.query s) = true ->
       run (Search.Reload.handleSearch net api s) sys = sys) /\
    (forall s sys, blank (Search.Paged.query s) = true ->
       run (Search.Paged.handleSearch net api s) sys = sys).
Proof.
  intros Env net api. split; [|split]; intros s sys H.
  - now apply handleSearch_jsx_blank.
  - now apply handleSearch_reload_blank.
  - now apply handleSearch_paged_blank.
Qed.

Lemma C10_witness :
  blank (Search.Reload.query Scenario.blank_query) = true /\
  run (Search.Reload.handleSearch Scenario.search_service None Scenario.blank_query)
      (Scenario.start Scenario.blank_query tt)
  = Scenario.start Scenario.blank_query tt.
Proof.
  split; [reflexivity|].
  apply (proj1 (proj2 (C10_blank_query_is_noop Scenario.search_service None))).
  reflexivity.
Defined.

(** ** What the search pages send *)

Lemma requests_app (a b : list event) :
  requests (a ++ b) = requests a ++ requests b.
Proof.
  induction a as [|e a IH]; simpl; [reflexivity|].
  destruct e; simpl; now rewrite ?IH.
Qed.

Lemma answers_app (a b : list event) :
  answers (a ++ b) = answers a ++ answers b.
Proof.
  induction a as [|e a IH]; simpl; [reflexivity|].
  destruct e; simpl; now rewrite ?IH.
Qed.

Lemma delays_app (a b : list event) :
  delays (a ++ b) = delays a ++ delays b.
Proof.
  induction a as [|e a IH]; simpl; [reflexivity|].
  destruct e; simpl; now rewrite ?IH.
Qed.

(** Case analysis on everything a handler branches on. *)
Ltac branch :=
  match goal with
  | |- context [match ?x with _ => _ end] =>
      lazymatch x with
      | context [match _ with _ => _ end] => fail
      | _ => destruct x eqn:?
      end
  end.

Ltac run_handler := repeat (cbn; try branch).

Ltac unfold_js :=
  unfold run, get_member, get_prop_of, to_string, bind, when, try_finally,
    try_catch, call, fetch, response_json, get_prop, modify, emit, setTimeout,
    throw, ret, return_ in *.

Ltac log_normal :=
  cbn; rewrite ?requests_app, ?answers_app, ?delays_app; cbn;
  rewrite <- ?app_assoc; cbn; rewrite ?app_nil_r.

Section SearchRequests.

Variable Env : Type.
Variable net : Request -> Env -> FetchResult * Env.
Variable api : option jsstring.

Lemma jsx_requests (s : Search.Jsx.State) sys :
  blank (Search.Jsx.query s) = false ->
  requests (trace (run (Search.Jsx.handleSearch net s) sys))
  = requests (trace sys) ++ [jsx_search s].
Proof.
  intros H.
  unfold run, Search.Jsx.handleSearch, jsx_search, bind, when, try_finally, try_catch,
    fetch, response_json, get_prop, Search.Jsx.setLoading, Search.Jsx.setError,
    Search.Jsx.setResults, Search.Jsx.setSearchTime, modify, throw, ret, return_.
  rewrite (truthy_trim_filled _ H).
  run_handler; log_normal; reflexivity.
Qed.

Lemma reload_requests (s : Search.Reload.State) sys :
  blank (Search.Reload.query s) = false ->
  requests (trace (run (Search.Reload.handleSearch net api s) sys))
  = requests (trace sys)
    ++ [Search.config_request (Search.Reload.API_BASE api); reload_search api s].
Proof.
  intros H.
  unfold Search.Reload.handleSearch, Search.Reload.loadConfig, reload_search,
    Search.Reload.setLoading, Search.Reload.setHasSearched, Search.Reload.setTopK,
    Search.Reload.setRerank, Search.Reload.setResults, Search.Reload.setSearchTime.
  unfold_js.
  rewrite (truthy_trim_filled _ H).
  run_handler; log_normal; reflexivity.
Qed.

Lemma performSearch_requests (s : Search.Paged.State) (page : Z) sys :
  requests (trace (run (call (R':=unit) (Search.Paged.performSearch net api s page) JNull;; ret tt) sys))
  = requests (trace sys) ++ [paged_search api s page].
Proof.
  unfold Search.Paged.performSearch, paged_search,
    Search.Paged.setResults, Search.Paged.setSearchTime, Search.Paged.setTotalCount,
    Search.Paged.setCurrentPage.
  unfold_js.
  run_handler; log_normal; reflexivity.
Qed.

Lemma paged_requests (s : Search.Paged.State) sys :
  blank (Search.Paged.query s) = false ->
  requests (trace (run (Search.Paged.handleSearch net api s) sys))
  = requests (trace sys) ++ [paged_search api s 1].
Proof.
  intros H.
  unfold Search.Paged.handleSearch, Search.Paged.performSearch, paged_search,
    Search.Paged.setLoading, Search.Paged.setHasSearched,
    Search.Paged.setResults, Search.Paged.setSearchTime, Search.Paged.setTotalCount,
    Search.Paged.setCurrentPage.
  unfold_js.
  rewrite (truthy_trim_filled _ H).
  run_handler; log_normal; reflexivity.
Qed.

(** What the pages keep of an answer [{..., results, ..., search_time_ms}]. *)
Lemma jsx_reads (s : Search.Jsx.State) sys r w ms :
  blank (Search.Jsx.query s) = false ->
  net (jsx_search s) (env sys) = (Answer r, w) ->
  ok r = true -> content r = Parsed (JObj ms) ->
  let s' := store (run (Search.Jsx.handleSearch net s) sys) in
  Search.Jsx.results s' = lookup_member (str "results") ms /\
  Search.Jsx.searchTime s' = lookup_member (str "search_time_ms") ms /\
  Search.Jsx.loading s' = false.
Proof.
  intros H Hnet Hok Hc.
  unfold Search.Jsx.handleSearch, jsx_search in *.
  unfold Search.Jsx.setLoading, Search.Jsx.setError,
    Search.Jsx.setResults, Search.Jsx.setSearchTime.
  unfold_js.
  rewrite (truthy_trim_filled _ H). cbn.
  rewrite Hnet. cbn. rewrite Hok. cbn. rewrite Hc. cbn. repeat split.
Qed.

Lemma reload_reads (s : Search.Reload.State) sys r w ms :
  blank (Search.Reload.query s) = false ->
  net (reload_search api s)
      (snd (net (Search.config_request (Search.Reload.API_BASE api)) (env sys)))
  = (Answer r, w) ->
  ok r = true -> content r = Parsed (JObj ms) ->
  let s' := store (run (Search.Reload.handleSearch net api s) sys) in
  Search.Reload.results s' = lookup_member (str "results") ms /\
  Search.Reload.searchTime s' = lookup_member (str "search_time_ms") ms /\
  Search.Reload.loading s' = false.
Proof.
  intros H Hnet Hok Hc.
  unfold Search.Reload.handleSearch, Search.Reload.loadConfig, reload_search in *.
  unfold Search.Reload.setLoading, Search.Reload.setHasSearched, Search.Reload.setTopK,
    Search.Reload.setRerank, Search.Reload.setResults, Search.Reload.setSearchTime.
  unfold_js.
  rewrite (truthy_trim_filled _ H). cbn.
  destruct (net (Search.config_request (Search.Reload.API_BASE api)) (env sys))
    as [res0 w0] eqn:E0.
  cbn in Hnet.
  repeat (cbn; rewrite ?Hnet; cbn; rewrite ?Hok; cbn; rewrite ?Hc; cbn; try branch);
    repeat split.
Qed.

Lemma paged_reads (s : Search.Paged.State) sys r w ms :
  blank (Search.Paged.query s) = false ->
  net (paged_search api s 1) (env sys) = (Answer r, w) ->
  ok r = true -> content r = Parsed (JObj ms) ->
  let s' := store (run (Search.Paged.handleSearch net api s) sys) in
  Search.Paged.results s' = lookup_member (str "results") ms /\
  Search.Paged.totalCount s' = lookup_member (str "total_count") ms /\
  Search.Paged.searchTime s' = lookup_member (str "search_time_ms") ms /\
  Search.Paged.loading s' = false.
Proof.
  intros H Hnet Hok Hc.
  unfold Search.Paged.handleSearch, Search.Paged.performSearch, paged_search in *.
  unfold Search.Paged.setLoading, Search.Paged.setHasSearched,
    Search.Paged.setResults, Search.Paged.setSearchTime, Search.Paged.setTotalCount,
    Search.Paged.setCurrentPage.
  unfold_js.
  rewrite (truthy_trim_filled _ H). cbn. cbn in Hnet.
  rewrite Hnet. cbn. rewrite Hok. cbn. rewrite Hc. cbn. repeat split.
Qed.

End SearchRequests.

(** The members of the request bodies. *)
Lemma four_parameter_body (base q : jsstring) (top_k rerank : jsval) (hybrid : bool) :
  let req := Search.search_request base
               [("q", Some (JStr q)); ("top_k", top_k);
                ("hybrid", Some (JBool hybrid)); ("rerank", rerank)] in
  body_member req "q" = Some (JStr q) /\
  body_member req "top_k" = top_k /\
  body_member req "hybrid" = Some (JBool hybrid) /\
  body_member req "rerank" = rerank /\
  body_member req "offset" = None /\
  body_member req "limit" = None.
Proof.
  destruct top_k, rerank; vm_compute; repeat split.
Qed.

Lemma six_parameter_body (base q : jsstring) (top_k rerank : jsval) (hybrid : bool)
      (offset limit : json) :
  let req := Search.search_request base
               [("q", Some (JStr q)); ("top_k", top_k);
                ("offset", Some offset); ("limit", Some limit);
                ("hybrid", Some (JBool hybrid)); ("rerank", rerank)] in
  body_member req "q" = Some (JStr q) /\
  body_member req "top_k" = top_k /\
  body_member req "hybrid" = Some (JBool hybrid) /\
  body_member req "rerank" = rerank /\
  body_member req "offset" = Some offset /\
  body_member req "limit" = Some limit.
Proof.
  destruct top_k, rerank; vm_compute; repeat split.
Qed.

(** C1 (the code departs from the claim). The page of
    [src/unnamed/part_002] does re-read the settings before it searches,
    and the values it reads reach the store; but the request that follows
    is built from [topK] and [rerank] of the render that created the
    handler. Against a service whose stored settings have become
    [top_k = 10] and [reranker_enabled = false], the page that still
    holds 5 and true asks for the configuration, stores 10 and false, and
    then posts a search with [top_k = 5] and [rerank = true]. *)
Theorem C1_search_request_uses_stale_settings :
  let sys' :=
    run (Search.Reload.handleSearch Scenario.search_service None Scenario.fox_query)
        (Scenario.start Scenario.fox_query tt) in
  requests (trace sys')
  = [Search.config_request Scenario.local_base;
     reload_search None Scenario.fox_query] /\
  Search.Reload.topK (store sys') = Some (number 10) /\
  Search.Reload.rerank (store sys') = Some (JBool false) /\
  body_member (reload_search None Scenario.fox_query) "top_k" = Some (number 5) /\
  body_member (reload_search None Scenario.fox_query) "rerank" = Some (JBool true).
Proof. vm_compute. repeat split. Qed.

(** C5 (amended). The search request of [SearchPage.jsx] and of
    [src/unnamed/part_002] carries [q], [top_k], [hybrid] and [rerank]
    and neither [offset] nor [limit]; the paginated page
    ([search-page.tsx]) sends, besides those four,
    [offset = (page - 1) * pageSize] and [limit = pageSize]. A search
    with a query that is not blank issues exactly that request (after a
    request for the configuration, in [part_002]). Of an answer that is
    an object the pages keep [results] and [search_time_ms], the
    paginated page also [total_count]. *)
Theorem C5_search_request_parameters :
  forall (Env : Type) (net : Request -> Env -> FetchResult * Env)
         (api : option jsstring),
    (forall s sys, blank (Search.Jsx.query s) = false ->
       requests (trace (run (Search.Jsx.handleSearch net s) sys))
       = requests (trace sys) ++ [jsx_search s]) /\
    (forall s sys, blank (Search.Reload.query s) = false ->
       requests (trace (run (Search.Reload.handleSearch net api s) sys))
       = requests (trace sys)
         ++ [Search.config_request (Search.Reload.API_BASE api); reload_search api s]) /\
    (forall s sys, blank (Search.Paged.query s) = false ->
       requests (trace (run (Search.Paged.handleSearch net api s) sys))
       = requests (trace sys) ++ [paged_search api s 1]) /\
    (forall s,
       body_member (jsx_search s) "q" = Some (JStr (Search.Jsx.query s)) /\
       body_member (jsx_search s) "top_k" = Search.Jsx.topK s /\
       body_member (jsx_search s) "hybrid" = Some (JBool (Search.Jsx.hybrid s)) /\
       body_member (jsx_search s) "rerank" = Search.Jsx.rerank s /\
       body_member (jsx_search s) "offset" = None /\
       body_member (jsx_search s) "limit" = None) /\
    (forall s,
       body_member (reload_search api s) "q" = Some (JStr (Search.Reload.query s)) /\
       body_member (reload_search api s) "top_k" = Search.Reload.topK s /\
       body_member (reload_search api s) "hybrid" = Some (JBool (Search.Reload.hybrid s)) /\
       body_member (reload_search api s) "rerank" = Search.Reload.rerank s /\
       body_member (reload_search api s) "offset" = None /\
       body_member (reload_search api s) "limit" = None) /\
    (forall s page,
       body_member (paged_search api s page) "q" = Some (JStr (Search.Paged.query s)) /\
       body_member (paged_search api s page) "top_k" = Search.Paged.topK s /\
       body_member (paged_search api s page) "hybrid" = Some (JBool (Search.Paged.hybrid s)) /\
       body_member (paged_search api s page) "rerank" = Search.Paged.rerank s /\
       body_member (paged_search api s page) "offset"
       = Some (number ((page - 1) * Search.Paged.pageSize s)) /\
       body_member (paged_search api s page) "limit"
       = Some (number (Search.Paged.pageSize s))) /\
    (forall s sys r w ms,
       blank (Search.Jsx.query s) = false ->
       net (jsx_search s) (env sys) = (Answer r, w) ->
       ok r = true -> content r = Parsed (JObj ms) ->
       let s' := store (run (Search.Jsx.handleSearch net s) sys) in
       Search.Jsx.results s' = lookup_member (str "results") ms /\
       Search.Jsx.searchTime s' = lookup_member (str "search_time_ms") ms /\
       Search.Jsx.loading s' = false) /\
    (forall s sys r w ms,
       blank (Search.Reload.query s) = false ->
       net (reload_search api s)
           (snd (net (Search.config_request (Search.Reload.API_BASE api)) (env sys)))
       = (Answer r, w) ->
       ok r = true -> content r = Parsed (JObj ms) ->
       let s' := store (run (Search.Reload.handleSearch net api s) sys) in
       Search.Reload.results s' = lookup_member (str "results") ms /\
       Search.Reload.searchTime s' = lookup_member (str "search_time_ms") ms /\
       Search.Reload.loading s' = false) /\
    (forall s sys r w ms,
       blank (Search.Paged.query s) = false ->
       net (paged_search api s 1) (env sys) = (Answer r, w) ->
       ok r = true -> content r = Parsed (JObj ms) ->
       let s' := store (run (Search.Paged.handleSearch net api s) sys) in
       Search.Paged.results s' = lookup_member (str "results") ms /\
       Search.Paged.totalCount s' = lookup_member (str "total_count") ms /\
       Search.Paged.searchTime s' = lookup_member (str "search_time_ms") ms /\
       Search.Paged.loading s' = false).
Proof.
  intros Env net api.
  split; [intros; now apply jsx_requests|].
  split; [intros; now apply reload_requests|].
  split; [intros; now apply paged_requests|].
  split; [intros s; apply four_parameter_body|].
  split; [intros s; apply four_parameter_body|].
  split; [intros s page; apply six_parameter_body|].
  split; [intros; eapply jsx_reads; eassumption|].
  split; [intros; eapply reload_reads; eassumption|].
  intros; eapply paged_reads; eassumption.
Qed.

Lemma C5_witness :
  blank (Search.Jsx.query Scenario.fox_query_jsx) = false /\
  requests (trace (run (Search.Jsx.handleSearch Scenario.search_service
                          Scenario.fox_query_jsx)
                       (Scenario.start Scenario.fox_query_jsx tt)))
  = [] ++ [jsx_search Scenario.fox_query_jsx].
Proof.
  split; [reflexivity|].
  apply (proj1 (C5_search_request_parameters Scenario.search_service None)).
  reflexivity.
Defined.

(** C5 as stated fails: the search that [SearchPage.jsx] issues for the
    query fox carries neither an offset nor a limit. *)
Lemma C5_counterexample :
  exists req,
    requests (trace (run (Search.Jsx.handleSearch Scenario.search_service
                            Scenario.fox_query_jsx)
                         (Scenario.start Scenario.fox_query_jsx tt)))
    = [req] /\
    url req = Scenario.local_base ++ str "/search" /\
    body_member req "offset" = None /\
    body_member req "limit" = None.
Proof.
  eexists. split; [vm_compute; reflexivity|]. vm_compute. repeat split.
Qed.

(** ** The settings page *)

Lemma is_verdict_verdict (valid : bool) (msg : jsstring) :
  Settings.is_verdict (Settings.verdict valid msg) = true.
Proof. reflexivity. Qed.

Section Validation.

Variable Env : Type.
Variable net : Request -> Env -> FetchResult * Env.
Variable api : option jsstring.

(** The record the service has saved, as a view of the environment,
    for a service that leaves it alone on a validation request and
    answers such a request with a verdict when it answers with a
    success. *)
Variable Saved : Type.
Variable saved : Env -> Saved.

Variable base : jsstring.

Hypothesis validation_reads_only :
  forall dbUrl w,
    saved (snd (net (Settings.validate_request base dbUrl) w)) = saved w.

Hypothesis validation_answers_verdict :
  forall dbUrl w r v,
    fst (net (Settings.validate_request base dbUrl) w) = Answer r ->
    ok r = true -> content r = Parsed v ->
    Settings.is_verdict (Some v) = true.

Lemma validateDatabase_jsx_frame (s : Settings.Jsx.State) sys :
  base = Settings.Jsx.API_BASE ->
  let sys' := run (Settings.Jsx.validateDatabase net s) sys in
  Settings.Jsx.fields (store sys') = Settings.Jsx.fields (store sys) /\
  Settings.Jsx.config (store sys') = Settings.Jsx.config (store sys) /\
  Settings.Jsx.message (store sys') = Settings.Jsx.message (store sys) /\
  Settings.Jsx.error (store sys') = Settings.Jsx.error (store sys) /\
  saved (env sys') = saved (env sys) /\
  Settings.is_verdict (Settings.Jsx.dbValidation (store sys')) = true /\
  requests (trace sys')
  = requests (trace sys)
    ++ (if blank (Settings.Jsx.dbUrl (Settings.Jsx.fields s)) then []
        else [Settings.validate_request base (Settings.Jsx.dbUrl (Settings.Jsx.fields s))]).
Proof.
  intros Hbase.
  pose proof (validation_reads_only (Settings.Jsx.dbUrl (Settings.Jsx.fields s)) (env sys)) as Hro.
  pose proof (validation_answers_verdict (Settings.Jsx.dbUrl (Settings.Jsx.fields s)) (env sys)) as Hv.
  rewrite Hbase in *.
  unfold Settings.Jsx.validateDatabase, Settings.Jsx.setDbValidation,
    Settings.Jsx.setValidatingDb.
  unfold_js.
  destruct (blank (Settings.Jsx.dbUrl (Settings.Jsx.fields s))) eqn:B.
  - rewrite (truthy_trim_blank _ B). cbn. rewrite app_nil_r. repeat split.
  - rewrite (truthy_trim_filled _ B). cbn.
    destruct (net _ (env sys)) as [res w] eqn:E. cbn in Hro, Hv.
    destruct res as [reason|r]; cbn.
    + log_normal. repeat split; assumption.
    + destruct (ok r) eqn:Hok; cbn.
      * destruct (content r) as [v|m] eqn:Hc; cbn; log_normal;
          repeat split; try assumption.
        eapply Hv; eauto.
      * log_normal. repeat split; assumption.
Qed.

Lemma validateDatabase_tsx_frame (s : Settings.Tsx.State) sys :
  base = Settings.Tsx.API_BASE api ->
  let sys' := run (Settings.Tsx.validateDatabase net api s) sys in
  Settings.Tsx.fields (store sys') = Settings.Tsx.fields (store sys) /\
  Settings.Tsx.message (store sys') = Settings.Tsx.message (store sys) /\
  Settings.Tsx.error (store sys') = Settings.Tsx.error (store sys) /\
  saved (env sys') = saved (env sys) /\
  Settings.is_verdict (Settings.Tsx.dbValidation (store sys')) = true /\
  requests (trace sys')
  = requests (trace sys)
    ++ (if blank (Settings.Tsx.dbUrl (Settings.Tsx.fields s)) then []
        else [Settings.validate_request base (Settings.Tsx.dbUrl (Settings.Tsx.fields s))]).
Proof.
  intros Hbase.
  pose proof (validation_reads_only (Settings.Tsx.dbUrl (Settings.Tsx.fields s)) (env sys)) as Hro.
  pose proof (validation_answers_verdict (Settings.Tsx.dbUrl (Settings.Tsx.fields s)) (env sys)) as Hv.
  rewrite Hbase in *.
  unfold Settings.Tsx.validateDatabase, Settings.Tsx.setDbValidation,
    Settings.Tsx.setValidatingDb.
  unfold_js.
  destruct (blank (Settings.Tsx.dbUrl (Settings.Tsx.fields s))) eqn:B.
  - rewrite (truthy_trim_blank _ B). cbn. rewrite app_nil_r. repeat split.
  - rewrite (truthy_trim_filled _ B). cbn.
    destruct (net _ (env sys)) as [res w] eqn:E. cbn in Hro, Hv.
    destruct res as [reason|r]; cbn.
    + log_normal. repeat split; assumption.
    + destruct (ok r) eqn:Hok; cbn.
      * destruct (content r) as [v|m] eqn:Hc; cbn; log_normal;
          repeat split; try assumption.
        eapply Hv; eauto.
      * log_normal. repeat split; assumption.
Qed.

End Validation.

Lemma validate_db_reads_only (probe : jsstring -> bool * jsstring)
      (lost : Request -> option jsstring) (req : Request) (stored : json) :
  snd (Service.behind lost (Service.validate_db probe) req stored) = stored.
Proof.
  unfold Service.behind, Service.validate_db, Service.validate_db_connection.
  destruct (lost req); [reflexivity|].
  destruct (body_field req "db_url") as [[url|f]|]; try reflexivity.
  now destruct (probe url).
Qed.

Lemma validate_db_answers_verdict (probe : jsstring -> bool * jsstring)
      (lost : Request -> option jsstring) (req : Request) (stored : json)
      (r : Response) (v : json) :
  fst (Service.behind lost (Service.validate_db probe) req stored) = Answer r ->
  ok r = true -> content r = Parsed v ->
  Settings.is_verdict (Some v) = true.
Proof.
  unfold Service.behind, Service.validate_db, Service.validate_db_connection.
  destruct (lost req); [discriminate|].
  destruct (body_field req "db_url") as [[url|f]|]; cbn.
  - destruct (probe url) as [valid message]. cbn.
    intros H _ Hc. injection H as <-. cbn in Hc. injection Hc as <-. reflexivity.
  - intros H Hok. injection H as <-. discriminate Hok.
  - intros H Hok. injection H as <-. discriminate Hok.
Qed.

(** C6. Every call of [validate_db_connection] gives a [{valid,
    message}] verdict and leaves the stored configuration as it was; and
    a validation from either settings page, through a network that may
    lose the request, leaves both configurations alone: the record the
    service has stored is identical before and after, the form cells
    (and the loaded configuration, the message and the error) are what
    they were, the only request is the post to [/config/validate-db]
    (none when the URL is blank), and the validation cell ends as a
    [{valid, message}] verdict, the service's own or the one the page
    makes of a failure. *)
Theorem C6_validation_leaves_configuration :
  forall (probe : jsstring -> bool * jsstring) (lost : Request -> option jsstring)
         (api : option jsstring),
    (forall url stored,
       Settings.is_verdict
         (Some (fst (Service.validate_db_connection probe url stored))) = true /\
       snd (Service.validate_db_connection probe url stored) = stored) /\
    (forall (s : Settings.Jsx.State) sys,
       let sys' :=
         run (Settings.Jsx.validateDatabase
                (Service.behind lost (Service.validate_db probe)) s) sys in
       env sys' = env sys /\
       Settings.Jsx.fields (store sys') = Settings.Jsx.fields (store sys) /\
       Settings.Jsx.config (store sys') = Settings.Jsx.config (store sys) /\
       Settings.Jsx.message (store sys') = Settings.Jsx.message (store sys) /\
       Settings.Jsx.error (store sys') = Settings.Jsx.error (store sys) /\
       Settings.is_verdict (Settings.Jsx.dbValidation (store sys')) = true /\
       requests (trace sys')
       = requests (trace sys)
         ++ (if blank (Settings.Jsx.dbUrl (Settings.Jsx.fields s)) then []
             else [Settings.validate_request Settings.Jsx.API_BASE
                     (Settings.Jsx.dbUrl (Settings.Jsx.fields s))])) /\
    (forall (s : Settings.Tsx.State) sys,
       let sys' :=
         run (Settings.Tsx.validateDatabase
                (Service.behind lost (Service.validate_db probe)) api s) sys in
       env sys' = env sys /\
       Settings.Tsx.fields (store sys') = Settings.Tsx.fields (store sys) /\
       Settings.Tsx.message (store sys') = Settings.Tsx.message (store sys) /\
       Settings.Tsx.error (store sys') = Settings.Tsx.error (store sys) /\
       Settings.is_verdict (Settings.Tsx.dbValidation (store sys')) = true /\
       requests (trace sys')
       = requests (trace sys)
         ++ (if blank (Settings.Tsx.dbUrl (Settings.Tsx.fields s)) then []
             else [Settings.validate_request (Settings.Tsx.API_BASE api)
                     (Settings.Tsx.dbUrl (Settings.Tsx.fields s))])).
Proof.
  intros probe lost api. split; [|split].
  - intros url stored. unfold Service.validate_db_connection.
    destruct (probe url). split; reflexivity.
  - intros s sys.
    destruct (@validateDatabase_jsx_frame json
                (Service.behind lost (Service.validate_db probe)) json (fun w => w)
                Settings.Jsx.API_BASE
                (fun dbUrl w => validate_db_reads_only probe lost _ w)
                (fun dbUrl w r v => @validate_db_answers_verdict probe lost _ w r v)
                s sys eq_refl)
      as [H1 [H2 [H3 [H4 [H5 [H6 H7]]]]]].
    cbv zeta. repeat split; assumption.
  - intros s sys.
    destruct (@validateDatabase_tsx_frame json
                (Service.behind lost (Service.validate_db probe)) api json (fun w => w)
                (Settings.Tsx.API_BASE api)
                (fun dbUrl w => validate_db_reads_only probe lost _ w)
                (fun dbUrl w r v => @validate_db_answers_verdict probe lost _ w r v)
                s sys eq_refl)
      as [H1 [H2 [H3 [H4 [H5 H6]]]]].
    cbv zeta. repeat split; assumption.
Qed.

Section Saving.

Variable Env : Type.
Variable net : Request -> Env -> FetchResult * Env.
Variable api : option jsstring.

Lemma saveConfig_jsx_message (s : Settings.Jsx.State) sys :
  let s' := store (run (Settings.Jsx.saveConfig net s) sys) in
  (Settings.Jsx.message s' = [] /\
   Settings.Jsx.config s' = Settings.Jsx.config (store sys))
  \/ Settings.Jsx.message s' = Settings.Jsx.saved_message.
Proof.
  unfold Settings.Jsx.saveConfig, Settings.Jsx.setSaving, Settings.Jsx.setError,
    Settings.Jsx.setMessage, Settings.Jsx.setConfig.
  unfold_js.
  run_handler; auto.
Qed.

Lemma saveConfig_jsx_saved (s : Settings.Jsx.State) sys r w v :
  net (Settings.save_request Settings.Jsx.API_BASE
         (Settings.Jsx.updates (Settings.Jsx.fields s))) (env sys) = (Answer r, w) ->
  ok r = true -> content r = Parsed v ->
  let s' := store (run (Settings.Jsx.saveConfig net s) sys) in
  Settings.Jsx.message s' = Settings.Jsx.saved_message /\
  Settings.Jsx.config s' = Some v /\
  Settings.Jsx.error s' = [].
Proof.
  intros Hnet Hok Hc.
  unfold Settings.Jsx.saveConfig, Settings.Jsx.setSaving, Settings.Jsx.setError,
    Settings.Jsx.setMessage, Settings.Jsx.setConfig.
  unfold_js. cbn.
  rewrite Hnet. cbn. rewrite Hok. cbn. rewrite Hc. cbn. repeat split.
Qed.

Lemma saveConfig_tsx_message (s : Settings.Tsx.State) sys :
  let s' := store (run (Settings.Tsx.saveConfig net api s) sys) in
  Settings.Tsx.message s' = [] \/ Settings.Tsx.message s' = Settings.Tsx.saved_message.
Proof.
  unfold Settings.Tsx.saveConfig, Settings.Tsx.setSaving, Settings.Tsx.setError,
    Settings.Tsx.setMessage.
  unfold_js.
  run_handler; auto.
Qed.

Lemma saveConfig_tsx_saved (s : Settings.Tsx.State) sys r w :
  net (Settings.save_request (Settings.Tsx.API_BASE api)
         (Settings.Tsx.updates (Settings.Tsx.fields s))) (env sys) = (Answer r, w) ->
  ok r = true ->
  let s' := store (run (Settings.Tsx.saveConfig net api s) sys) in
  Settings.Tsx.message s' = Settings.Tsx.saved_message /\
  Settings.Tsx.error s' = [].
Proof.
  intros Hnet Hok.
  unfold Settings.Tsx.saveConfig, Settings.Tsx.setSaving, Settings.Tsx.setError,
    Settings.Tsx.setMessage.
  unfold_js. cbn.
  rewrite Hnet. cbn. rewrite Hok. cbn.
  run_handler; repeat split.
Qed.

End Saving.

(** C7 (amended). After a save the page shows one fixed confirmation,
    whatever was changed: [SettingsPage.jsx] says that the configuration
    was saved and that the service is to be restarted,
    [settings-page.tsx] says that the configuration was saved and shows,
    with any message that contains the word saved, a fixed note that
    embedding models and vector backends require a restart (its legend
    lists search settings as dynamic, embeddings and vector backend as
    needing a restart). The message after [saveConfig] is either empty (the
    save failed) or that text, and it is that text whenever the service
    accepted the post. *)
Theorem C7_save_confirmation_is_fixed :
  forall (Env : Type) (net : Request -> Env -> FetchResult * Env)
         (api : option jsstring),
    (forall (s : Settings.Jsx.State) sys,
       let s' := store (run (Settings.Jsx.saveConfig net s) sys) in
       (Settings.Jsx.message s' = [] /\
        Settings.Jsx.config s' = Settings.Jsx.config (store sys))
       \/ Settings.Jsx.message s' = Settings.Jsx.saved_message) /\
    (forall (s : Settings.Jsx.State) sys r w v,
       net (Settings.save_request Settings.Jsx.API_BASE
              (Settings.Jsx.updates (Settings.Jsx.fields s))) (env sys)
       = (Answer r, w) ->
       ok r = true -> content r = Parsed v ->
       let s' := store (run (Settings.Jsx.saveConfig net s) sys) in
       Settings.Jsx.message s' = Settings.Jsx.saved_message /\
       Settings.Jsx.config s' = Some v /\
       Settings.Jsx.error s' = []) /\
    (forall (s : Settings.Tsx.State) sys,
       let s' := store (run (Settings.Tsx.saveConfig net api s) sys) in
       Settings.Tsx.message s' = [] \/
       Settings.Tsx.message s' = Settings.Tsx.saved_message) /\
    (forall (s : Settings.Tsx.State) sys r w,
       net (Settings.save_request (Settings.Tsx.API_BASE api)
              (Settings.Tsx.updates (Settings.Tsx.fields s))) (env sys)
       = (Answer r, w) ->
       ok r = true ->
       let s' := store (run (Settings.Tsx.saveConfig net api s) sys) in
       Settings.Tsx.message s' = Settings.Tsx.saved_message /\
       Settings.Tsx.error s' = []) /\
    Settings.Tsx.restart_note Settings.Tsx.saved_message
    = Some (str "Note: Some changes (embedding models, vector backends) require server restart to take effect.") /\
    Settings.Tsx.restart_note [] = None /\
    Settings.Tsx.legend Settings.SearchSettings = Some Settings.Dynamic /\
    Settings.Tsx.legend Settings.Embedding = Some Settings.RestartNeeded /\
    Settings.Tsx.legend Settings.Vector = Some Settings.RestartNeeded /\
    Settings.Tsx.legend Settings.Database = None.
Proof.
  intros Env net api.
  split; [intros; apply saveConfig_jsx_message|].
  split; [intros; eapply saveConfig_jsx_saved; eassumption|].
  split; [intros; apply saveConfig_tsx_message|].
  split; [intros; eapply saveConfig_tsx_saved; eassumption|].
  repeat split.
Qed.

Lemma C7_witness :
  let sys := Scenario.start (Task:=Empty_set) Scenario.edit_top_k_jsx JNull in
  let s' := store (run (Settings.Jsx.saveConfig Scenario.config_service
                          Scenario.edit_top_k_jsx) sys) in
  Settings.Jsx.message s' = Settings.Jsx.saved_message /\
  Settings.Jsx.config s'
  = Some (Settings.Jsx.updates (Settings.Jsx.fields Scenario.edit_top_k_jsx)) /\
  Settings.Jsx.error s' = [].
Proof.
  apply (proj1 (proj2 (C7_save_confirmation_is_fixed Scenario.config_service None))
           Scenario.edit_top_k_jsx
           (Scenario.start Scenario.edit_top_k_jsx JNull)
           (mkResponse 200 (str "OK")
              (Parsed (Settings.Jsx.updates (Settings.Jsx.fields Scenario.edit_top_k_jsx))))
           (Settings.Jsx.updates (Settings.Jsx.fields Scenario.edit_top_k_jsx)));
    reflexivity.
Defined.

(** C7 as stated fails: an edit of a search setting (which applies
    live) and an edit of the embedding provider (which needs a restart)
    are confirmed with the same text, in both versions of the page. *)
Lemma C7_counterexample :
  let saved_jsx (s : Settings.Jsx.State) :=
    store (run (Settings.Jsx.saveConfig Scenario.config_service s)
               (Scenario.start (Task:=Empty_set) s JNull)) in
  let saved_tsx (s : Settings.Tsx.State) :=
    store (run (Settings.Tsx.saveConfig Scenario.config_service None s)
               (Scenario.start (Task:=Empty_set) s JNull)) in
  Settings.Jsx.topK (Settings.Jsx.fields Scenario.edit_top_k_jsx) = number 10 /\
  Settings.Jsx.topK (Settings.Jsx.fields Scenario.settings_loaded) = number 5 /\
  Settings.Jsx.embeddingProvider (Settings.Jsx.fields Scenario.edit_provider_jsx)
  = str "openai" /\
  Settings.Jsx.embeddingProvider (Settings.Jsx.fields Scenario.settings_loaded)
  = str "local" /\
  Settings.Jsx.message (saved_jsx Scenario.edit_top_k_jsx)
  = str "Configuration saved successfully! Restart the service to apply changes." /\
  Settings.Jsx.message (saved_jsx Scenario.edit_provider_jsx)
  = str "Configuration saved successfully! Restart the service to apply changes." /\
  Settings.Tsx.message (saved_tsx Scenario.edit_top_k_tsx)
  = str "Configuration saved successfully!" /\
  Settings.Tsx.message (saved_tsx Scenario.edit_provider_tsx)
  = str "Configuration saved successfully!" /\
  Settings.Tsx.restart_note (Settings.Tsx.message (saved_tsx Scenario.edit_top_k_tsx))
  = Settings.Tsx.restart_note (Settings.Tsx.message (saved_tsx Scenario.edit_provider_tsx)).
Proof. vm_compute. repeat split. Qed.

(** ** The ingest form: what [handleSubmit] checks *)

Ltac unfold_ingest :=
  unfold Ingest.Jsx.handleSubmit, Ingest.Tsx.handleSubmit,
    Ingest.Jsx.handleFileChange, Ingest.Tsx.handleFileChange,
    Ingest.Jsx.run_task, Ingest.Tsx.run_task,
    Ingest.Jsx.poll, Ingest.Tsx.poll,
    Ingest.Jsx.pollForCompletion, Ingest.Tsx.pollForCompletion,
    Ingest.Tsx.clearForm, Ingest.validated_metadata,
    Ingest.setDocId, Ingest.setTitle, Ingest.setText, Ingest.setFile,
    Ingest.setMetadata, Ingest.setSync, Ingest.setLoading, Ingest.setMessage,
    Ingest.setError in *.

Section Submission.

Variable Env : Type.
Variable net : Request -> Env -> FetchResult * Env.
Variable api : option jsstring.

Lemma handleSubmit_jsx_blank_id (s : Ingest.State) sys :
  blank (Ingest.docId s) = true ->
  run (Ingest.Jsx.handleSubmit net s) sys
  = mkSys (Ingest.with_error (str "Document ID is required") (store sys))
      (env sys) (trace sys) (timers sys).
Proof.
  intros H. unfold_ingest. unfold_js.
  rewrite (truthy_trim_blank _ H). reflexivity.
Qed.

Lemma handleSubmit_tsx_blank_id (s : Ingest.State) sys :
  blank (Ingest.docId s) = true ->
  run (Ingest.Tsx.handleSubmit net api s) sys
  = mkSys (Ingest.with_error (str "Document ID is required") (store sys))
      (env sys) (trace sys) (timers sys).
Proof.
  intros H. unfold_ingest. unfold_js.
  rewrite (truthy_trim_blank _ H). reflexivity.
Qed.

Lemma handleSubmit_jsx_no_content (s : Ingest.State) sys :
  blank (Ingest.docId s) = false -> has_content s = false ->
  run (Ingest.Jsx.handleSubmit net s) sys
  = mkSys (Ingest.with_error (str "Either text content or a file must be provided")
             (store sys))
      (env sys) (trace sys) (timers sys).
Proof.
  intros H Hc. unfold_ingest. unfold_js.
  rewrite (truthy_trim_filled _ H).
  unfold has_content in Hc. apply orb_false_iff in Hc as [Ht Hf].
  rewrite Ht, Hf. reflexivity.
Qed.

Lemma handleSubmit_tsx_no_content (s : Ingest.State) sys :
  blank (Ingest.docId s) = false -> has_content s = false ->
  run (Ingest.Tsx.handleSubmit net api s) sys
  = mkSys (Ingest.with_error (str "Either text content or a file must be provided")
             (store sys))
      (env sys) (trace sys) (timers sys).
Proof.
  intros H Hc. unfold_ingest. unfold_js.
  rewrite (truthy_trim_filled _ H).
  unfold has_content in Hc. apply orb_false_iff in Hc as [Ht Hf].
  rewrite Ht, Hf. reflexivity.
Qed.

Lemma handleSubmit_jsx_bad_metadata (s : Ingest.State) sys :
  blank (Ingest.docId s) = false -> has_content s = true ->
  truthy_str (Ingest.metadata s) = true -> JSON_parse (Ingest.metadata s) = None ->
  run (Ingest.Jsx.handleSubmit net s) sys
  = mkSys (Ingest.with_loading false
             (Ingest.with_loading false
                (Ingest.with_error (str "Invalid JSON in metadata")
                   (Ingest.with_message []
                      (Ingest.with_error []
                         (Ingest.with_loading true (store sys)))))))
      (env sys) (trace sys) (timers sys).
Proof.
  intros H Hc Hm Hp. unfold_ingest. unfold_js.
  rewrite (truthy_trim_filled _ H).
  unfold has_content in Hc. apply orb_true_iff in Hc.
  rewrite Hm, Hp.
  destruct Hc as [Hc|Hc]; rewrite Hc; cbn; rewrite ?andb_false_r; reflexivity.
Qed.

Lemma handleSubmit_tsx_bad_metadata (s : Ingest.State) sys :
  blank (Ingest.docId s) = false -> has_content s = true ->
  truthy_str (Ingest.metadata s) = true -> JSON_parse (Ingest.metadata s) = None ->
  run (Ingest.Tsx.handleSubmit net api s) sys
  = mkSys (Ingest.with_loading false
             (Ingest.with_loading false
                (Ingest.with_error (str "Invalid JSON in metadata")
                   (Ingest.with_message []
                      (Ingest.with_error []
                         (Ingest.with_loading true (store sys)))))))
      (env sys) (trace sys) (timers sys).
Proof.
  intros H Hc Hm Hp. unfold_ingest. unfold_js.
  rewrite (truthy_trim_filled _ H).
  unfold has_content in Hc. apply orb_true_iff in Hc.
  rewrite Hm, Hp.
  destruct Hc as [Hc|Hc]; rewrite Hc; cbn; rewrite ?andb_false_r; reflexivity.
Qed.

(** The requests of a submission: one post to [/ingest] when the form
    passes the checks, none otherwise. *)
Lemma handleSubmit_jsx_requests (s : Ingest.State) sys :
  requests (trace (run (Ingest.Jsx.handleSubmit net s) sys))
  = requests (trace sys)
    ++ (if valid_submission s
        then [Ingest.ingest_request Ingest.Jsx.API_BASE (submitted_form s)]
        else []).
Proof.
  unfold valid_submission, has_content, metadata_accepted, submitted_form.
  destruct (blank (Ingest.docId s)) eqn:B.
  { rewrite (handleSubmit_jsx_blank_id _ _ B). cbn. now rewrite app_nil_r. }
  unfold_ingest. unfold_js. rewrite (truthy_trim_filled _ B).
  destruct (truthy_str (Ingest.text s)) eqn:Ht;
    destruct (Ingest.file s) as [f|] eqn:Hf;
    destruct (truthy_str (Ingest.metadata s)) eqn:Hm;
    try destruct (JSON_parse (Ingest.metadata s)) eqn:Hp;
    run_handler; log_normal; reflexivity.
Qed.

Lemma handleSubmit_tsx_requests (s : Ingest.State) sys :
  requests (trace (run (Ingest.Tsx.handleSubmit net api s) sys))
  = requests (trace sys)
    ++ (if valid_submission s
        then [Ingest.ingest_request (Ingest.Tsx.API_BASE api) (submitted_form s)]
        else []).
Proof.
  unfold valid_submission, has_content, metadata_accepted, submitted_form.
  destruct (blank (Ingest.docId s)) eqn:B.
  { rewrite (handleSubmit_tsx_blank_id _ _ B). cbn. now rewrite app_nil_r. }
  unfold_ingest. unfold_js. rewrite (truthy_trim_filled _ B).
  destruct (truthy_str (Ingest.text s)) eqn:Ht;
    destruct (Ingest.file s) as [f|] eqn:Hf;
    destruct (truthy_str (Ingest.metadata s)) eqn:Hm;
    try destruct (JSON_parse (Ingest.metadata s)) eqn:Hp;
    run_handler; log_normal; reflexivity.
Qed.

End Submission.

(** The fields of the form data that is sent. *)
Lemma submitted_text (s : Ingest.State) :
  form_field (str "text") (submitted_form s)
  = if truthy_str (Ingest.text s) then Some (FormString (Ingest.text s)) else None.
Proof.
  unfold submitted_form, Ingest.form_fields, append.
  destruct (truthy_str (Ingest.title s)), (truthy_str (Ingest.text s)),
    (Ingest.file s), (truthy_str (Ingest.metadata s)); reflexivity.
Qed.

Lemma submitted_file (s : Ingest.State) :
  form_field (str "file") (submitted_form s)
  = match Ingest.file s with Some f => Some (FormFile f) | None => None end.
Proof.
  unfold submitted_form, Ingest.form_fields, append.
  destruct (truthy_str (Ingest.title s)), (truthy_str (Ingest.text s)),
    (Ingest.file s), (truthy_str (Ingest.metadata s)); reflexivity.
Qed.

Lemma submitted_metadata (s : Ingest.State) :
  form_field (str "metadata") (submitted_form s)
  = if truthy_str (Ingest.metadata s)
    then Some (FormString (Ingest.metadata s)) else None.
Proof.
  unfold submitted_form, Ingest.form_fields, append.
  destruct (truthy_str (Ingest.title s)), (truthy_str (Ingest.text s)),
    (Ingest.file s), (truthy_str (Ingest.metadata s)); reflexivity.
Qed.

Lemma valid_with_metadata (s : Ingest.State) (v : json) :
  blank (Ingest.docId s) = false -> has_content s = true ->
  JSON_parse (Ingest.metadata s) = Some v ->
  valid_submission s = true.
Proof.
  intros B C P. unfold valid_submission, metadata_accepted.
  rewrite B, C, P. cbn. apply orb_true_r.
Qed.

(** C2 (amended). With a metadata field that is not empty, a
    submission that passed the two earlier checks goes on exactly when
    [JSON.parse] accepts the metadata, whatever kind of JSON value it is
    (the page does not ask for an object). When the metadata does not
    parse, the error becomes [Invalid JSON in metadata], loading is reset
    and nothing is sent: the log, the environment and the timers are
    untouched. When it parses, the post to [/ingest] is sent with the
    metadata text as a field. Both versions of the page. *)
Theorem C2_metadata_must_parse :
  forall (Env : Type) (net : Request -> Env -> FetchResult * Env)
         (api : option jsstring) (s : Ingest.State),
    blank (Ingest.docId s) = false -> has_content s = true ->
    truthy_str (Ingest.metadata s) = true ->
    (JSON_parse (Ingest.metadata s) = None ->
     forall sys,
       let rejected :=
         mkSys (Ingest.with_loading false
                  (Ingest.with_loading false
                     (Ingest.with_error (str "Invalid JSON in metadata")
                        (Ingest.with_message []
                           (Ingest.with_error []
                              (Ingest.with_loading true (store sys)))))))
           (env sys) (trace sys) (timers sys) in
       run (Ingest.Jsx.handleSubmit net s) sys = rejected /\
       run (Ingest.Tsx.handleSubmit net api s) sys = rejected) /\
    (forall v, JSON_parse (Ingest.metadata s) = Some v ->
     forall sys,
       let fd := append (Ingest.form_fields s) "metadata"
                   (FormString (Ingest.metadata s)) in
       form_field (str "metadata") fd = Some (FormString (Ingest.metadata s)) /\
       requests (trace (run (Ingest.Jsx.handleSubmit net s) sys))
       = requests (trace sys) ++ [Ingest.ingest_request Ingest.Jsx.API_BASE fd] /\
       requests (trace (run (Ingest.Tsx.handleSubmit net api s) sys))
       = requests (trace sys)
         ++ [Ingest.ingest_request (Ingest.Tsx.API_BASE api) fd]).
Proof.
  intros Env net api s B C M. split.
  - intros P sys. split.
    + now apply handleSubmit_jsx_bad_metadata.
    + now apply handleSubmit_tsx_bad_metadata.
  - intros v P sys.
    pose proof (valid_with_metadata s B C P) as V.
    pose proof (submitted_metadata s) as F.
    pose proof (handleSubmit_jsx_requests net s sys) as J.
    pose proof (handleSubmit_tsx_requests net api s sys) as T.
    unfold submitted_form in *. rewrite V, M in *. auto.
Qed.

Lemma C2_witness :
  let s := Scenario.broken_metadata_form in
  let sys := Scenario.start s tt in
  JSON_parse (Ingest.metadata s) = None /\
  run (Ingest.Jsx.handleSubmit Scenario.accepting s) sys
  = mkSys (Ingest.with_loading false
             (Ingest.with_loading false
                (Ingest.with_error (str "Invalid JSON in metadata")
                   (Ingest.with_message []
                      (Ingest.with_error []
                         (Ingest.with_loading true (store sys)))))))
      (env sys) (trace sys) (timers sys).
Proof.
  split; [reflexivity|].
  apply (proj1 (C2_metadata_must_parse Scenario.accepting None
                  Scenario.broken_metadata_form
                  eq_refl eq_refl eq_refl)).
  reflexivity.
Defined.

(** C2 as stated fails: the metadata [[1]] is JSON but not an object,
    and the submission goes through with it. *)
Lemma C2_counterexample :
  let s := Scenario.array_metadata_form in
  let sys' := run (Ingest.Jsx.handleSubmit Scenario.accepting s) (Scenario.start s tt) in
  Ingest.metadata s = str "[1]" /\
  JSON_parse (Ingest.metadata s) = Some (JArr [JNum (str "1")]) /\
  is_object (JArr [JNum (str "1")]) = false /\
  Ingest.error (store sys') = [] /\
  exists req,
    requests (trace sys') = [req] /\
    url req = Scenario.local_base ++ str "/ingest" /\
    body_field req "metadata" = Some (FormString (str "[1]")).
Proof.
  cbv zeta. repeat split; try reflexivity.
  eexists. split; [vm_compute; reflexivity|]. split; reflexivity.
Qed.

(** ** The polling loop *)

Lemma is_cleared_cleared (s : Ingest.State) : is_cleared (cleared s).
Proof. repeat split. Qed.

Section PollStep.

Variable Env : Type.
Variable net : Request -> Env -> FetchResult * Env.
Variable api : option jsstring.

Lemma poll_step_jsx : poll_step_spec net Ingest.Jsx.API_BASE (Ingest.Jsx.run_task net).
Proof.
  intros doc a sys Ht. cbv zeta.
  unfold document_of, cleared. unfold_ingest. unfold_js. cbv zeta.
  destruct (net (Ingest.doc_request Ingest.Jsx.API_BASE doc) (env sys)) as [res w] eqn:E.
  assert (L : (Ingest.maxAttempts <=? S a)%nat = negb (S a <? Ingest.maxAttempts)%nat).
  { destruct (Nat.ltb_spec (S a) Ingest.maxAttempts);
      [apply Nat.leb_gt | apply Nat.leb_le]; assumption. }
  rewrite L. clear L.
  destruct (S a <? Ingest.maxAttempts)%nat;
    destruct res as [reason|r]; cbn;
    try destruct (ok r) eqn:Hok; cbn;
    try destruct (content r) as [[| | | | |]|] eqn:Hc; cbn;
    try destruct (status r =? 404)%N; cbn;
    try match goal with
        | |- context [ToString ?v] => destruct (ToString v) eqn:Hs
        end; cbn;
    rewrite ?Ht; cbn;
    log_normal; repeat split; reflexivity.
Qed.

Lemma poll_step_tsx :
  poll_step_spec net (Ingest.Tsx.API_BASE api) (Ingest.Tsx.run_task net api).
Proof.
  intros doc a sys Ht. cbv zeta.
  unfold document_of, cleared. unfold_ingest. unfold_js. cbv zeta.
  destruct (net (Ingest.doc_request (Ingest.Tsx.API_BASE api) doc) (env sys))
    as [res w] eqn:E.
  destruct (S a <? Ingest.maxAttempts)%nat;
    destruct res as [reason|r]; cbn;
    try destruct (ok r) eqn:Hok; cbn;
    try destruct (content r) as [[| | | | |]|] eqn:Hc; cbn;
    try match goal with
        | |- context [ToString ?v] => destruct (ToString v) eqn:Hs
        end; cbn;
    rewrite ?Ht; cbn;
    log_normal; repeat split; reflexivity.
Qed.

End PollStep.

Lemma run_timers_idle {St Task Env : Type}
      (run_task : Task -> M St Task Env unit unit) (fuel : nat) (sys : Sys St Task Env) :
  timers sys = [] -> run_timers run_task fuel sys = Some sys.
Proof. intros H. destruct fuel; simpl; now rewrite H. Qed.

Lemma run_timers_fire {St Task Env : Type}
      (run_task : Task -> M St Task Env unit unit) (fuel : nat) (sys : Sys St Task Env)
      (d : N) (t : Task) (rest : list (N * Task)) :
  timers sys = (d, t) :: rest ->
  run_timers run_task (S fuel) sys
  = run_timers run_task fuel
      (run (run_task t) (mkSys (store sys) (env sys) (trace sys) rest)).
Proof. intros H. simpl. now rewrite H. Qed.

Section PollLoop.

Variable Env : Type.
Variable net : Request -> Env -> FetchResult * Env.
Variable base : jsstring.
Variable run_task : Ingest.task -> Ingest.IM Env unit unit.

Hypothesis step : poll_step_spec net base run_task.

(** The loop, from a queue that holds the poll with [a] attempts made
    and [S k] left. *)
Lemma poll_loop (k : nat) :
  forall a doc d (sys : Sys Ingest.State Ingest.task Env),
    (a + S k = Ingest.maxAttempts)%nat ->
    timers sys = [(d, Ingest.Poll doc a)] ->
    exists sys' polls,
      run_timers run_task (S k) sys = Some sys' /\
      timers sys' = [] /\
      is_cleared (store sys') /\
      Ingest.error (store sys') = Ingest.error (store sys) /\
      answers (trace sys') = answers (trace sys) ++ polls /\
      requests (trace sys')
      = requests (trace sys) ++ repeat (Ingest.doc_request base doc) (List.length polls) /\
      delays (trace sys')
      = delays (trace sys) ++ repeat Ingest.pollInterval (List.length polls - 1) /\
      (1 <= List.length polls <= S k)%nat /\
      pending_until_last polls /\
      match document_of (last polls (NetworkError [])) with
      | Some cc => Ingest.message (store sys') = Ingest.ingested_message doc cc
      | None =>
          Ingest.message (store sys') = Ingest.message (store sys) /\
          List.length polls = S k
      end.
Proof.
  induction k as [|k IH]; intros a doc d sys Ha Ht.
  - (* the last attempt *)
    rewrite (run_timers_fire run_task _ sys Ht).
    set (sys0 := mkSys (store sys) (env sys) (trace sys) []).
    destruct (step doc a sys0 eq_refl) as [_ [Hreq [Hans Hcase]]].
    set (res := fst (net (Ingest.doc_request base doc) (env sys0))) in *.
    set (sys1 := run (run_task (Ingest.Poll doc a)) sys0) in *.
    assert (Hlt : (S a <? Ingest.maxAttempts)%nat = false).
    { apply Nat.ltb_ge. unfold Ingest.maxAttempts in *. lia. }
    rewrite Hlt in Hcase.
    assert (Hd : timers sys1 = [] /\
                 delays (trace sys1) = delays (trace sys) /\
                 is_cleared (store sys1) /\
                 Ingest.error (store sys1) = Ingest.error (store sys)).
    { destruct (document_of res); destruct Hcase as [H1 [H2 H3]];
        rewrite H2; repeat split; assumption. }
    destruct Hd as [Htm [Hdl [Hcl Herr]]].
    exists sys1, [res]. simpl run_timers. rewrite Htm.
    repeat split; try assumption; try apply Hcl; simpl; try lia.
    + now rewrite Hdl, app_nil_r.
    + destruct (document_of res); destruct Hcase as [H1 [H2 H3]];
        rewrite H2; [reflexivity | split; reflexivity].
  - (* an attempt with more to follow *)
    rewrite (run_timers_fire run_task _ sys Ht).
    set (sys0 := mkSys (store sys) (env sys) (trace sys) []).
    destruct (step doc a sys0 eq_refl) as [_ [Hreq [Hans Hcase]]].
    set (res := fst (net (Ingest.doc_request base doc) (env sys0))) in *.
    set (sys1 := run (run_task (Ingest.Poll doc a)) sys0) in *.
    assert (Hlt : (S a <? Ingest.maxAttempts)%nat = true).
    { apply Nat.ltb_lt. unfold Ingest.maxAttempts in *. lia. }
    rewrite Hlt in Hcase.
    destruct (document_of res) as [cc|] eqn:Hdoc.
    + (* the document is there: the loop stops *)
      destruct Hcase as [Htm [Hst Hdl]].
      exists sys1, [res].
      rewrite (run_timers_idle run_task (S k) sys1 Htm).
      rewrite Hst. repeat split; try assumption; simpl; try lia.
      * now rewrite Hdl, app_nil_r.
      * now rewrite Hdoc.
    + (* pending: the next poll is scheduled *)
      destruct Hcase as [Htm [Hst Hdl]].
      destruct (IH (S a) doc Ingest.pollInterval sys1) as [sys' [polls H]];
        [lia | exact Htm |].
      destruct H as [Hrun [Ht' [Hcl [Herr [Ha' [Hr' [Hd' [Hlen [Hp Hlast]]]]]]]]].
      exists sys', (res :: polls).
      destruct polls as [|p ps]; [simpl in Hlen; lia|].
      split; [exact Hrun|]. split; [exact Ht'|]. split; [exact Hcl|].
      split; [now rewrite Herr, Hst|].
      split; [rewrite Ha', Hans, <- app_assoc; reflexivity|].
      split; [rewrite Hr', Hreq, <- app_assoc; reflexivity|].
      split.
      { rewrite Hd', Hdl, <- app_assoc. simpl. now rewrite Nat.sub_0_r. }
      split; [simpl in *; lia|].
      split; [split; [exact Hdoc | exact Hp]|].
      change (last (res :: p :: ps) (NetworkError [])) with (last (p :: ps) (NetworkError [])).
      destruct (document_of (last (p :: ps) (NetworkError []))).
      * exact Hlast.
      * destruct Hlast as [Hm Hl]. rewrite Hm, Hst. split; [reflexivity|].
        simpl in *. lia.
Qed.

End PollLoop.

(** ** An accepted asynchronous submission *)

Section AsyncSubmission.

Variable Env : Type.
Variable net : Request -> Env -> FetchResult * Env.
Variable api : option jsstring.

Lemma handleSubmit_jsx_async (s : Ingest.State) sys r w v :
  valid_submission s = true -> Ingest.sync s = false ->
  net (Ingest.ingest_request Ingest.Jsx.API_BASE (submitted_form s)) (env sys)
  = (Answer r, w) ->
  ok r = true -> content r = Parsed v ->
  run (Ingest.Jsx.handleSubmit net s) sys
  = mkSys
      (Ingest.with_loading false
         (Ingest.with_message (Ingest.started_message (Ingest.docId s))
            (Ingest.with_message []
               (Ingest.with_error [] (Ingest.with_loading true (store sys))))))
      w
      (trace sys
       ++ [Fetch (Ingest.ingest_request Ingest.Jsx.API_BASE (submitted_form s)) (Answer r);
           SetTimeout 500])
      (timers sys ++ [(500%N, Ingest.Poll (Ingest.docId s) 0)]).
Proof.
  intros V Hs Hnet Hok Hc.
  unfold valid_submission, has_content, metadata_accepted, submitted_form in *.
  destruct (blank (Ingest.docId s)) eqn:B; [discriminate|].
  unfold_ingest. unfold_js. rewrite (truthy_trim_filled _ B), Hs.
  destruct (truthy_str (Ingest.text s)) eqn:Ht;
    destruct (Ingest.file s) as [f|] eqn:Hf;
    destruct (truthy_str (Ingest.metadata s)) eqn:Hm;
    try destruct (JSON_parse (Ingest.metadata s)) eqn:Hp;
    try discriminate V;
    cbn in Hnet |- *; rewrite Hnet; cbn; rewrite Hok; cbn; rewrite Hc; cbn;
    rewrite <- app_assoc; reflexivity.
Qed.

Lemma handleSubmit_tsx_async (s : Ingest.State) sys r w v :
  valid_submission s = true -> Ingest.sync s = false ->
  net (Ingest.ingest_request (Ingest.Tsx.API_BASE api) (submitted_form s)) (env sys)
  = (Answer r, w) ->
  ok r = true -> content r = Parsed v ->
  run (Ingest.Tsx.handleSubmit net api s) sys
  = mkSys
      (Ingest.with_loading false
         (Ingest.with_message (Ingest.started_message (Ingest.docId s))
            (Ingest.with_message []
               (Ingest.with_error [] (Ingest.with_loading true (store sys))))))
      w
      (trace sys
       ++ [Fetch (Ingest.ingest_request (Ingest.Tsx.API_BASE api) (submitted_form s))
             (Answer r);
           SetTimeout 500])
      (timers sys ++ [(500%N, Ingest.Poll (Ingest.docId s) 0)]).
Proof.
  intros V Hs Hnet Hok Hc.
  unfold valid_submission, has_content, metadata_accepted, submitted_form in *.
  destruct (blank (Ingest.docId s)) eqn:B; [discriminate|].
  unfold_ingest. unfold_js. rewrite (truthy_trim_filled _ B), Hs.
  destruct (truthy_str (Ingest.text s)) eqn:Ht;
    destruct (Ingest.file s) as [f|] eqn:Hf;
    destruct (truthy_str (Ingest.metadata s)) eqn:Hm;
    try destruct (JSON_parse (Ingest.metadata s)) eqn:Hp;
    try discriminate V;
    cbn in Hnet |- *; rewrite Hnet; cbn; rewrite Hok; cbn; rewrite Hc; cbn;
    rewrite <- app_assoc; reflexivity.
Qed.

End AsyncSubmission.



Lemma not_found_is_pending (r : Response) :
  status r = 404%N -> pending (Answer r).
Proof. intros H. unfold pending, document_of, ok. now rewrite H. Qed.




(** C4 (amended). After an asynchronous submission is accepted, the
    page shows that the ingestion started and polls [/docs/{doc_id}],
    at least once and at most ten times. A poll that finds the document
    (a success answer whose body parses, is not [null] and has a
    [chunk_count] that prints) makes the message report its chunk count
    and ends the polling; a not-found answer (like any other poll that
    does not find the document) counts as pending and is never shown as
    an error. When ten polls found the document pending, the polling ends
    with the message still saying that the ingestion started: the outcome
    is then not reported. Both versions of the page. *)
Theorem C4_polling_reports_within_ten_attempts :
  forall (Env : Type) (net : Request -> Env -> FetchResult * Env)
         (api : option jsstring) (s : Ingest.State)
         (sys : Sys Ingest.State Ingest.task Env) (r : Response) (w : Env) (v : json),
    timers sys = [] ->
    valid_submission s = true -> Ingest.sync s = false ->
    ok r = true -> content r = Parsed v ->
    (net (Ingest.ingest_request Ingest.Jsx.API_BASE (submitted_form s)) (env sys)
     = (Answer r, w) ->
     let submitted := run (Ingest.Jsx.handleSubmit net s) sys in
     timers submitted = [(500%N, Ingest.Poll (Ingest.docId s) 0)] /\
     Ingest.message (store submitted) = Ingest.started_message (Ingest.docId s) /\
     exists sys' polls,
       run_timers (Ingest.Jsx.run_task net) 10 submitted = Some sys' /\
       timers sys' = [] /\
       answers (trace sys') = answers (trace submitted) ++ polls /\
       requests (trace sys')
       = requests (trace submitted)
         ++ repeat (Ingest.doc_request Ingest.Jsx.API_BASE (Ingest.docId s))
              (List.length polls) /\
       (1 <= List.length polls <= 10)%nat /\
       pending_until_last polls /\
       Ingest.error (store sys') = [] /\
       match document_of (last polls (NetworkError [])) with
       | Some cc =>
           Ingest.message (store sys')
           = Ingest.ingested_message (Ingest.docId s) cc
       | None =>
           Ingest.message (store sys') = Ingest.started_message (Ingest.docId s) /\
           List.length polls = 10%nat
       end) /\
    (net (Ingest.ingest_request (Ingest.Tsx.API_BASE api) (submitted_form s)) (env sys)
     = (Answer r, w) ->
     let submitted := run (Ingest.Tsx.handleSubmit net api s) sys in
     timers submitted = [(500%N, Ingest.Poll (Ingest.docId s) 0)] /\
     Ingest.message (store submitted) = Ingest.started_message (Ingest.docId s) /\
     exists sys' polls,
       run_timers (Ingest.Tsx.run_task net api) 10 submitted = Some sys' /\
       timers sys' = [] /\
       answers (trace sys') = answers (trace submitted) ++ polls /\
       requests (trace sys')
       = requests (trace submitted)
         ++ repeat (Ingest.doc_request (Ingest.Tsx.API_BASE api) (Ingest.docId s))
              (List.length polls) /\
       (1 <= List.length polls <= 10)%nat /\
       pending_until_last polls /\
       Ingest.error (store sys') = [] /\
       match document_of (last polls (NetworkError [])) with
       | Some cc =>
           Ingest.message (store sys')
           = Ingest.ingested_message (Ingest.docId s) cc
       | None =>
           Ingest.message (store sys') = Ingest.started_message (Ingest.docId s) /\
           List.length polls = 10%nat
       end) /\
    (forall r404, status r404 = 404%N -> pending (Answer r404)).
Proof.
  intros Env net api s sys r w v Ht V Hs Hok Hc.
  split; [|split]; [| |apply not_found_is_pending].
  - intros Hnet. cbv zeta.
    rewrite (handleSubmit_jsx_async net s sys V Hs Hnet Hok Hc), Ht.
    split; [reflexivity|]. split; [reflexivity|].
    match goal with |- context [run_timers _ _ ?S] => set (submitted := S) end.
    destruct (@poll_loop _ net _ _ (poll_step_jsx net) 9 0 (Ingest.docId s) 500%N
                submitted eq_refl eq_refl)
      as [sys' [polls [H1 [H2 [_ [H4 [H5 [H6 [_ [H8 [H9 H10]]]]]]]]]]].
    exists sys', polls. repeat split; try assumption; apply H8.
  - intros Hnet. cbv zeta.
    rewrite (handleSubmit_tsx_async net api s sys V Hs Hnet Hok Hc), Ht.
    split; [reflexivity|]. split; [reflexivity|].
    match goal with |- context [run_timers _ _ ?S] => set (submitted := S) end.
    destruct (@poll_loop _ net _ _ (poll_step_tsx net api) 9 0 (Ingest.docId s) 500%N
                submitted eq_refl eq_refl)
      as [sys' [polls [H1 [H2 [_ [H4 [H5 [H6 [_ [H8 [H9 H10]]]]]]]]]]].
    exists sys', polls. repeat split; try assumption; apply H8.
Qed.

Lemma C4_witness :
  let s := Scenario.text_form in
  let submitted :=
    run (Ingest.Jsx.handleSubmit Scenario.quick_ingestion s) (Scenario.start s 0%nat) in
  timers submitted = [(500%N, Ingest.Poll (Ingest.docId s) 0)] /\
  Ingest.message (store submitted) = Ingest.started_message (Ingest.docId s) /\
  exists sys' polls,
    run_timers (Ingest.Jsx.run_task Scenario.quick_ingestion) 10 submitted = Some sys' /\
    timers sys' = [] /\
    answers (trace sys') = answers (trace submitted) ++ polls /\
    requests (trace sys')
    = requests (trace submitted)
      ++ repeat (Ingest.doc_request Ingest.Jsx.API_BASE (Ingest.docId s))
           (List.length polls) /\
    (1 <= List.length polls <= 10)%nat /\
    pending_until_last polls /\
    Ingest.error (store sys') = [] /\
    match document_of (last polls (NetworkError [])) with
    | Some cc =>
        Ingest.message (store sys') = Ingest.ingested_message (Ingest.docId s) cc
    | None =>
        Ingest.message (store sys') = Ingest.started_message (Ingest.docId s) /\
        List.length polls = 10%nat
    end.
Proof.
  exact (proj1 (@C4_polling_reports_within_ten_attempts
                  nat Scenario.quick_ingestion None Scenario.text_form
                  (Scenario.start Scenario.text_form 0%nat)
                  (mkResponse 200 (str "OK")
                     (Parsed (JObj [(str "status", JStr (str "started"))])))
                  0%nat
                  (JObj [(str "status", JStr (str "started"))])
                  eq_refl eq_refl eq_refl eq_refl eq_refl)
           eq_refl).
Defined.

(** C4 as stated fails: against a service that needs longer than ten
    polls, the page polls ten times, stops (the timer queue is empty) and
    still says that the ingestion started, although the document is
    there by then: the next request for it would be answered with its
    chunk count. *)
Lemma C4_counterexample :
  let s := Scenario.text_form in
  let submitted :=
    run (Ingest.Jsx.handleSubmit Scenario.slow_ingestion s) (Scenario.start s 0%nat) in
  exists sys',
    run_timers (Ingest.Jsx.run_task Scenario.slow_ingestion) 10 submitted = Some sys' /\
    timers sys' = [] /\
    List.length (requests (trace sys')) = 11%nat /\
    Ingest.message (store sys') = Ingest.started_message (str "docX") /\
    document_of
      (fst (Scenario.slow_ingestion
              (Ingest.doc_request Ingest.Jsx.API_BASE (str "docX")) (env sys')))
    = Some (str "3").
Proof.
  cbv zeta. eexists. split; [vm_compute; reflexivity|].
  vm_compute. repeat split.
Qed.

(** ** The ingest form: a selected file excludes a text *)

Lemma keeps_or_clears_invariant (s s' : Ingest.State) :
  keeps_or_clears s s' -> file_excludes_text s -> file_excludes_text s'.
Proof.
  unfold file_excludes_text, keeps_or_clears.
  intros [[Ht Hf]|[Ht Hf]] H; rewrite Ht, Hf; [exact H | reflexivity].
Qed.

Lemma submitted_form_exclusive (base : jsstring) (s : Ingest.State) :
  file_excludes_text s ->
  text_and_file (Ingest.ingest_request base (submitted_form s)) = false.
Proof.
  intros H. unfold text_and_file, body_field, Ingest.ingest_request. cbn.
  rewrite submitted_text, submitted_file.
  destruct (Ingest.file s) as [f|] eqn:Hf.
  - rewrite H by (rewrite Hf; discriminate). reflexivity.
  - apply andb_false_r.
Qed.

Section StoreEffects.

Variable Env : Type.
Variable net : Request -> Env -> FetchResult * Env.
Variable api : option jsstring.

Ltac tf_frame :=
  unfold keeps_or_clears; unfold_ingest; unfold_js;
  run_handler; auto.

Lemma handleSubmit_jsx_keeps_or_clears (s : Ingest.State) sys :
  keeps_or_clears (store sys) (store (run (Ingest.Jsx.handleSubmit net s) sys)).
Proof. tf_frame. Qed.

Lemma handleSubmit_tsx_keeps_or_clears (s : Ingest.State) sys :
  keeps_or_clears (store sys) (store (run (Ingest.Tsx.handleSubmit net api s) sys)).
Proof. tf_frame. Qed.

Lemma run_task_jsx_keeps_or_clears (t : Ingest.task) sys :
  keeps_or_clears (store sys) (store (run (Ingest.Jsx.run_task net t) sys)).
Proof. destruct t. tf_frame. Qed.

Lemma run_task_tsx_keeps_or_clears (t : Ingest.task) sys :
  keeps_or_clears (store sys) (store (run (Ingest.Tsx.run_task net api t) sys)).
Proof. destruct t. tf_frame. Qed.

Lemma run_task_jsx_requests (t : Ingest.task) sys :
  exists doc,
    requests (trace (run (Ingest.Jsx.run_task net t) sys))
    = requests (trace sys) ++ [Ingest.doc_request Ingest.Jsx.API_BASE doc].
Proof.
  destruct t as [doc a]. exists doc. unfold_ingest. unfold_js.
  run_handler; log_normal; reflexivity.
Qed.

Lemma run_task_tsx_requests (t : Ingest.task) sys :
  exists doc,
    requests (trace (run (Ingest.Tsx.run_task net api t) sys))
    = requests (trace sys) ++ [Ingest.doc_request (Ingest.Tsx.API_BASE api) doc].
Proof.
  destruct t as [doc a]. exists doc. unfold_ingest. unfold_js.
  run_handler; log_normal; reflexivity.
Qed.

End StoreEffects.

Lemma handleFileChange_jsx_effect {Env : Type} (files0 : option File)
      (sys : Sys Ingest.State Ingest.task Env) :
  run (Ingest.Jsx.handleFileChange (Env:=Env) files0) sys
  = match files0 with
    | Some f =>
        mkSys (Ingest.with_text [] (Ingest.with_file (Some f) (store sys)))
          (env sys) (trace sys) (timers sys)
    | None => sys
    end.
Proof. destruct files0; [reflexivity | now destruct sys]. Qed.

Lemma handleFileChange_tsx_effect {Env : Type} (files0 : option File)
      (sys : Sys Ingest.State Ingest.task Env) :
  run (Ingest.Tsx.handleFileChange (Env:=Env) files0) sys
  = match files0 with
    | Some f =>
        mkSys (Ingest.with_text [] (Ingest.with_file (Some f) (store sys)))
          (env sys) (trace sys) (timers sys)
    | None => sys
    end.
Proof. destruct files0; [reflexivity | now destruct sys]. Qed.

Section FormInvariant.

Variable Env : Type.
Variable base : jsstring.
Variable handleSubmit : Ingest.State -> Ingest.IM Env unit unit.
Variable handleFileChange : option File -> Ingest.IM Env unit unit.
Variable run_task : Ingest.task -> Ingest.IM Env unit unit.

Hypothesis submit_store :
  forall s sys, keeps_or_clears (store sys) (store (run (handleSubmit s) sys)).
Hypothesis submit_requests :
  forall s sys,
    requests (trace (run (handleSubmit s) sys))
    = requests (trace sys)
      ++ (if valid_submission s
          then [Ingest.ingest_request base (submitted_form s)] else []).
Hypothesis task_store :
  forall t sys, keeps_or_clears (store sys) (store (run (run_task t) sys)).
Hypothesis task_requests :
  forall t sys, exists doc,
    requests (trace (run (run_task t) sys))
    = requests (trace sys) ++ [Ingest.doc_request base doc].
Hypothesis file_change :
  forall files0 sys,
    run (handleFileChange files0) sys
    = match files0 with
      | Some f =>
          mkSys (Ingest.with_text [] (Ingest.with_file (Some f) (store sys)))
            (env sys) (trace sys) (timers sys)
      | None => sys
      end.

Lemma fire_invariant (e : Ingest.ui_event) sys :
  Ingest.enabled e sys = true ->
  form_invariant sys ->
  form_invariant (Ingest.fire handleSubmit handleFileChange run_task e sys).
Proof.
  intros En [Hs Hr]. unfold form_invariant.
  destruct e as [v|v|v|files0|v|c| |which]; cbn [Ingest.fire].
  - split; [exact Hs|exact Hr].
  - split; [exact Hs|exact Hr].
  - (* typing a text: the text area is enabled, so no file is selected *)
    split; [|exact Hr].
    cbn in En. apply negb_true_iff, orb_false_iff in En as [_ Hf].
    intros Hfile. cbn in Hfile. destruct (Ingest.file (store sys)); [discriminate|].
    now contradiction Hfile.
  - (* choosing a file clears the text *)
    rewrite file_change. destruct files0 as [f|].
    + split; [intros _; reflexivity|exact Hr].
    + split; [exact Hs|exact Hr].
  - split; [exact Hs|exact Hr].
  - split; [exact Hs|exact Hr].
  - (* submitting: the request is built from a form that satisfies the invariant *)
    split.
    + eapply keeps_or_clears_invariant; [apply submit_store|exact Hs].
    + rewrite submit_requests. apply Forall_app. split; [exact Hr|].
      destruct (valid_submission (store sys)); constructor; [|constructor].
      now apply submitted_form_exclusive.
  - (* a poll *)
    destruct (nth_error (timers sys) which) as [[d t]|]; [|split; [exact Hs|exact Hr]].
    set (rest := firstn which (timers sys) ++ skipn (S which) (timers sys)).
    split.
    + eapply keeps_or_clears_invariant; [apply task_store|exact Hs].
    + destruct (task_requests t (mkSys (store sys) (env sys) (trace sys) rest))
        as [doc Hq].
      rewrite Hq. apply Forall_app. split; [exact Hr|].
      constructor; [reflexivity|constructor].
Qed.

Lemma reachable_invariant sys :
  Ingest.reachable handleSubmit handleFileChange run_task sys -> form_invariant sys.
Proof.
  induction 1 as [w|e sys Hreach IH].
  - split; [intros H; now contradiction H | constructor].
  - unfold Ingest.ui_step.
    destruct (Ingest.enabled e sys) eqn:En; [now apply fire_invariant | exact IH].
Qed.

End FormInvariant.

(** C8. In every state the ingest form can reach from its mounted
    state (by typing, choosing files, toggling, submitting, and by the
    polling timers firing), a selected file comes with an empty text, and
    no request that was sent carries both a text and a file field.
    Choosing a file stores it and empties the text; while a file is
    selected the text area is disabled, so an attempt to type changes
    nothing. Both versions of the page. *)
Theorem C8_file_excludes_text :
  forall (Env : Type) (net : Request -> Env -> FetchResult * Env)
         (api : option jsstring),
    (forall sys,
       Ingest.reachable (Ingest.Jsx.handleSubmit net)
         (Ingest.Jsx.handleFileChange (Env:=Env)) (Ingest.Jsx.run_task net) sys ->
       file_excludes_text (store sys) /\
       Forall (fun req => text_and_file req = false) (requests (trace sys))) /\
    (forall sys,
       Ingest.reachable (Ingest.Tsx.handleSubmit net api)
         (Ingest.Tsx.handleFileChange (Env:=Env)) (Ingest.Tsx.run_task net api) sys ->
       file_excludes_text (store sys) /\
       Forall (fun req => text_and_file req = false) (requests (trace sys))) /\
    (forall f (sys : Sys Ingest.State Ingest.task Env),
       Ingest.file (store (run (Ingest.Jsx.handleFileChange (Some f)) sys)) = Some f /\
       Ingest.text (store (run (Ingest.Jsx.handleFileChange (Some f)) sys)) = [] /\
       Ingest.file (store (run (Ingest.Tsx.handleFileChange (Some f)) sys)) = Some f /\
       Ingest.text (store (run (Ingest.Tsx.handleFileChange (Some f)) sys)) = []) /\
    (forall handleSubmit handleFileChange run_task v
            (sys : Sys Ingest.State Ingest.task Env),
       Ingest.file (store sys) <> None ->
       Ingest.ui_step handleSubmit handleFileChange run_task (Ingest.TypeText v) sys
       = sys).
Proof.
  intros Env net api. split; [|split; [|split]].
  - intros sys H.
    apply (@reachable_invariant Env Ingest.Jsx.API_BASE
             (Ingest.Jsx.handleSubmit net) (Ingest.Jsx.handleFileChange (Env:=Env))
             (Ingest.Jsx.run_task net)); try assumption.
    + apply handleSubmit_jsx_keeps_or_clears.
    + apply handleSubmit_jsx_requests.
    + apply run_task_jsx_keeps_or_clears.
    + apply run_task_jsx_requests.
    + apply handleFileChange_jsx_effect.
  - intros sys H.
    apply (@reachable_invariant Env (Ingest.Tsx.API_BASE api)
             (Ingest.Tsx.handleSubmit net api) (Ingest.Tsx.handleFileChange (Env:=Env))
             (Ingest.Tsx.run_task net api)); try assumption.
    + apply handleSubmit_tsx_keeps_or_clears.
    + apply handleSubmit_tsx_requests.
    + apply run_task_tsx_keeps_or_clears.
    + apply run_task_tsx_requests.
    + apply handleFileChange_tsx_effect.
  - intros f sys. repeat split.
  - intros hs hf rt v sys Hf. unfold Ingest.ui_step, Ingest.enabled.
    destruct (Ingest.file (store sys)); [|now contradiction Hf].
    cbn. now rewrite orb_true_r.
Qed.

Lemma C8_witness :
  let step :=
    Ingest.ui_step (Ingest.Jsx.handleSubmit Scenario.accepting)
      (Ingest.Jsx.handleFileChange (Env:=unit))
      (Ingest.Jsx.run_task Scenario.accepting) in
  let sys :=
    step Ingest.SubmitForm
      (step (Ingest.ChooseFile (Some Scenario.report_pdf))
         (step (Ingest.TypeText (str "The quick brown fox"))
            (step (Ingest.TypeDocId (str "docX"))
               (mkSys Ingest.initial tt [] [])))) in
  file_excludes_text (store sys) /\
  Forall (fun req => text_and_file req = false) (requests (trace sys)).
Proof.
  apply (proj1 (@C8_file_excludes_text unit Scenario.accepting None)).
  repeat apply Ingest.reach_step. apply Ingest.reach_mount.
Defined.

(** ** The required fields *)

Section RequiredFields.

Variable Env : Type.
Variable net : Request -> Env -> FetchResult * Env.
Variable api : option jsstring.

Lemma reachable_jsx_invariant sys :
  Ingest.reachable (Ingest.Jsx.handleSubmit net)
    (Ingest.Jsx.handleFileChange (Env:=Env)) (Ingest.Jsx.run_task net) sys ->
  form_invariant sys.
Proof.
  apply (@reachable_invariant Env Ingest.Jsx.API_BASE).
  - apply handleSubmit_jsx_keeps_or_clears.
  - apply handleSubmit_jsx_requests.
  - apply run_task_jsx_keeps_or_clears.
  - apply run_task_jsx_requests.
  - apply handleFileChange_jsx_effect.
Qed.

Lemma reachable_tsx_invariant sys :
  Ingest.reachable (Ingest.Tsx.handleSubmit net api)
    (Ingest.Tsx.handleFileChange (Env:=Env)) (Ingest.Tsx.run_task net api) sys ->
  form_invariant sys.
Proof.
  apply (@reachable_invariant Env (Ingest.Tsx.API_BASE api)).
  - apply handleSubmit_tsx_keeps_or_clears.
  - apply handleSubmit_tsx_requests.
  - apply run_task_tsx_keeps_or_clears.
  - apply run_task_tsx_requests.
  - apply handleFileChange_tsx_effect.
Qed.

End RequiredFields.

(** A form that holds no text next to a file misses the requirement
    only by a blank document id or by having neither text nor file. *)
Lemma misses_requirement (s : Ingest.State) :
  file_excludes_text s -> meets_requirement s = false ->
  blank (Ingest.docId s) = true
  \/ (blank (Ingest.docId s) = false /\ has_content s = false).
Proof.
  unfold file_excludes_text, meets_requirement, has_content. intros I M.
  destruct (blank (Ingest.docId s)); [now left | right].
  split; [reflexivity|].
  destruct (Ingest.file s) as [f|].
  - rewrite I in * by discriminate. cbn in M. discriminate M.
  - cbn in *. now destruct (truthy_str (Ingest.text s)).
Qed.

Lemma meets_requirement_valid (s : Ingest.State) :
  meets_requirement s = true -> valid_submission s = metadata_accepted s.
Proof.
  unfold meets_requirement, valid_submission, has_content. intros M.
  apply andb_true_iff in M as [B X]. rewrite B.
  destruct (truthy_str (Ingest.text s)), (Ingest.file s); cbn in *;
    try discriminate; reflexivity.
Qed.

(** C3. In every state the ingest form can reach, a submission needs a
    document id and exactly one of a text and a file: when the form
    misses that, [handleSubmit] sets the validation error and does
    nothing else (nothing is sent, the log, the service and the timers
    are untouched); when the form meets it, the post to [/ingest] is sent
    unless the metadata is turned down. A form with both a text and a
    file does not occur: choosing a file empties the text, and the text
    area is disabled while a file is selected. Both versions of the
    page. *)
Theorem C3_required_fields :
  forall (Env : Type) (net : Request -> Env -> FetchResult * Env)
         (api : option jsstring),
    (forall sys,
       Ingest.reachable (Ingest.Jsx.handleSubmit net)
         (Ingest.Jsx.handleFileChange (Env:=Env)) (Ingest.Jsx.run_task net) sys ->
       let s := store sys in
       (meets_requirement s = false ->
        run (Ingest.Jsx.handleSubmit net s) sys
        = mkSys (Ingest.with_error (validation_error s) s)
            (env sys) (trace sys) (timers sys)) /\
       (meets_requirement s = true ->
        requests (trace (run (Ingest.Jsx.handleSubmit net s) sys))
        = requests (trace sys)
          ++ (if metadata_accepted s
              then [Ingest.ingest_request Ingest.Jsx.API_BASE (submitted_form s)]
              else [])) /\
       (truthy_str (Ingest.text s) && non_null (Ingest.file s) = false)) /\
    (forall sys,
       Ingest.reachable (Ingest.Tsx.handleSubmit net api)
         (Ingest.Tsx.handleFileChange (Env:=Env)) (Ingest.Tsx.run_task net api) sys ->
       let s := store sys in
       (meets_requirement s = false ->
        run (Ingest.Tsx.handleSubmit net api s) sys
        = mkSys (Ingest.with_error (validation_error s) s)
            (env sys) (trace sys) (timers sys)) /\
       (meets_requirement s = true ->
        requests (trace (run (Ingest.Tsx.handleSubmit net api s) sys))
        = requests (trace sys)
          ++ (if metadata_accepted s
              then [Ingest.ingest_request (Ingest.Tsx.API_BASE api) (submitted_form s)]
              else [])) /\
       (truthy_str (Ingest.text s) && non_null (Ingest.file s) = false)).
Proof.
  intros Env net api. split; intros sys Hreach; cbv zeta.
  - destruct (reachable_jsx_invariant Hreach) as [I _].
    split; [|split].
    + intros M. unfold validation_error.
      destruct (misses_requirement I M) as [B|[B C]]; rewrite B.
      * now apply handleSubmit_jsx_blank_id.
      * now apply handleSubmit_jsx_no_content.
    + intros M. rewrite handleSubmit_jsx_requests.
      now rewrite (meets_requirement_valid _ M).
    + unfold file_excludes_text in I.
      destruct (Ingest.file (store sys)); [|apply andb_false_r].
      now rewrite I by discriminate.
  - destruct (reachable_tsx_invariant Hreach) as [I _].
    split; [|split].
    + intros M. unfold validation_error.
      destruct (misses_requirement I M) as [B|[B C]]; rewrite B.
      * now apply handleSubmit_tsx_blank_id.
      * now apply handleSubmit_tsx_no_content.
    + intros M. rewrite handleSubmit_tsx_requests.
      now rewrite (meets_requirement_valid _ M).
    + unfold file_excludes_text in I.
      destruct (Ingest.file (store sys)); [|apply andb_false_r].
      now rewrite I by discriminate.
Qed.

Lemma C3_witness :
  let step :=
    Ingest.ui_step (Ingest.Jsx.handleSubmit Scenario.accepting)
      (Ingest.Jsx.handleFileChange (Env:=unit))
      (Ingest.Jsx.run_task Scenario.accepting) in
  let sys :=
    step (Ingest.TypeText (str "The quick brown fox"))
      (step (Ingest.ChooseFile (Some Scenario.report_pdf))
         (step (Ingest.TypeDocId (str "docX"))
            (mkSys Ingest.initial tt [] []))) in
  Ingest.text (store sys) = [] /\
  Ingest.file (store sys) = Some Scenario.report_pdf /\
  meets_requirement (store sys) = true /\
  requests (trace (run (Ingest.Jsx.handleSubmit Scenario.accepting (store sys)) sys))
  = [Ingest.ingest_request Ingest.Jsx.API_BASE (submitted_form (store sys))] /\
  body_field
    (Ingest.ingest_request Ingest.Jsx.API_BASE (submitted_form (store sys))) "text"
  = None.
Proof.
  cbv zeta.
  split; [reflexivity|]. split; [reflexivity|]. split; [reflexivity|].
  split; [|reflexivity].
  match goal with
  | |- requests (trace (run _ ?S)) = _ =>
      assert (R : Ingest.reachable (Ingest.Jsx.handleSubmit Scenario.accepting)
                    (Ingest.Jsx.handleFileChange (Env:=unit))
                    (Ingest.Jsx.run_task Scenario.accepting) S)
  end.
  { repeat apply Ingest.reach_step. apply Ingest.reach_mount. }
  exact (proj1 (proj2 (proj1 (@C3_required_fields unit Scenario.accepting None) _ R))
           eq_refl).
Defined.

(* ================================================================== *)
(** * Further properties of the handlers *)

(** ** Submissions: the synchronous path and the failures *)

Ltac rewrite_inputs :=
  repeat match goal with
         | H : truthy_str _ = _ |- _ => rewrite H
         | H : Ingest.file _ = _ |- _ => rewrite H
         | H : JSON_parse _ = _ |- _ => rewrite H
         end.

Section SubmissionOutcomes.

Variable Env : Type.
Variable net : Request -> Env -> FetchResult * Env.
Variable api : option jsstring.

Ltac submit_cases s V Hnet :=
  unfold valid_submission, has_content, metadata_accepted, submitted_form in *;
  destruct (blank (Ingest.docId s)) eqn:B; [discriminate|];
  destruct (truthy_str (Ingest.text s)) eqn:Ht;
  destruct (Ingest.file s) as [f|] eqn:Hf;
  destruct (truthy_str (Ingest.metadata s)) eqn:Hm;
  try destruct (JSON_parse (Ingest.metadata s)) eqn:Hp;
  try discriminate V;
  unfold_ingest; unfold_js;
  rewrite (truthy_trim_filled _ B);
  cbn in Hnet |- *; rewrite_inputs; cbn; rewrite Hnet; cbn.

Lemma handleSubmit_jsx_sync (s : Ingest.State) sys r w ms :
  valid_submission s = true -> Ingest.sync s = true ->
  net (Ingest.ingest_request Ingest.Jsx.API_BASE (submitted_form s)) (env sys)
  = (Answer r, w) ->
  ok r = true -> content r = Parsed (JObj ms) ->
  run (Ingest.Jsx.handleSubmit net s) sys
  = mkSys
      match ToString (lookup_member (str "chunk_count") ms) with
      | Some count => ingested (Ingest.docId s) count (store sys)
      | None => failed_submission not_primitive (store sys)
      end
      w
      (trace sys
       ++ [Fetch (Ingest.ingest_request Ingest.Jsx.API_BASE (submitted_form s)) (Answer r)])
      (timers sys).
Proof.
  intros V Hs Hnet Hok Hc.
  submit_cases s V Hnet; rewrite Hok; cbn; rewrite Hc, Hs; cbn;
    destruct (ToString (lookup_member (str "chunk_count") ms)); reflexivity.
Qed.

Lemma handleSubmit_tsx_sync (s : Ingest.State) sys r w ms :
  valid_submission s = true -> Ingest.sync s = true ->
  net (Ingest.ingest_request (Ingest.Tsx.API_BASE api) (submitted_form s)) (env sys)
  = (Answer r, w) ->
  ok r = true -> content r = Parsed (JObj ms) ->
  run (Ingest.Tsx.handleSubmit net api s) sys
  = match ToString (lookup_member (str "chunk_count") ms) with
    | Some count =>
        mkSys (ingested (Ingest.docId s) count (store sys)) w
          (trace sys
           ++ [Fetch (Ingest.ingest_request (Ingest.Tsx.API_BASE api) (submitted_form s))
                 (Answer r);
               ToastSuccess (str "Document ingested!")
                 (Some (count ++ str " chunks created"))])
          (timers sys)
    | None =>
        mkSys (failed_submission not_primitive (store sys)) w
          (trace sys
           ++ [Fetch (Ingest.ingest_request (Ingest.Tsx.API_BASE api) (submitted_form s))
                 (Answer r);
               ToastError (str "Ingestion failed") (Some not_primitive)])
          (timers sys)
    end.
Proof.
  intros V Hs Hnet Hok Hc.
  submit_cases s V Hnet; rewrite Hok; cbn; rewrite Hc, Hs; cbn;
    destruct (ToString (lookup_member (str "chunk_count") ms)); cbn;
    rewrite <- app_assoc; reflexivity.
Qed.

Lemma handleSubmit_jsx_rejected (s : Ingest.State) sys r w ms :
  valid_submission s = true ->
  net (Ingest.ingest_request Ingest.Jsx.API_BASE (submitted_form s)) (env sys)
  = (Answer r, w) ->
  ok r = false -> content r = Parsed (JObj ms) ->
  run (Ingest.Jsx.handleSubmit net s) sys
  = mkSys (failed_submission (rejection_message r ms) (store sys)) w
      (trace sys
       ++ [Fetch (Ingest.ingest_request Ingest.Jsx.API_BASE (submitted_form s)) (Answer r)])
      (timers sys).
Proof.
  intros V Hnet Hok Hc. unfold rejection_message.
  submit_cases s V Hnet; rewrite Hok; cbn; rewrite Hc; cbn;
    destruct (truthy (lookup_member (str "detail") ms)); cbn;
    try destruct (ToString (lookup_member (str "detail") ms)); reflexivity.
Qed.

Lemma handleSubmit_tsx_rejected (s : Ingest.State) sys r w ms :
  valid_submission s = true ->
  net (Ingest.ingest_request (Ingest.Tsx.API_BASE api) (submitted_form s)) (env sys)
  = (Answer r, w) ->
  ok r = false -> content r = Parsed (JObj ms) ->
  run (Ingest.Tsx.handleSubmit net api s) sys
  = mkSys (failed_submission (rejection_message r ms) (store sys)) w
      (trace sys
       ++ [Fetch (Ingest.ingest_request (Ingest.Tsx.API_BASE api) (submitted_form s))
             (Answer r);
           ToastError (str "Ingestion failed") (Some (rejection_message r ms))])
      (timers sys).
Proof.
  intros V Hnet Hok Hc. unfold rejection_message.
  submit_cases s V Hnet; rewrite Hok; cbn; rewrite Hc; cbn;
    destruct (truthy (lookup_member (str "detail") ms)); cbn;
    try destruct (ToString (lookup_member (str "detail") ms)); cbn;
    rewrite <- app_assoc; reflexivity.
Qed.

Lemma handleSubmit_jsx_unreachable (s : Ingest.State) sys reason w :
  valid_submission s = true ->
  net (Ingest.ingest_request Ingest.Jsx.API_BASE (submitted_form s)) (env sys)
  = (NetworkError reason, w) ->
  run (Ingest.Jsx.handleSubmit net s) sys
  = mkSys (failed_submission reason (store sys)) w
      (trace sys
       ++ [Fetch (Ingest.ingest_request Ingest.Jsx.API_BASE (submitted_form s))
             (NetworkError reason)])
      (timers sys).
Proof.
  intros V Hnet.
  submit_cases s V Hnet; reflexivity.
Qed.

Lemma handleSubmit_tsx_unreachable (s : Ingest.State) sys reason w :
  valid_submission s = true ->
  net (Ingest.ingest_request (Ingest.Tsx.API_BASE api) (submitted_form s)) (env sys)
  = (NetworkError reason, w) ->
  run (Ingest.Tsx.handleSubmit net api s) sys
  = mkSys (failed_submission reason (store sys)) w
      (trace sys
       ++ [Fetch (Ingest.ingest_request (Ingest.Tsx.API_BASE api) (submitted_form s))
             (NetworkError reason);
           ToastError (str "Ingestion failed") (Some reason)])
      (timers sys).
Proof.
  intros V Hnet.
  submit_cases s V Hnet; rewrite <- app_assoc; reflexivity.
Qed.

End SubmissionOutcomes.

(** X1. A synchronous submission that the service accepts with an
    object as body: when the [chunk_count] of the body prints, the
    message reports it, the five inputs are emptied, the form is no
    longer loading and no poll is scheduled, and [ingest-page.tsx] also
    shows the count in a toast. When it does not print (an object with a
    [toString] member of its own, or an array that holds one), the
    conversion throws: the error cell gets the message of the
    [TypeError], the inputs are kept, and [ingest-page.tsx] shows the
    failure in a toast. *)
Theorem X1_synchronous_submission_reports_chunks :
  forall (Env : Type) (net : Request -> Env -> FetchResult * Env)
         (api : option jsstring) (s : Ingest.State)
         (sys : Sys Ingest.State Ingest.task Env)
         (r : Response) (w : Env) (ms : list (jsstring * json)),
    valid_submission s = true -> Ingest.sync s = true ->
    ok r = true -> content r = Parsed (JObj ms) ->
    (net (Ingest.ingest_request Ingest.Jsx.API_BASE (submitted_form s)) (env sys)
     = (Answer r, w) ->
     run (Ingest.Jsx.handleSubmit net s) sys
     = mkSys
         match ToString (lookup_member (str "chunk_count") ms) with
         | Some count => ingested (Ingest.docId s) count (store sys)
         | None => failed_submission not_primitive (store sys)
         end
         w
         (trace sys
          ++ [Fetch (Ingest.ingest_request Ingest.Jsx.API_BASE (submitted_form s))
                (Answer r)])
         (timers sys)) /\
    (net (Ingest.ingest_request (Ingest.Tsx.API_BASE api) (submitted_form s)) (env sys)
     = (Answer r, w) ->
     run (Ingest.Tsx.handleSubmit net api s) sys
     = match ToString (lookup_member (str "chunk_count") ms) with
       | Some count =>
           mkSys (ingested (Ingest.docId s) count (store sys)) w
             (trace sys
              ++ [Fetch (Ingest.ingest_request (Ingest.Tsx.API_BASE api)
                           (submitted_form s)) (Answer r);
                  ToastSuccess (str "Document ingested!")
                    (Some (count ++ str " chunks created"))])
             (timers sys)
       | None =>
           mkSys (failed_submission not_primitive (store sys)) w
             (trace sys
              ++ [Fetch (Ingest.ingest_request (Ingest.Tsx.API_BASE api)
                           (submitted_form s)) (Answer r);
                  ToastError (str "Ingestion failed") (Some not_primitive)])
             (timers sys)
       end).
Proof.
  intros Env net api s sys r w ms V Hs Hok Hc. split; intros Hnet.
  - now apply handleSubmit_jsx_sync.
  - now apply handleSubmit_tsx_sync.
Qed.

Lemma X1_witness :
  let s := Outcome.sync_form in
  let sys := Scenario.start s tt in
  let answer :=
    mkResponse 200 (str "OK")
      (Parsed (JObj [(str "status", JStr (str "started"));
                     (str "chunk_count", number 1)])) in
  (run (Ingest.Jsx.handleSubmit Scenario.accepting s) sys
   = mkSys (ingested (str "docX") (str "1") s) tt
       [Fetch (Ingest.ingest_request Ingest.Jsx.API_BASE (submitted_form s))
          (Answer answer)]
       [] /\
   run (Ingest.Tsx.handleSubmit Scenario.accepting None s) sys
   = mkSys (ingested (str "docX") (str "1") s) tt
       [Fetch (Ingest.ingest_request (Ingest.Tsx.API_BASE None) (submitted_form s))
          (Answer answer);
        ToastSuccess (str "Document ingested!") (Some (str "1 chunks created"))]
       []) /\
  (run (Ingest.Jsx.handleSubmit Outcome.unprintable s) sys
   = mkSys (failed_submission not_primitive s) tt
       [Fetch (Ingest.ingest_request Ingest.Jsx.API_BASE (submitted_form s))
          (Answer Outcome.unprintable_count)]
       [] /\
   run (Ingest.Tsx.handleSubmit Outcome.unprintable None s) sys
   = mkSys (failed_submission not_primitive s) tt
       [Fetch (Ingest.ingest_request (Ingest.Tsx.API_BASE None) (submitted_form s))
          (Answer Outcome.unprintable_count);
        ToastError (str "Ingestion failed") (Some not_primitive)]
       []).
Proof.
  split.
  - destruct (@X1_synchronous_submission_reports_chunks unit Scenario.accepting None
                Outcome.sync_form (Scenario.start Outcome.sync_form tt)
                (mkResponse 200 (str "OK")
                   (Parsed (JObj [(str "status", JStr (str "started"));
                                  (str "chunk_count", number 1)])))
                tt _ eq_refl eq_refl eq_refl eq_refl) as [J T].
    split; [exact (J eq_refl) | exact (T eq_refl)].
  - destruct (@X1_synchronous_submission_reports_chunks unit Outcome.unprintable None
                Outcome.sync_form (Scenario.start Outcome.sync_form tt)
                Outcome.unprintable_count tt _ eq_refl eq_refl eq_refl eq_refl)
      as [J T].
    split; [exact (J eq_refl) | exact (T eq_refl)].
Defined.

(** X2. A submission that the service refuses with an object as body
    shows the [detail] of the body as it prints, [HTTP] and the status
    when the body has no truthy [detail], and the message of the
    [TypeError] when the [detail] cannot be converted to a string (an
    object with a [toString] member of its own, or an array that holds
    one). The inputs stay as they were, the form is no longer loading
    and no poll is scheduled; [ingest-page.tsx] repeats the error in a
    toast. *)
Theorem X2_refused_submission_keeps_the_form :
  forall (Env : Type) (net : Request -> Env -> FetchResult * Env)
         (api : option jsstring) (s : Ingest.State)
         (sys : Sys Ingest.State Ingest.task Env)
         (r : Response) (w : Env) (ms : list (jsstring * json)),
    valid_submission s = true ->
    ok r = false -> content r = Parsed (JObj ms) ->
    (net (Ingest.ingest_request Ingest.Jsx.API_BASE (submitted_form s)) (env sys)
     = (Answer r, w) ->
     let sys' := run (Ingest.Jsx.handleSubmit net s) sys in
     sys'
     = mkSys (failed_submission (rejection_message r ms) (store sys)) w
         (trace sys
          ++ [Fetch (Ingest.ingest_request Ingest.Jsx.API_BASE (submitted_form s))
                (Answer r)])
         (timers sys) /\
     same_inputs (store sys) (store sys')) /\
    (net (Ingest.ingest_request (Ingest.Tsx.API_BASE api) (submitted_form s)) (env sys)
     = (Answer r, w) ->
     let sys' := run (Ingest.Tsx.handleSubmit net api s) sys in
     sys'
     = mkSys (failed_submission (rejection_message r ms) (store sys)) w
         (trace sys
          ++ [Fetch (Ingest.ingest_request (Ingest.Tsx.API_BASE api) (submitted_form s))
                (Answer r);
              ToastError (str "Ingestion failed") (Some (rejection_message r ms))])
         (timers sys) /\
     same_inputs (store sys) (store sys')).
Proof.
  intros Env net api s sys r w ms V Hok Hc. split; intros Hnet; cbv zeta.
  - rewrite (handleSubmit_jsx_rejected net s sys V Hnet Hok Hc).
    split; [reflexivity | repeat split].
  - rewrite (handleSubmit_tsx_rejected net api s sys V Hnet Hok Hc).
    split; [reflexivity | repeat split].
Qed.

Lemma X2_witness :
  let s := Scenario.text_form in
  let sys := Scenario.start s tt in
  Ingest.error (store (run (Ingest.Jsx.handleSubmit Outcome.rejecting s) sys))
  = str "Document already exists" /\
  same_inputs s (store (run (Ingest.Jsx.handleSubmit Outcome.rejecting s) sys)) /\
  timers (run (Ingest.Tsx.handleSubmit Outcome.rejecting None s) sys) = [] /\
  trace (run (Ingest.Tsx.handleSubmit Outcome.rejecting None s) sys)
  = [Fetch (Ingest.ingest_request (Ingest.Tsx.API_BASE None) (submitted_form s))
       (Answer Outcome.conflict);
     ToastError (str "Ingestion failed") (Some (str "Document already exists"))] /\
  Ingest.error
    (store (run (Ingest.Jsx.handleSubmit Outcome.rejecting_unprintable s) sys))
  = not_primitive.
Proof.
  destruct (@X2_refused_submission_keeps_the_form unit Outcome.rejecting None
              Scenario.text_form (Scenario.start Scenario.text_form tt)
              Outcome.conflict tt _ eq_refl eq_refl eq_refl) as [J T].
  destruct (J eq_refl) as [J1 J2]. destruct (T eq_refl) as [T1 T2].
  destruct (@X2_refused_submission_keeps_the_form unit Outcome.rejecting_unprintable
              None Scenario.text_form (Scenario.start Scenario.text_form tt)
              Outcome.unprintable_detail tt _ eq_refl eq_refl eq_refl) as [U _].
  destruct (U eq_refl) as [U1 _].
  cbv zeta. rewrite J1, T1, U1. repeat split.
Defined.

(** X3. A submission that gets no answer from the service shows the
    reason of the failure as the error, keeps the inputs, is no longer
    loading and schedules no poll. *)
Theorem X3_unanswered_submission_shows_the_reason :
  forall (Env : Type) (net : Request -> Env -> FetchResult * Env)
         (api : option jsstring) (s : Ingest.State)
         (sys : Sys Ingest.State Ingest.task Env)
         (reason : jsstring) (w : Env),
    valid_submission s = true ->
    (net (Ingest.ingest_request Ingest.Jsx.API_BASE (submitted_form s)) (env sys)
     = (NetworkError reason, w) ->
     let sys' := run (Ingest.Jsx.handleSubmit net s) sys in
     sys'
     = mkSys (failed_submission reason (store sys)) w
         (trace sys
          ++ [Fetch (Ingest.ingest_request Ingest.Jsx.API_BASE (submitted_form s))
                (NetworkError reason)])
         (timers sys) /\
     same_inputs (store sys) (store sys')) /\
    (net (Ingest.ingest_request (Ingest.Tsx.API_BASE api) (submitted_form s)) (env sys)
     = (NetworkError reason, w) ->
     let sys' := run (Ingest.Tsx.handleSubmit net api s) sys in
     sys'
     = mkSys (failed_submission reason (store sys)) w
         (trace sys
          ++ [Fetch (Ingest.ingest_request (Ingest.Tsx.API_BASE api) (submitted_form s))
                (NetworkError reason);
              ToastError (str "Ingestion failed") (Some reason)])
         (timers sys) /\
     same_inputs (store sys) (store sys')).
Proof.
  intros Env net api s sys reason w V. split; intros Hnet; cbv zeta.
  - rewrite (handleSubmit_jsx_unreachable net s sys V Hnet).
    split; [reflexivity | repeat split].
  - rewrite (handleSubmit_tsx_unreachable net api s sys V Hnet).
    split; [reflexivity | repeat split].
Qed.

Lemma X3_witness :
  let s := Scenario.text_form in
  let sys := Scenario.start s tt in
  Ingest.error (store (run (Ingest.Jsx.handleSubmit Outcome.offline s) sys))
  = str "Failed to fetch" /\
  Ingest.loading (store (run (Ingest.Jsx.handleSubmit Outcome.offline s) sys)) = false /\
  same_inputs s (store (run (Ingest.Tsx.handleSubmit Outcome.offline None s) sys)) /\
  timers (run (Ingest.Tsx.handleSubmit Outcome.offline None s) sys) = [].
Proof.
  destruct (@X3_unanswered_submission_shows_the_reason unit Outcome.offline None
              Scenario.text_form (Scenario.start Scenario.text_form tt)
              (str "Failed to fetch") tt eq_refl) as [J T].
  destruct (J eq_refl) as [J1 J2]. destruct (T eq_refl) as [T1 T2].
  cbv zeta. rewrite J1, T1. repeat split.
Defined.

(** ** The budget of the polling, with the handlers interleaved *)

Lemma polls_sent_app (a b : list event) :
  polls_sent (a ++ b) = (polls_sent a + polls_sent b)%nat.
Proof.
  unfold polls_sent. now rewrite requests_app, filter_app, length_app.
Qed.

Lemma polls_left_app (a b : list (N * Ingest.task)) :
  polls_left (a ++ b) = (polls_left a + polls_left b)%nat.
Proof.
  induction a as [|[d t] a IH]; simpl; [reflexivity|]. rewrite IH. lia.
Qed.

Lemma nth_error_remove {A : Type} (l : list A) (n : nat) (x : A) :
  nth_error l n = Some x -> l = firstn n l ++ x :: skipn (S n) l.
Proof.
  revert l. induction n as [|n IH]; intros [|y l] H; try discriminate.
  - injection H as ->. reflexivity.
  - simpl. f_equal. now apply IH.
Qed.

Ltac unfold_steps :=
  unfold Interleaved.Jsx.handleSubmit, Interleaved.Tsx.handleSubmit,
    Interleaved.Jsx.handleFileChange, Interleaved.Tsx.handleFileChange,
    Interleaved.Jsx.run_task, Interleaved.Tsx.run_task,
    Interleaved.Jsx.poll, Interleaved.Tsx.poll,
    Interleaved.Jsx.pollForCompletion, Interleaved.Tsx.pollForCompletion,
    Interleaved.Tsx.clearForm, Interleaved.validated_metadata,
    Interleaved.setDocId, Interleaved.setTitle, Interleaved.setText,
    Interleaved.setFile, Interleaved.setMetadata, Interleaved.setSync,
    Interleaved.setLoading, Interleaved.setMessage, Interleaved.setError,
    Interleaved.await, Interleaved.when, Interleaved.modify, Interleaved.emit,
    Interleaved.setTimeout, Interleaved.fetch, Interleaved.response_json,
    Interleaved.get_prop, Interleaved.to_string, Interleaved.ret,
    Interleaved.throw, Interleaved.return_ in *.

Lemma is_get_ingest (base : jsstring) (fd : FormData) :
  is_get (Ingest.ingest_request base fd) = false.
Proof. reflexivity. Qed.

Lemma is_get_doc (base doc : jsstring) :
  is_get (Ingest.doc_request base doc) = true.
Proof. reflexivity. Qed.

Ltac fund :=
  repeat first
    [ apply Interleaved.funded_done
    | apply Interleaved.funded_write
    | apply Interleaved.funded_log; [reflexivity|]
    | apply Interleaved.funded_pause
    | apply Interleaved.funded_schedule;
      [ unfold within_attempts, Ingest.maxAttempts in *; cbn; lia
      | unfold attempts_left, Ingest.maxAttempts in *; lia
      | ]
    | apply Interleaved.funded_await;
      [ rewrite ?is_get_ingest, ?is_get_doc;
        unfold Ingest.maxAttempts in *; try discriminate; intros; lia
      | rewrite ?is_get_ingest, ?is_get_doc; intros [reason|r] ]
    | progress cbn [Interleaved.bind Interleaved.try_catch Interleaved.try_finally
                    Interleaved.finally_ Interleaved.call]
    | branch ].

Lemma funded_submit_jsx (s : Ingest.State) :
  Interleaved.funded (Interleaved.Jsx.handleSubmit s) 0.
Proof. unfold_steps. fund. Qed.

Lemma funded_submit_tsx (api : option jsstring) (s : Ingest.State) :
  Interleaved.funded (Interleaved.Tsx.handleSubmit api s) 0.
Proof. unfold_steps. fund. Qed.

Lemma funded_poll_jsx (d : N) (t : Ingest.task) :
  within_attempts (d, t) ->
  Interleaved.funded (Interleaved.Jsx.run_task t) (attempts_left t).
Proof.
  destruct t as [doc a]. unfold within_attempts, attempts_left. cbn [snd].
  intros Ha. unfold_steps. cbv zeta.
  destruct (Nat.leb_spec Ingest.maxAttempts (S a)) as [Hge|Hlt];
    rewrite ?orb_true_r; fund.
Qed.

Lemma funded_poll_tsx (api : option jsstring) (d : N) (t : Ingest.task) :
  within_attempts (d, t) ->
  Interleaved.funded (Interleaved.Tsx.run_task api t) (attempts_left t).
Proof.
  destruct t as [doc a]. unfold within_attempts, attempts_left. cbn [snd].
  intros Ha. unfold_steps. cbv zeta.
  destruct (Nat.ltb_spec (S a) Ingest.maxAttempts) as [Hlt|Hge]; fund.
Qed.

Lemma funded_callback handleSubmit handleFileChange (e : Ingest.ui_event)
      (s : Ingest.State) :
  (forall s, Interleaved.funded (handleSubmit s) 0) ->
  (forall files0, Interleaved.funded (handleFileChange files0) 0) ->
  Interleaved.funded (Interleaved.callback handleSubmit handleFileChange e s) 0.
Proof.
  intros Hs Hf. destruct e; cbn; try apply Hs; try apply Hf; unfold_steps; fund.
Qed.

Lemma funded_file_change_jsx (files0 : option File) :
  Interleaved.funded (Interleaved.Jsx.handleFileChange files0) 0.
Proof. destruct files0; unfold_steps; fund. Qed.

Lemma funded_file_change_tsx (files0 : option File) :
  Interleaved.funded (Interleaved.Tsx.handleFileChange files0) 0.
Proof. destruct files0; unfold_steps; fund. Qed.

(** ** What a handler does between two awaits *)

Lemma submissions_sent_app (a b : list event) :
  submissions_sent (a ++ b) = (submissions_sent a + submissions_sent b)%nat.
Proof.
  unfold submissions_sent. now rewrite requests_app, filter_app, length_app.
Qed.

Lemma polls_sent_log (tr : list event) (e : event) :
  requests [e] = [] -> polls_sent (tr ++ [e]) = polls_sent tr.
Proof.
  intros H. unfold polls_sent. rewrite requests_app, H, app_nil_r. reflexivity.
Qed.

Lemma submissions_sent_log (tr : list event) (e : event) :
  requests [e] = [] -> submissions_sent (tr ++ [e]) = submissions_sent tr.
Proof.
  intros H. unfold submissions_sent. rewrite requests_app, H, app_nil_r. reflexivity.
Qed.

Lemma polls_sent_fetch (tr : list event) (req : Request) (res : FetchResult) :
  polls_sent (tr ++ [Fetch req res])
  = (polls_sent tr + if is_get req then 1 else 0)%nat.
Proof.
  rewrite polls_sent_app. unfold polls_sent at 2. cbn.
  now destruct (is_get req).
Qed.

Lemma submissions_sent_fetch (tr : list event) (req : Request) (res : FetchResult) :
  submissions_sent (tr ++ [Fetch req res])
  = (submissions_sent tr + if is_get req then 0 else 1)%nat.
Proof.
  rewrite submissions_sent_app. unfold submissions_sent at 2. cbn.
  now destruct (is_get req).
Qed.

Section Advance.

Variable Env : Type.
Variable net : Request -> Env -> FetchResult * Env.

(** The balance of a page with a handler that runs on it: the polls
    made and still possible, against ten for each submission. *)
Lemma advance_funded {R A : Type} (p : Interleaved.IP R A) (b : nat) :
  Interleaved.funded p b ->
  forall sys : Sys Ingest.State Ingest.task Env,
    Forall within_attempts (timers sys) ->
    let out := Interleaved.advance net p sys in
    Forall within_attempts (timers (fst out)) /\
    exists b',
      match snd out with
      | Some k => Interleaved.funded k b'
      | None => True
      end /\
      (polls_sent (trace (fst out)) + polls_left (timers (fst out)) + b'
       + Ingest.maxAttempts * submissions_sent (trace sys)
       <= polls_sent (trace sys) + polls_left (timers sys) + b
          + Ingest.maxAttempts * submissions_sent (trace (fst out)))%nat.
Proof.
  induction 1 as [c b|f k b H IH|e k b He H IH|k b H IH|ms t k b Hw Hle H IH
                  |req k b Hget H IH];
    intros sys Hall; cbn [Interleaved.advance]; cbv zeta.
  - split; [exact Hall|]. exists 0%nat. split; [exact I|]. cbn. lia.
  - destruct (IH (mkSys (f (store sys)) (env sys) (trace sys) (timers sys)) Hall)
      as [H1 [b' [H2 H3]]].
    split; [exact H1|]. exists b'. split; [exact H2|exact H3].
  - destruct (IH (mkSys (store sys) (env sys) (trace sys ++ [e]) (timers sys)) Hall)
      as [H1 [b' [H2 H3]]].
    split; [exact H1|]. exists b'. split; [exact H2|].
    cbn [trace timers] in H3.
    rewrite (@polls_sent_log _ _ He), (@submissions_sent_log _ _ He) in H3. exact H3.
  - split; [exact Hall|]. exists b. split; [exact H|]. cbn. lia.
  - assert (Hall' : Forall within_attempts (timers sys ++ [(ms, t)])).
    { apply Forall_app. split; [exact Hall|]. constructor; [exact Hw|constructor]. }
    destruct (IH (mkSys (store sys) (env sys) (trace sys ++ [SetTimeout ms])
                    (timers sys ++ [(ms, t)])) Hall')
      as [H1 [b' [H2 H3]]].
    split; [exact H1|]. exists b'. split; [exact H2|].
    cbn [trace timers] in H3.
    rewrite polls_sent_log, submissions_sent_log, polls_left_app in H3
      by reflexivity.
    cbn [polls_left] in H3. lia.
  - destruct (net req (env sys)) as [res w]. cbn [fst snd trace timers].
    split; [exact Hall|].
    exists (if is_get req then b - 1 else b + Ingest.maxAttempts)%nat.
    split; [apply H|].
    rewrite polls_sent_fetch, submissions_sent_fetch.
    destruct (is_get req); [specialize (Hget eq_refl)|]; lia.
Qed.

End Advance.

Section InterleavedBudget.

Variable Env : Type.
Variable net : Request -> Env -> FetchResult * Env.
Variable handleSubmit : Ingest.State -> Interleaved.IP unit unit.
Variable handleFileChange : option File -> Interleaved.IP unit unit.
Variable run_task : Ingest.task -> Interleaved.IP unit unit.

Hypothesis submit_funded : forall s, Interleaved.funded (handleSubmit s) 0.
Hypothesis file_change_funded :
  forall files0, Interleaved.funded (handleFileChange files0) 0.
Hypothesis task_funded :
  forall d t, within_attempts (d, t) ->
              Interleaved.funded (run_task t) (attempts_left t).

Lemma proceed_budget (p : Interleaved.IP unit unit) (b : nat)
      (sys : Sys Ingest.State Ingest.task Env)
      (others : list (Interleaved.IP unit unit)) (funds : list nat) :
  Interleaved.funded p b ->
  Forall within_attempts (timers sys) ->
  Forall2 Interleaved.funded others funds ->
  (polls_sent (trace sys) + polls_left (timers sys) + (b + list_sum funds)
   <= Ingest.maxAttempts * submissions_sent (trace sys))%nat ->
  Interleaved.poll_budget (Interleaved.proceed net p sys others).
Proof.
  intros Hp Hall Hothers Hle. unfold Interleaved.proceed.
  destruct (advance_funded net Hp sys Hall) as [H1 [b' [H2 H3]]].
  destruct (Interleaved.advance net p sys) as [sys' rest]. cbn [fst snd] in *.
  split; [exact H1|]. cbn [Interleaved.page Interleaved.suspended].
  destruct rest as [k|].
  - exists (funds ++ [b']). split.
    + apply Forall2_app; [exact Hothers|]. constructor; [exact H2|constructor].
    + rewrite list_sum_app. cbn [list_sum fold_right]. unfold Ingest.maxAttempts in *. lia.
  - exists funds. split; [now rewrite app_nil_r|].
    unfold Ingest.maxAttempts in *. lia.
Qed.

Lemma step_budget (ev : Interleaved.step_event) pg :
  Interleaved.poll_budget pg ->
  Interleaved.poll_budget
    (Interleaved.step net handleSubmit handleFileChange run_task ev pg).
Proof.
  intros [Hall [funds [Hf Hle]]].
  assert (Hcallback : forall e,
             Interleaved.poll_budget
               (if Ingest.enabled e (Interleaved.page pg)
                then Interleaved.proceed net
                       (Interleaved.callback handleSubmit handleFileChange e
                          (store (Interleaved.page pg)))
                       (Interleaved.page pg) (Interleaved.suspended pg)
                else pg)).
  { intros e. destruct (Ingest.enabled e (Interleaved.page pg)).
    - apply (@proceed_budget _ 0%nat _ _ funds); trivial.
      apply funded_callback; assumption.
    - split; [exact Hall|]. exists funds. split; assumption. }
  destruct ev as [e|which]; cbn [Interleaved.step].
  - destruct e as [v|v|v|files0|v|c| |which]; try apply Hcallback.
    (* a timer fires *)
    destruct (nth_error (timers (Interleaved.page pg)) which) as [[d t]|] eqn:Hn;
      [|split; [exact Hall|]; exists funds; split; assumption].
    pose proof (@nth_error_remove _ _ _ _ Hn) as Hsplit.
    set (rest := firstn which (timers (Interleaved.page pg))
                 ++ skipn (S which) (timers (Interleaved.page pg))) in *.
    assert (Ht : within_attempts (d, t)).
    { rewrite Hsplit in Hall. apply Forall_app in Hall as [_ Hall].
      now inversion Hall. }
    assert (Hrest : Forall within_attempts rest).
    { rewrite Hsplit in Hall. apply Forall_app in Hall as [H1 H2].
      inversion H2; subst. apply Forall_app. split; assumption. }
    assert (Hleft : (polls_left (timers (Interleaved.page pg))
                     = polls_left rest + attempts_left t)%nat).
    { rewrite Hsplit at 1. unfold rest.
      rewrite !polls_left_app. cbn [polls_left]. lia. }
    apply (@proceed_budget _ (attempts_left t) _ _ funds); trivial.
    + exact (@task_funded d t Ht).
    + cbn [trace timers]. unfold Ingest.maxAttempts in *. lia.
  - (* a suspended handler resumes *)
    destruct (nth_error (Interleaved.suspended pg) which) as [k|] eqn:Hn;
      [|split; [exact Hall|]; exists funds; split; assumption].
    pose proof (@nth_error_remove _ _ _ _ Hn) as Hsplit.
    rewrite Hsplit in Hf.
    apply Forall2_app_inv_l in Hf as [f1 [f2' [H1 [H2 ->]]]].
    inversion H2 as [|k' c ks f2 Hk H2' E1 E2]; subst.
    rewrite list_sum_app in Hle.
    change (list_sum (c :: f2)) with (c + list_sum f2)%nat in Hle.
    apply (@proceed_budget _ c _ _ (f1 ++ f2)); trivial.
    + apply Forall2_app; assumption.
    + rewrite list_sum_app. unfold Ingest.maxAttempts in *. lia.
Qed.

Lemma reachable_budget_interleaved pg :
  Interleaved.reachable net handleSubmit handleFileChange run_task pg ->
  Interleaved.poll_budget pg.
Proof.
  induction 1 as [w|ev pg Hreach IH].
  - split; [constructor|]. exists []. split; [constructor|]. cbn. lia.
  - now apply step_budget.
Qed.

End InterleavedBudget.

(** ** The interleaved handlers, run without interruption *)

Section Uninterrupted.

Variable Env : Type.
Variable net : Request -> Env -> FetchResult * Env.
Variable api : option jsstring.

Ltac same_handler :=
  unfold_steps; unfold_ingest; unfold_js;
  repeat (cbn; try branch); reflexivity.

Lemma exec_submit_jsx (s : Ingest.State) sys :
  Interleaved.exec net (Interleaved.Jsx.handleSubmit s) sys
  = Ingest.Jsx.handleSubmit net s sys.
Proof. same_handler. Qed.

Lemma exec_submit_tsx (s : Ingest.State) sys :
  Interleaved.exec net (Interleaved.Tsx.handleSubmit api s) sys
  = Ingest.Tsx.handleSubmit net api s sys.
Proof. same_handler. Qed.

Lemma exec_task_jsx (t : Ingest.task) sys :
  Interleaved.exec net (Interleaved.Jsx.run_task t) sys
  = Ingest.Jsx.run_task net t sys.
Proof. destruct t as [doc a]. same_handler. Qed.

Lemma exec_task_tsx (t : Ingest.task) sys :
  Interleaved.exec net (Interleaved.Tsx.run_task api t) sys
  = Ingest.Tsx.run_task net api t sys.
Proof. destruct t as [doc a]. same_handler. Qed.

Lemma exec_file_change_jsx (files0 : option File) sys :
  Interleaved.exec net (Interleaved.Jsx.handleFileChange files0) sys
  = Ingest.Jsx.handleFileChange files0 sys.
Proof. destruct files0; same_handler. Qed.

Lemma exec_file_change_tsx (files0 : option File) sys :
  Interleaved.exec net (Interleaved.Tsx.handleFileChange files0) sys
  = Ingest.Tsx.handleFileChange files0 sys.
Proof. destruct files0; same_handler. Qed.

End Uninterrupted.

(** X4. With the handlers of the ingest form interleaved: a handler is
    suspended at each of its awaits, with what it wrote so far in the
    page (the form is loading while a submission waits for its answer),
    and the user's input, the timer callbacks and the other suspended
    handlers run in between, in any order. In every state the page
    reaches that way, every scheduled poll has made fewer than ten
    attempts, and the requests for a document that were sent, together
    with those the scheduled polls can still make, are at most ten for
    each submission sent. Run without interruption, the interleaved
    handlers are the handlers of the form. Both versions of the page. *)
Theorem X4_polls_stay_within_budget :
  forall (Env : Type) (net : Request -> Env -> FetchResult * Env)
         (api : option jsstring),
    (forall pg,
       Interleaved.reachable net Interleaved.Jsx.handleSubmit
         Interleaved.Jsx.handleFileChange Interleaved.Jsx.run_task pg ->
       Forall within_attempts (timers (Interleaved.page pg)) /\
       (polls_sent (trace (Interleaved.page pg))
        + polls_left (timers (Interleaved.page pg))
        <= Ingest.maxAttempts * submissions_sent (trace (Interleaved.page pg)))%nat) /\
    (forall pg,
       Interleaved.reachable net (Interleaved.Tsx.handleSubmit api)
         Interleaved.Tsx.handleFileChange (Interleaved.Tsx.run_task api) pg ->
       Forall within_attempts (timers (Interleaved.page pg)) /\
       (polls_sent (trace (Interleaved.page pg))
        + polls_left (timers (Interleaved.page pg))
        <= Ingest.maxAttempts * submissions_sent (trace (Interleaved.page pg)))%nat) /\
    (forall s t files0 (sys : Sys Ingest.State Ingest.task Env),
       Interleaved.exec net (Interleaved.Jsx.handleSubmit s) sys
       = Ingest.Jsx.handleSubmit net s sys /\
       Interleaved.exec net (Interleaved.Jsx.run_task t) sys
       = Ingest.Jsx.run_task net t sys /\
       Interleaved.exec net (Interleaved.Jsx.handleFileChange files0) sys
       = Ingest.Jsx.handleFileChange files0 sys /\
       Interleaved.exec net (Interleaved.Tsx.handleSubmit api s) sys
       = Ingest.Tsx.handleSubmit net api s sys /\
       Interleaved.exec net (Interleaved.Tsx.run_task api t) sys
       = Ingest.Tsx.run_task net api t sys /\
       Interleaved.exec net (Interleaved.Tsx.handleFileChange files0) sys
       = Ingest.Tsx.handleFileChange files0 sys).
Proof.
  intros Env net api. split; [|split].
  - intros pg Hreach.
    destruct (@reachable_budget_interleaved Env net _ _ _
                funded_submit_jsx funded_file_change_jsx funded_poll_jsx pg Hreach)
      as [Hall [funds [_ Hle]]].
    split; [exact Hall|]. lia.
  - intros pg Hreach.
    destruct (@reachable_budget_interleaved Env net _ _ _
                (funded_submit_tsx api) funded_file_change_tsx (funded_poll_tsx api)
                pg Hreach)
      as [Hall [funds [_ Hle]]].
    split; [exact Hall|]. lia.
  - intros s t files0 sys.
    repeat split.
    + apply exec_submit_jsx.
    + apply exec_task_jsx.
    + apply exec_file_change_jsx.
    + apply exec_submit_tsx.
    + apply exec_task_tsx.
    + apply exec_file_change_tsx.
Qed.

Lemma X4_witness :
  let step :=
    Interleaved.step Scenario.slow_ingestion Interleaved.Jsx.handleSubmit
      Interleaved.Jsx.handleFileChange Interleaved.Jsx.run_task in
  let submitted :=
    step (Interleaved.Ui Ingest.SubmitForm)
      (step (Interleaved.Ui (Ingest.TypeText (str "The quick brown fox")))
         (step (Interleaved.Ui (Ingest.TypeDocId (str "docX")))
            (Interleaved.mkPage (mkSys Ingest.initial 0%nat [] []) []))) in
  let polling :=
    step (Interleaved.Ui (Ingest.TimerFires 0))
      (step (Interleaved.Resumes 0) (step (Interleaved.Resumes 0) submitted)) in
  (Ingest.loading (store (Interleaved.page submitted)) = true /\
   List.length (Interleaved.suspended submitted) = 1%nat) /\
  (polls_sent (trace (Interleaved.page polling)) = 1%nat /\
   List.length (Interleaved.suspended polling) = 1%nat) /\
  Forall within_attempts (timers (Interleaved.page polling)) /\
  (polls_sent (trace (Interleaved.page polling))
   + polls_left (timers (Interleaved.page polling))
   <= Ingest.maxAttempts * submissions_sent (trace (Interleaved.page polling)))%nat.
Proof.
  cbv zeta. split; [split; reflexivity|]. split; [split; reflexivity|].
  apply (proj1 (@X4_polls_stay_within_budget nat Scenario.slow_ingestion None)).
  repeat apply Interleaved.reach_step. apply Interleaved.reach_mount.
Defined.

(** ** Searches that fail *)

Section SearchFailures.

Variable Env : Type.
Variable net : Request -> Env -> FetchResult * Env.
Variable api : option jsstring.

Ltac unfold_search :=
  unfold Search.Jsx.handleSearch, Search.Jsx.loadConfig, jsx_search,
    Search.Jsx.setLoading, Search.Jsx.setError, Search.Jsx.setResults,
    Search.Jsx.setSearchTime, Search.Jsx.setTopK, Search.Jsx.setRerank,
    Search.Reload.handleSearch, Search.Reload.loadConfig, reload_search,
    Search.Reload.setLoading, Search.Reload.setHasSearched, Search.Reload.setTopK,
    Search.Reload.setRerank, Search.Reload.setResults, Search.Reload.setSearchTime,
    Search.Paged.handleSearch, Search.Paged.performSearch, paged_search,
    Search.Paged.setLoading, Search.Paged.setHasSearched, Search.Paged.setResults,
    Search.Paged.setSearchTime, Search.Paged.setTotalCount,
    Search.Paged.setCurrentPage in *.

Lemma jsx_search_rejected (s : Search.Jsx.State) sys r w :
  blank (Search.Jsx.query s) = false ->
  net (jsx_search s) (env sys) = (Answer r, w) -> ok r = false ->
  run (Search.Jsx.handleSearch net s) sys
  = mkSys
      (Search.Jsx.with_loading false
         (Search.Jsx.with_error (search_failed r)
            (Search.Jsx.with_results (Some (JArr []))
               (Search.Jsx.with_error []
                  (Search.Jsx.with_loading true (store sys))))))
      w (trace sys ++ [Fetch (jsx_search s) (Answer r)]) (timers sys).
Proof.
  intros B Hnet Hok. unfold_search. unfold_js.
  rewrite (truthy_trim_filled _ B). cbn.
  rewrite Hnet. cbn. rewrite Hok. reflexivity.
Qed.

Lemma jsx_search_unreachable (s : Search.Jsx.State) sys reason w :
  blank (Search.Jsx.query s) = false ->
  net (jsx_search s) (env sys) = (NetworkError reason, w) ->
  run (Search.Jsx.handleSearch net s) sys
  = mkSys
      (Search.Jsx.with_loading false
         (Search.Jsx.with_error reason
            (Search.Jsx.with_results (Some (JArr []))
               (Search.Jsx.with_error []
                  (Search.Jsx.with_loading true (store sys))))))
      w (trace sys ++ [Fetch (jsx_search s) (NetworkError reason)]) (timers sys).
Proof.
  intros B Hnet. unfold_search. unfold_js.
  rewrite (truthy_trim_filled _ B). cbn.
  rewrite Hnet. reflexivity.
Qed.

Lemma paged_search_rejected (s : Search.Paged.State) sys r w :
  blank (Search.Paged.query s) = false ->
  net (paged_search api s 1) (env sys) = (Answer r, w) -> ok r = false ->
  run (Search.Paged.handleSearch net api s) sys
  = mkSys
      (Search.Paged.with_loading false
         (Search.Paged.with_currentPage 1%Z
            (Search.Paged.with_hasSearched true
               (Search.Paged.with_results (Some (JArr []))
                  (Search.Paged.with_loading true (store sys))))))
      w
      (trace sys
       ++ [Fetch (paged_search api s 1) (Answer r);
           ToastError (str "Search failed") (Some (search_failed r))])
      (timers sys).
Proof.
  intros B Hnet Hok. unfold_search. unfold_js.
  rewrite (truthy_trim_filled _ B). cbn. cbn in Hnet.
  rewrite Hnet. cbn. rewrite Hok. cbn. rewrite <- app_assoc. reflexivity.
Qed.

Lemma paged_search_unreachable (s : Search.Paged.State) sys reason w :
  blank (Search.Paged.query s) = false ->
  net (paged_search api s 1) (env sys) = (NetworkError reason, w) ->
  run (Search.Paged.handleSearch net api s) sys
  = mkSys
      (Search.Paged.with_loading false
         (Search.Paged.with_currentPage 1%Z
            (Search.Paged.with_hasSearched true
               (Search.Paged.with_results (Some (JArr []))
                  (Search.Paged.with_loading true (store sys))))))
      w
      (trace sys
       ++ [Fetch (paged_search api s 1) (NetworkError reason);
           ToastError (str "Search failed") (Some reason)])
      (timers sys).
Proof.
  intros B Hnet. unfold_search. unfold_js.
  rewrite (truthy_trim_filled _ B). cbn. cbn in Hnet.
  rewrite Hnet. cbn. rewrite <- app_assoc. reflexivity.
Qed.

(** In the page that reloads the configuration, the search follows the
    configuration request: the cells of the store other than [topK] and
    [rerank] end the same way, whatever that request gave. *)
Lemma reload_search_rejected (s : Search.Reload.State) sys r w :
  blank (Search.Reload.query s) = false ->
  net (reload_search api s)
      (snd (net (Search.config_request (Search.Reload.API_BASE api)) (env sys)))
  = (Answer r, w) ->
  ok r = false ->
  let sys' := run (Search.Reload.handleSearch net api s) sys in
  Search.Reload.results (store sys') = Some (JArr []) /\
  Search.Reload.loading (store sys') = false /\
  Search.Reload.hasSearched (store sys') = true /\
  Search.Reload.searchTime (store sys') = Search.Reload.searchTime (store sys) /\
  env sys' = w /\
  exists log,
    requests log = [Search.config_request (Search.Reload.API_BASE api)] /\
    trace sys' = trace sys ++ log
                 ++ [Fetch (reload_search api s) (Answer r);
                     ToastError (str "Search failed") (Some (search_failed r))].
Proof.
  intros B Hnet Hok. unfold_search. unfold_js.
  rewrite (truthy_trim_filled _ B). cbn.
  destruct (net (Search.config_request (Search.Reload.API_BASE api)) (env sys))
    as [res0 w0] eqn:E0.
  cbn in Hnet.
  repeat (cbn; rewrite ?Hnet; cbn; rewrite ?Hok; cbn; try branch);
    repeat split;
    rewrite <- ?app_assoc; cbn;
    match goal with
    | |- exists log, _ /\ ?t ++ ?l = ?t ++ log ++ _ =>
        first [ exists (firstn 1 l); split; reflexivity
              | exists (firstn 2 l); split; reflexivity ]
    end.
Qed.

Lemma reload_search_unreachable (s : Search.Reload.State) sys reason w :
  blank (Search.Reload.query s) = false ->
  net (reload_search api s)
      (snd (net (Search.config_request (Search.Reload.API_BASE api)) (env sys)))
  = (NetworkError reason, w) ->
  let sys' := run (Search.Reload.handleSearch net api s) sys in
  Search.Reload.results (store sys') = Some (JArr []) /\
  Search.Reload.loading (store sys') = false /\
  Search.Reload.hasSearched (store sys') = true /\
  Search.Reload.searchTime (store sys') = Search.Reload.searchTime (store sys) /\
  env sys' = w /\
  exists log,
    requests log = [Search.config_request (Search.Reload.API_BASE api)] /\
    trace sys' = trace sys ++ log
                 ++ [Fetch (reload_search api s) (NetworkError reason);
                     ToastError (str "Search failed") (Some reason)].
Proof.
  intros B Hnet. unfold_search. unfold_js.
  rewrite (truthy_trim_filled _ B). cbn.
  destruct (net (Search.config_request (Search.Reload.API_BASE api)) (env sys))
    as [res0 w0] eqn:E0.
  cbn in Hnet.
  repeat (cbn; rewrite ?Hnet; cbn; try branch);
    repeat split;
    rewrite <- ?app_assoc; cbn;
    match goal with
    | |- exists log, _ /\ ?t ++ ?l = ?t ++ log ++ _ =>
        first [ exists (firstn 1 l); split; reflexivity
              | exists (firstn 2 l); split; reflexivity ]
    end.
Qed.

End SearchFailures.

(** X5. In [SearchPage.jsx] a search that is not answered with a
    success (no answer, or a status outside 200-299) ends with the
    results emptied, loading off and the error cell holding the reason,
    respectively [Search failed:] and the status text; one request is
    recorded and nothing else. *)
Theorem X5_failed_search_sets_the_error :
  forall (Env : Type) (net : Request -> Env -> FetchResult * Env)
         (s : Search.Jsx.State) (sys : Sys Search.Jsx.State Empty_set Env)
         (res : FetchResult) (w : Env) (e : jsstring),
    blank (Search.Jsx.query s) = false ->
    net (jsx_search s) (env sys) = (res, w) ->
    refused res = Some e ->
    run (Search.Jsx.handleSearch net s) sys
    = mkSys
        (Search.Jsx.with_loading false
           (Search.Jsx.with_error e
              (Search.Jsx.with_results (Some (JArr []))
                 (Search.Jsx.with_error []
                    (Search.Jsx.with_loading true (store sys))))))
        w (trace sys ++ [Fetch (jsx_search s) res]) (timers sys).
Proof.
  intros Env net s sys [reason|r] w e B Hnet R; cbn in R.
  - injection R as <-. now apply jsx_search_unreachable.
  - destruct (ok r) eqn:Hok; [discriminate|]. injection R as <-.
    now apply jsx_search_rejected.
Qed.

Lemma X5_witness :
  let s := Scenario.fox_query_jsx in
  let sys := run (Search.Jsx.handleSearch Outcome.rejecting s) (Scenario.start s tt) in
  Search.Jsx.error (store sys) = str "Search failed: Conflict" /\
  Search.Jsx.results (store sys) = Some (JArr []) /\
  Search.Jsx.loading (store sys) = false /\
  trace sys = [Fetch (jsx_search s) (Answer Outcome.conflict)].
Proof.
  cbv zeta.
  rewrite (@X5_failed_search_sets_the_error unit Outcome.rejecting
             Scenario.fox_query_jsx (Scenario.start Scenario.fox_query_jsx tt)
             (Answer Outcome.conflict) tt (str "Search failed: Conflict")
             eq_refl eq_refl eq_refl).
  repeat split.
Defined.

(** X6. In [search-page.tsx] a first-page search that is not answered
    with a success ends with the results emptied, loading off, the page
    back at 1 and the total count as it was; the reason is shown in a
    toast titled [Search failed]. *)
Theorem X6_failed_paged_search_is_toasted :
  forall (Env : Type) (net : Request -> Env -> FetchResult * Env)
         (api : option jsstring)
         (s : Search.Paged.State) (sys : Sys Search.Paged.State Empty_set Env)
         (res : FetchResult) (w : Env) (e : jsstring),
    blank (Search.Paged.query s) = false ->
    net (paged_search api s 1) (env sys) = (res, w) ->
    refused res = Some e ->
    run (Search.Paged.handleSearch net api s) sys
    = mkSys
        (Search.Paged.with_loading false
           (Search.Paged.with_currentPage 1%Z
              (Search.Paged.with_hasSearched true
                 (Search.Paged.with_results (Some (JArr []))
                    (Search.Paged.with_loading true (store sys))))))
        w
        (trace sys
         ++ [Fetch (paged_search api s 1) res;
             ToastError (str "Search failed") (Some e)])
        (timers sys).
Proof.
  intros Env net api s sys [reason|r] w e B Hnet R; cbn in R.
  - injection R as <-. now apply paged_search_unreachable.
  - destruct (ok r) eqn:Hok; [discriminate|]. injection R as <-.
    now apply paged_search_rejected.
Qed.

Lemma X6_witness :
  let s := Outcome.fox_query_paged in
  let sys :=
    run (Search.Paged.handleSearch Outcome.offline None s) (Scenario.start s tt) in
  Search.Paged.results (store sys) = Some (JArr []) /\
  Search.Paged.loading (store sys) = false /\
  Search.Paged.totalCount (store sys) = Some (number 0) /\
  trace sys
  = [Fetch (paged_search None s 1) (NetworkError (str "Failed to fetch"));
     ToastError (str "Search failed") (Some (str "Failed to fetch"))].
Proof.
  cbv zeta.
  rewrite (@X6_failed_paged_search_is_toasted unit Outcome.offline None
             Outcome.fox_query_paged (Scenario.start Outcome.fox_query_paged tt)
             (NetworkError (str "Failed to fetch")) tt (str "Failed to fetch")
             eq_refl eq_refl eq_refl).
  repeat split.
Defined.

(** X7. In the search page that reloads the configuration first, a
    search that is not answered with a success ends the same way
    whatever the configuration request gave: results emptied, loading
    off, the search time as it was, and the reason in a toast after the
    one configuration request and the search request. *)
Theorem X7_failed_search_after_reload_is_toasted :
  forall (Env : Type) (net : Request -> Env -> FetchResult * Env)
         (api : option jsstring)
         (s : Search.Reload.State) (sys : Sys Search.Reload.State Empty_set Env)
         (res : FetchResult) (w : Env) (e : jsstring),
    blank (Search.Reload.query s) = false ->
    net (reload_search api s)
        (snd (net (Search.config_request (Search.Reload.API_BASE api)) (env sys)))
    = (res, w) ->
    refused res = Some e ->
    let sys' := run (Search.Reload.handleSearch net api s) sys in
    Search.Reload.results (store sys') = Some (JArr []) /\
    Search.Reload.loading (store sys') = false /\
    Search.Reload.hasSearched (store sys') = true /\
    Search.Reload.searchTime (store sys') = Search.Reload.searchTime (store sys) /\
    env sys' = w /\
    exists log,
      requests log = [Search.config_request (Search.Reload.API_BASE api)] /\
      trace sys' = trace sys ++ log
                   ++ [Fetch (reload_search api s) res;
                       ToastError (str "Search failed") (Some e)].
Proof.
  intros Env net api s sys [reason|r] w e B Hnet R; cbn in R.
  - injection R as <-. now apply reload_search_unreachable.
  - destruct (ok r) eqn:Hok; [discriminate|]. injection R as <-.
    now apply reload_search_rejected.
Qed.

Lemma X7_witness :
  let s := Scenario.fox_query in
  let sys :=
    run (Search.Reload.handleSearch Outcome.offline None s) (Scenario.start s tt) in
  Search.Reload.results (store sys) = Some (JArr []) /\
  Search.Reload.loading (store sys) = false /\
  Search.Reload.hasSearched (store sys) = true /\
  Search.Reload.searchTime (store sys) = Some (number 0) /\
  env sys = tt /\
  exists log,
    requests log = [Search.config_request (Search.Reload.API_BASE None)] /\
    trace sys
    = [] ++ log
      ++ [Fetch (reload_search None s) (NetworkError (str "Failed to fetch"));
          ToastError (str "Search failed") (Some (str "Failed to fetch"))].
Proof.
  exact (@X7_failed_search_after_reload_is_toasted unit Outcome.offline None
           Scenario.fox_query (Scenario.start Scenario.fox_query tt)
           (NetworkError (str "Failed to fetch")) tt (str "Failed to fetch")
           eq_refl eq_refl eq_refl).
Defined.

(** ** Loading the search settings *)

Section LoadConfig.

Variable Env : Type.
Variable net : Request -> Env -> FetchResult * Env.
Variable api : option jsstring.

Ltac unfold_load :=
  unfold Search.Jsx.loadConfig, Search.Jsx.setTopK, Search.Jsx.setRerank,
    Search.Reload.loadConfig, Search.Reload.setTopK, Search.Reload.setRerank in *.

(** [loadConfig] never throws: whatever the environment answers, it
    completes normally. *)
Lemma loadConfig_jsx_completes sys :
  fst (Search.Jsx.loadConfig net sys) = Normal tt.
Proof.
  unfold_load. unfold_js. run_handler; reflexivity.
Qed.

Lemma loadConfig_reload_completes sys :
  fst (Search.Reload.loadConfig net api sys) = Normal tt.
Proof.
  unfold_load. unfold_js. run_handler; reflexivity.
Qed.

Lemma loadConfig_jsx_loaded sys r w ms ss :
  net (Search.config_request Search.Jsx.API_BASE) (env sys) = (Answer r, w) ->
  ok r = true -> content r = Parsed (JObj ms) ->
  lookup_member (str "search") ms = Some (JObj ss) ->
  run (Search.Jsx.loadConfig net) sys
  = mkSys
      (Search.Jsx.with_rerank (lookup_member (str "reranker_enabled") ss)
         (Search.Jsx.with_topK (lookup_member (str "top_k") ss) (store sys)))
      w
      (trace sys ++ [Fetch (Search.config_request Search.Jsx.API_BASE) (Answer r)])
      (timers sys).
Proof.
  intros Hnet Hok Hc Hs. unfold_load. unfold_js. cbn.
  rewrite Hnet. cbn. rewrite Hok. cbn. rewrite Hc. cbn. rewrite Hs. reflexivity.
Qed.

Lemma loadConfig_jsx_not_ok sys r w :
  net (Search.config_request Search.Jsx.API_BASE) (env sys) = (Answer r, w) ->
  ok r = false ->
  run (Search.Jsx.loadConfig net) sys
  = mkSys (store sys) w
      (trace sys ++ [Fetch (Search.config_request Search.Jsx.API_BASE) (Answer r)])
      (timers sys).
Proof.
  intros Hnet Hok. unfold_load. unfold_js. cbn.
  rewrite Hnet. cbn. rewrite Hok. reflexivity.
Qed.

Lemma loadConfig_jsx_unreachable sys reason w :
  net (Search.config_request Search.Jsx.API_BASE) (env sys) = (NetworkError reason, w) ->
  run (Search.Jsx.loadConfig net) sys
  = mkSys (store sys) w
      (trace sys
       ++ [Fetch (Search.config_request Search.Jsx.API_BASE) (NetworkError reason);
           ConsoleWarn (str "Could not load config, using defaults:") (Error reason)])
      (timers sys).
Proof.
  intros Hnet. unfold_load. unfold_js. cbn.
  rewrite Hnet. cbn. rewrite <- app_assoc. reflexivity.
Qed.

Lemma loadConfig_jsx_no_section sys r w ms :
  net (Search.config_request Search.Jsx.API_BASE) (env sys) = (Answer r, w) ->
  ok r = true -> content r = Parsed (JObj ms) ->
  lookup_member (str "search") ms = None ->
  run (Search.Jsx.loadConfig net) sys
  = mkSys (store sys) w
      (trace sys
       ++ [Fetch (Search.config_request Search.Jsx.API_BASE) (Answer r);
           ConsoleWarn (str "Could not load config, using defaults:")
             (undefined_property "top_k")])
      (timers sys).
Proof.
  intros Hnet Hok Hc Hs. unfold_load. unfold_js. cbn.
  rewrite Hnet. cbn. rewrite Hok. cbn. rewrite Hc. cbn. rewrite Hs. cbn.
  rewrite <- app_assoc. reflexivity.
Qed.

Lemma loadConfig_reload_loaded sys r w ms ss :
  net (Search.config_request (Search.Reload.API_BASE api)) (env sys) = (Answer r, w) ->
  ok r = true -> content r = Parsed (JObj ms) ->
  lookup_member (str "search") ms = Some (JObj ss) ->
  run (Search.Reload.loadConfig net api) sys
  = mkSys
      (Search.Reload.with_rerank (lookup_member (str "reranker_enabled") ss)
         (Search.Reload.with_topK (lookup_member (str "top_k") ss) (store sys)))
      w
      (trace sys
       ++ [Fetch (Search.config_request (Search.Reload.API_BASE api)) (Answer r)])
      (timers sys).
Proof.
  intros Hnet Hok Hc Hs. unfold_load. unfold_js. cbn.
  rewrite Hnet. cbn. rewrite Hok. cbn. rewrite Hc. cbn. rewrite Hs. reflexivity.
Qed.

Lemma loadConfig_reload_not_ok sys r w :
  net (Search.config_request (Search.Reload.API_BASE api)) (env sys) = (Answer r, w) ->
  ok r = false ->
  run (Search.Reload.loadConfig net api) sys
  = mkSys (store sys) w
      (trace sys
       ++ [Fetch (Search.config_request (Search.Reload.API_BASE api)) (Answer r)])
      (timers sys).
Proof.
  intros Hnet Hok. unfold_load. unfold_js. cbn.
  rewrite Hnet. cbn. rewrite Hok. reflexivity.
Qed.

Lemma loadConfig_reload_unreachable sys reason w :
  net (Search.config_request (Search.Reload.API_BASE api)) (env sys)
  = (NetworkError reason, w) ->
  run (Search.Reload.loadConfig net api) sys
  = mkSys (store sys) w
      (trace sys
       ++ [Fetch (Search.config_request (Search.Reload.API_BASE api))
             (NetworkError reason);
           ConsoleWarn (str "Could not reload config, using current values:")
             (Error reason)])
      (timers sys).
Proof.
  intros Hnet. unfold_load. unfold_js. cbn.
  rewrite Hnet. cbn. rewrite <- app_assoc. reflexivity.
Qed.

Lemma loadConfig_reload_no_section sys r w ms :
  net (Search.config_request (Search.Reload.API_BASE api)) (env sys) = (Answer r, w) ->
  ok r = true -> content r = Parsed (JObj ms) ->
  lookup_member (str "search") ms = None ->
  run (Search.Reload.loadConfig net api) sys
  = mkSys (store sys) w
      (trace sys
       ++ [Fetch (Search.config_request (Search.Reload.API_BASE api)) (Answer r);
           ConsoleWarn (str "Could not reload config, using current values:")
             (undefined_property "top_k")])
      (timers sys).
Proof.
  intros Hnet Hok Hc Hs. unfold_load. unfold_js. cbn.
  rewrite Hnet. cbn. rewrite Hok. cbn. rewrite Hc. cbn. rewrite Hs. cbn.
  rewrite <- app_assoc. reflexivity.
Qed.

(** A member that [JSON.stringify] drops: an undefined setting is not
    part of the search request. *)
Lemma jsx_search_drops_undefined (s : Search.Jsx.State) :
  (Search.Jsx.topK s = None -> body_member (jsx_search s) "top_k" = None) /\
  (Search.Jsx.rerank s = None -> body_member (jsx_search s) "rerank" = None).
Proof.
  pose proof (four_parameter_body Search.Jsx.API_BASE (Search.Jsx.query s)
                (Search.Jsx.topK s) (Search.Jsx.rerank s) (Search.Jsx.hybrid s)) as H.
  cbv zeta in H. destruct H as [_ [H1 [_ [H2 _]]]].
  split; intros E; (etransitivity; [|exact E]); [exact H1 | exact H2].
Qed.

Lemma loadConfig_jsx_text sys r w text :
  net (Search.config_request Search.Jsx.API_BASE) (env sys) = (Answer r, w) ->
  ok r = true -> content r = Parsed (JStr text) ->
  run (Search.Jsx.loadConfig net) sys
  = mkSys (Search.Jsx.with_rerank None (Search.Jsx.with_topK None (store sys))) w
      (trace sys ++ [Fetch (Search.config_request Search.Jsx.API_BASE) (Answer r)])
      (timers sys).
Proof.
  intros Hnet Hok Hc. unfold_load. unfold_js. cbn.
  rewrite Hnet. cbn. rewrite Hok. cbn. rewrite Hc. reflexivity.
Qed.

Lemma loadConfig_reload_text sys r w text :
  net (Search.config_request (Search.Reload.API_BASE api)) (env sys) = (Answer r, w) ->
  ok r = true -> content r = Parsed (JStr text) ->
  run (Search.Reload.loadConfig net api) sys
  = mkSys (Search.Reload.with_rerank None (Search.Reload.with_topK None (store sys)))
      w
      (trace sys
       ++ [Fetch (Search.config_request (Search.Reload.API_BASE api)) (Answer r)])
      (timers sys).
Proof.
  intros Hnet Hok Hc. unfold_load. unfold_js. cbn.
  rewrite Hnet. cbn. rewrite Hok. cbn. rewrite Hc. reflexivity.
Qed.

(** What [loadConfig] leaves alone: every cell but [topK] and [rerank],
    and the timers; it sends the one request. *)
Lemma loadConfig_jsx_frame sys :
  let sys' := run (Search.Jsx.loadConfig net) sys in
  Search.Jsx.query (store sys') = Search.Jsx.query (store sys) /\
  Search.Jsx.results (store sys') = Search.Jsx.results (store sys) /\
  Search.Jsx.loading (store sys') = Search.Jsx.loading (store sys) /\
  Search.Jsx.searchTime (store sys') = Search.Jsx.searchTime (store sys) /\
  Search.Jsx.hybrid (store sys') = Search.Jsx.hybrid (store sys) /\
  Search.Jsx.error (store sys') = Search.Jsx.error (store sys) /\
  timers sys' = timers sys /\
  requests (trace sys')
  = requests (trace sys) ++ [Search.config_request Search.Jsx.API_BASE].
Proof.
  cbv zeta. unfold_load. unfold_js.
  run_handler; repeat split; log_normal; reflexivity.
Qed.

Lemma loadConfig_reload_frame sys :
  let sys' := run (Search.Reload.loadConfig net api) sys in
  Search.Reload.query (store sys') = Search.Reload.query (store sys) /\
  Search.Reload.results (store sys') = Search.Reload.results (store sys) /\
  Search.Reload.loading (store sys') = Search.Reload.loading (store sys) /\
  Search.Reload.searchTime (store sys') = Search.Reload.searchTime (store sys) /\
  Search.Reload.hybrid (store sys') = Search.Reload.hybrid (store sys) /\
  Search.Reload.hasSearched (store sys') = Search.Reload.hasSearched (store sys) /\
  timers sys' = timers sys /\
  requests (trace sys')
  = requests (trace sys) ++ [Search.config_request (Search.Reload.API_BASE api)].
Proof.
  cbv zeta. unfold_load. unfold_js.
  run_handler; repeat split; log_normal; reflexivity.
Qed.

End LoadConfig.

(** X8. [loadConfig] of the two search pages that have it never
    throws: whatever the service answers it completes normally, after
    exactly one request for [/config], and it touches no cell of the
    page but [topK] and [rerank]. *)
Theorem X8_load_config_never_fails :
  forall (Env : Type) (net : Request -> Env -> FetchResult * Env)
         (api : option jsstring),
    (forall sys : Sys Search.Jsx.State Empty_set Env,
       let sys' := run (Search.Jsx.loadConfig net) sys in
       fst (Search.Jsx.loadConfig net sys) = Normal tt /\
       Search.Jsx.query (store sys') = Search.Jsx.query (store sys) /\
       Search.Jsx.results (store sys') = Search.Jsx.results (store sys) /\
       Search.Jsx.loading (store sys') = Search.Jsx.loading (store sys) /\
       Search.Jsx.searchTime (store sys') = Search.Jsx.searchTime (store sys) /\
       Search.Jsx.hybrid (store sys') = Search.Jsx.hybrid (store sys) /\
       Search.Jsx.error (store sys') = Search.Jsx.error (store sys) /\
       timers sys' = timers sys /\
       requests (trace sys')
       = requests (trace sys) ++ [Search.config_request Search.Jsx.API_BASE]) /\
    (forall sys : Sys Search.Reload.State Empty_set Env,
       let sys' := run (Search.Reload.loadConfig net api) sys in
       fst (Search.Reload.loadConfig net api sys) = Normal tt /\
       Search.Reload.query (store sys') = Search.Reload.query (store sys) /\
       Search.Reload.results (store sys') = Search.Reload.results (store sys) /\
       Search.Reload.loading (store sys') = Search.Reload.loading (store sys) /\
       Search.Reload.searchTime (store sys') = Search.Reload.searchTime (store sys) /\
       Search.Reload.hybrid (store sys') = Search.Reload.hybrid (store sys) /\
       Search.Reload.hasSearched (store sys') = Search.Reload.hasSearched (store sys) /\
       timers sys' = timers sys /\
       requests (trace sys')
       = requests (trace sys) ++ [Search.config_request (Search.Reload.API_BASE api)]).
Proof.
  intros Env net api. split; intros sys; cbv zeta.
  - split; [apply loadConfig_jsx_completes | apply loadConfig_jsx_frame].
  - split; [apply loadConfig_reload_completes | apply loadConfig_reload_frame].
Qed.

(** X9. A configuration that was loaded sets [topK] and [rerank] to the
    members [top_k] and [reranker_enabled] of its [search] section, and
    the search request of the page as it is then carries exactly these:
    a member the section lacks is undefined in the page and absent from
    the request. Both search pages that load the configuration. *)
Theorem X9_loaded_settings_reach_the_request :
  forall (Env : Type) (net : Request -> Env -> FetchResult * Env)
         (api : option jsstring) (r : Response) (w : Env)
         (ms ss : list (jsstring * json)),
    ok r = true -> content r = Parsed (JObj ms) ->
    lookup_member (str "search") ms = Some (JObj ss) ->
    (forall sys : Sys Search.Jsx.State Empty_set Env,
       net (Search.config_request Search.Jsx.API_BASE) (env sys) = (Answer r, w) ->
       let s' := store (run (Search.Jsx.loadConfig net) sys) in
       Search.Jsx.topK s' = lookup_member (str "top_k") ss /\
       Search.Jsx.rerank s' = lookup_member (str "reranker_enabled") ss /\
       body_member (jsx_search s') "top_k" = lookup_member (str "top_k") ss /\
       body_member (jsx_search s') "rerank"
       = lookup_member (str "reranker_enabled") ss) /\
    (forall sys : Sys Search.Reload.State Empty_set Env,
       net (Search.config_request (Search.Reload.API_BASE api)) (env sys)
       = (Answer r, w) ->
       let s' := store (run (Search.Reload.loadConfig net api) sys) in
       Search.Reload.topK s' = lookup_member (str "top_k") ss /\
       Search.Reload.rerank s' = lookup_member (str "reranker_enabled") ss /\
       body_member (reload_search api s') "top_k" = lookup_member (str "top_k") ss /\
       body_member (reload_search api s') "rerank"
       = lookup_member (str "reranker_enabled") ss).
Proof.
  intros Env net api r w ms ss Hok Hc Hs. split; intros sys Hnet; cbv zeta.
  - rewrite (loadConfig_jsx_loaded net sys Hnet Hok Hc Hs). cbn [store].
    set (s' := Search.Jsx.with_rerank _ _).
    pose proof (four_parameter_body Search.Jsx.API_BASE (Search.Jsx.query s')
                  (Search.Jsx.topK s') (Search.Jsx.rerank s') (Search.Jsx.hybrid s'))
      as H.
    cbv zeta in H. destruct H as [_ [H1 [_ [H2 _]]]].
    repeat split; [exact H1 | exact H2].
  - rewrite (loadConfig_reload_loaded net api sys Hnet Hok Hc Hs). cbn [store].
    set (s' := Search.Reload.with_rerank _ _).
    pose proof (four_parameter_body (Search.Reload.API_BASE api)
                  (Search.Reload.query s') (Search.Reload.topK s')
                  (Search.Reload.rerank s') (Search.Reload.hybrid s')) as H.
    cbv zeta in H. destruct H as [_ [H1 [_ [H2 _]]]].
    repeat split; [exact H1 | exact H2].
Qed.

Lemma X9_witness :
  let s' :=
    store (run (Search.Jsx.loadConfig Outcome.partial_service)
             (Scenario.start Scenario.fox_query_jsx tt)) in
  Search.Jsx.topK s' = None /\
  Search.Jsx.rerank s' = Some (JBool false) /\
  body_member (jsx_search s') "top_k" = None /\
  body_member (jsx_search s') "rerank" = Some (JBool false).
Proof.
  exact (proj1 (@X9_loaded_settings_reach_the_request unit Outcome.partial_service
                  None Outcome.partial_config tt _ Outcome.partial_section
                  eq_refl eq_refl eq_refl)
           (Scenario.start Scenario.fox_query_jsx tt) eq_refl).
Defined.

(** X10. When the configuration request gets no answer or an answer
    that is not a success, [loadConfig] keeps the whole page as it was:
    the settings stay at their current values. A missing answer is
    reported on the console, under the label of the page; an answer that
    is not a success is dropped without a trace. *)
Theorem X10_unavailable_config_keeps_settings :
  forall (Env : Type) (net : Request -> Env -> FetchResult * Env)
         (api : option jsstring) (res : FetchResult) (w : Env),
    unavailable res = true ->
    (forall sys : Sys Search.Jsx.State Empty_set Env,
       net (Search.config_request Search.Jsx.API_BASE) (env sys) = (res, w) ->
       run (Search.Jsx.loadConfig net) sys
       = mkSys (store sys) w
           (trace sys
            ++ Fetch (Search.config_request Search.Jsx.API_BASE) res
               :: warned (str "Could not load config, using defaults:") res)
           (timers sys)) /\
    (forall sys : Sys Search.Reload.State Empty_set Env,
       net (Search.config_request (Search.Reload.API_BASE api)) (env sys) = (res, w) ->
       run (Search.Reload.loadConfig net api) sys
       = mkSys (store sys) w
           (trace sys
            ++ Fetch (Search.config_request (Search.Reload.API_BASE api)) res
               :: warned (str "Could not reload config, using current values:") res)
           (timers sys)).
Proof.
  intros Env net api [reason|r] w U; cbn in U; split; intros sys Hnet.
  - now apply loadConfig_jsx_unreachable.
  - now apply loadConfig_reload_unreachable.
  - apply loadConfig_jsx_not_ok; [exact Hnet | now destruct (ok r)].
  - apply loadConfig_reload_not_ok; [exact Hnet | now destruct (ok r)].
Qed.

Lemma X10_witness :
  run (Search.Reload.loadConfig Outcome.rejecting None)
    (Scenario.start Scenario.fox_query tt)
  = mkSys Scenario.fox_query tt
      [Fetch (Search.config_request (Search.Reload.API_BASE None))
         (Answer Outcome.conflict)]
      [] /\
  run (Search.Jsx.loadConfig Outcome.offline)
    (Scenario.start Scenario.fox_query_jsx tt)
  = mkSys Scenario.fox_query_jsx tt
      [Fetch (Search.config_request Search.Jsx.API_BASE)
         (NetworkError (str "Failed to fetch"));
       ConsoleWarn (str "Could not load config, using defaults:")
         (Error (str "Failed to fetch"))]
      [].
Proof.
  split.
  - exact (proj2 (@X10_unavailable_config_keeps_settings unit Outcome.rejecting None
                    (Answer Outcome.conflict) tt eq_refl)
             (Scenario.start Scenario.fox_query tt) eq_refl).
  - exact (proj1 (@X10_unavailable_config_keeps_settings unit Outcome.offline None
                    (NetworkError (str "Failed to fetch")) tt eq_refl)
             (Scenario.start Scenario.fox_query_jsx tt) eq_refl).
Defined.

(** X16. A configuration that is answered with a success whose body is
    a JSON string: [config.search] is then the [search] method that
    every string has, a function, and it has neither [top_k] nor
    [reranker_enabled]. [loadConfig] sets both settings to undefined,
    without an error and without a warning on the console. Both search
    pages that load the configuration. *)
Theorem X16_text_body_unsets_settings :
  forall (Env : Type) (net : Request -> Env -> FetchResult * Env)
         (api : option jsstring) (r : Response) (w : Env) (text : jsstring),
    ok r = true -> content r = Parsed (JStr text) ->
    (forall sys : Sys Search.Jsx.State Empty_set Env,
       net (Search.config_request Search.Jsx.API_BASE) (env sys) = (Answer r, w) ->
       run (Search.Jsx.loadConfig net) sys
       = mkSys (Search.Jsx.with_rerank None (Search.Jsx.with_topK None (store sys))) w
           (trace sys
            ++ [Fetch (Search.config_request Search.Jsx.API_BASE) (Answer r)])
           (timers sys)) /\
    (forall sys : Sys Search.Reload.State Empty_set Env,
       net (Search.config_request (Search.Reload.API_BASE api)) (env sys)
       = (Answer r, w) ->
       run (Search.Reload.loadConfig net api) sys
       = mkSys
           (Search.Reload.with_rerank None (Search.Reload.with_topK None (store sys)))
           w
           (trace sys
            ++ [Fetch (Search.config_request (Search.Reload.API_BASE api)) (Answer r)])
           (timers sys)).
Proof.
  intros Env net api r w text Hok Hc. split; intros sys Hnet.
  - now apply loadConfig_jsx_text with (text := text).
  - now apply loadConfig_reload_text with (text := text).
Qed.

Lemma X16_witness :
  let s' :=
    store (run (Search.Jsx.loadConfig Outcome.answering_text)
             (Scenario.start Scenario.fox_query_jsx tt)) in
  Search.Jsx.topK s' = None /\
  Search.Jsx.rerank s' = None /\
  trace (run (Search.Jsx.loadConfig Outcome.answering_text)
           (Scenario.start Scenario.fox_query_jsx tt))
  = [Fetch (Search.config_request Search.Jsx.API_BASE) (Answer Outcome.text_config)].
Proof.
  cbv zeta.
  rewrite (proj1 (@X16_text_body_unsets_settings unit Outcome.answering_text None
                    Outcome.text_config tt (str "maintenance") eq_refl eq_refl)
             (Scenario.start Scenario.fox_query_jsx tt) eq_refl).
  repeat split.
Defined.

(** ** Saving and validating the settings *)

Ltac unfold_settings :=
  unfold Settings.Jsx.saveConfig, Settings.Jsx.validateDatabase,
    Settings.Jsx.setSaving, Settings.Jsx.setError, Settings.Jsx.setMessage,
    Settings.Jsx.setConfig, Settings.Jsx.setDbValidation, Settings.Jsx.setValidatingDb,
    Settings.Tsx.saveConfig, Settings.Tsx.validateDatabase,
    Settings.Tsx.setSaving, Settings.Tsx.setError, Settings.Tsx.setMessage,
    Settings.Tsx.setDbValidation, Settings.Tsx.setValidatingDb in *.

(** X11. [saveConfig] of [SettingsPage.jsx] sends one request and ends
    with saving off and the edited fields as they were. It ends with an
    error exactly when there was no answer (the reason), the answer was
    not a success ([Failed to save configuration]) or the body of a
    successful answer could not be read (the syntax error), and then no
    message is shown; otherwise the confirmation is shown and no
    error. *)
Theorem X11_save_outcome_jsx :
  forall (Env : Type) (net : Request -> Env -> FetchResult * Env)
         (s : Settings.Jsx.State) (sys : Sys Settings.Jsx.State Empty_set Env),
    let req := Settings.save_request Settings.Jsx.API_BASE
                 (Settings.Jsx.updates (Settings.Jsx.fields s)) in
    let res := fst (net req (env sys)) in
    let sys' := run (Settings.Jsx.saveConfig net s) sys in
    trace sys' = trace sys ++ [Fetch req res] /\
    env sys' = snd (net req (env sys)) /\
    Settings.Jsx.saving (store sys') = false /\
    Settings.Jsx.fields (store sys') = Settings.Jsx.fields (store sys) /\
    match jsx_save_error res with
    | Some e => store sys' = jsx_save_failed e (store sys)
    | None =>
        Settings.Jsx.message (store sys') = Settings.Jsx.saved_message /\
        Settings.Jsx.error (store sys') = []
    end.
Proof.
  intros Env net s sys.
  cbv zeta. unfold_settings. unfold_js. unfold jsx_save_error, jsx_save_failed. cbn.
  destruct (net _ (env sys)) as [[reason|r] w]; cbn; [repeat split|].
  destruct (ok r); cbn; [|repeat split].
  destruct (content r); cbn; repeat split.
Qed.

(** X12. [saveConfig] of [settings-page.tsx]: the request to reload the
    configuration is sent after a save that the service accepted, and
    only then. Whatever the reload gives, the save is confirmed; a
    reload that got no answer is reported on the console only. A save
    that failed shows the error and a toast, and is followed by no
    other request. *)
Theorem X12_reload_follows_accepted_save :
  forall (Env : Type) (net : Request -> Env -> FetchResult * Env)
         (api : option jsstring)
         (s : Settings.Tsx.State) (sys : Sys Settings.Tsx.State Empty_set Env),
    let save := Settings.save_request (Settings.Tsx.API_BASE api)
                  (Settings.Tsx.updates (Settings.Tsx.fields s)) in
    let reload := Settings.reload_request (Settings.Tsx.API_BASE api) in
    let sys' := run (Settings.Tsx.saveConfig net api s) sys in
    match net save (env sys) with
    | (NetworkError reason, w) =>
        sys' = mkSys (tsx_save_failed reason (store sys)) w
                 (trace sys
                  ++ [Fetch save (NetworkError reason);
                      ToastError (str "Save failed") (Some reason)])
                 (timers sys)
    | (Answer r, w) =>
        if ok r then
          store sys' = tsx_saved (store sys) /\
          env sys' = snd (net reload w) /\
          timers sys' = timers sys /\
          trace sys'
          = trace sys
            ++ [Fetch save (Answer r); Fetch reload (fst (net reload w))]
            ++ warned (str "Could not reload configuration on server:")
                 (fst (net reload w))
            ++ [ToastSuccess (str "Configuration saved!") None]
        else
          sys' = mkSys (tsx_save_failed (str "Failed to save configuration") (store sys))
                   w
                   (trace sys
                    ++ [Fetch save (Answer r);
                        ToastError (str "Save failed")
                          (Some (str "Failed to save configuration"))])
                   (timers sys)
    end.
Proof.
  intros Env net api s sys.
  cbv zeta. unfold_settings. unfold_js. unfold tsx_save_failed, tsx_saved, warned. cbn.
  destruct (net _ (env sys)) as [[reason|r] w]; cbn.
  - now rewrite <- app_assoc.
  - destruct (ok r); cbn.
    + destruct (net (Settings.reload_request (Settings.Tsx.API_BASE api)) w)
        as [[reason|r2] w2]; cbn; rewrite <- ?app_assoc; repeat split.
    + now rewrite <- app_assoc.
Qed.

(** X13. What [validateDatabase] ends with, in both versions of the
    settings page. For a blank URL: the verdict that the URL is
    required, and no request. Otherwise one request, validating off
    again, and as verdict the body of a successful answer, or invalid
    with [Validation failed] for an answer that is not a success, with
    the reason when there was no answer, with the syntax error when the
    body could not be read. *)
Theorem X13_validation_verdict :
  forall (Env : Type) (net : Request -> Env -> FetchResult * Env)
         (api : option jsstring),
    (forall (s : Settings.Jsx.State) (sys : Sys Settings.Jsx.State Empty_set Env),
       let req := Settings.validate_request Settings.Jsx.API_BASE
                    (Settings.Jsx.dbUrl (Settings.Jsx.fields s)) in
       run (Settings.Jsx.validateDatabase net s) sys
       = if blank (Settings.Jsx.dbUrl (Settings.Jsx.fields s)) then
           mkSys (Settings.Jsx.with_dbValidation
                    (Settings.verdict false (str "Database URL is required"))
                    (store sys))
             (env sys) (trace sys) (timers sys)
         else
           mkSys (jsx_validated (verdict_of (fst (net req (env sys)))) (store sys))
             (snd (net req (env sys)))
             (trace sys ++ [Fetch req (fst (net req (env sys)))])
             (timers sys)) /\
    (forall (s : Settings.Tsx.State) (sys : Sys Settings.Tsx.State Empty_set Env),
       let req := Settings.validate_request (Settings.Tsx.API_BASE api)
                    (Settings.Tsx.dbUrl (Settings.Tsx.fields s)) in
       run (Settings.Tsx.validateDatabase net api s) sys
       = if blank (Settings.Tsx.dbUrl (Settings.Tsx.fields s)) then
           mkSys (Settings.Tsx.with_dbValidation
                    (Settings.verdict false (str "Database URL is required"))
                    (store sys))
             (env sys) (trace sys) (timers sys)
         else
           mkSys (tsx_validated (verdict_of (fst (net req (env sys)))) (store sys))
             (snd (net req (env sys)))
             (trace sys ++ [Fetch req (fst (net req (env sys)))])
             (timers sys)).
Proof.
  intros Env net api. split; intros s sys; cbv zeta;
    unfold_settings; unfold_js; unfold verdict_of, jsx_validated, tsx_validated.
  - destruct (blank (Settings.Jsx.dbUrl (Settings.Jsx.fields s))) eqn:B.
    + rewrite (truthy_trim_blank _ B). reflexivity.
    + rewrite (truthy_trim_filled _ B). cbn.
      destruct (net _ (env sys)) as [[reason|r] w]; cbn; [reflexivity|].
      destruct (ok r); cbn; [|reflexivity].
      destruct (content r); reflexivity.
  - destruct (blank (Settings.Tsx.dbUrl (Settings.Tsx.fields s))) eqn:B.
    + rewrite (truthy_trim_blank _ B). reflexivity.
    + rewrite (truthy_trim_filled _ B). cbn.
      destruct (net _ (env sys)) as [[reason|r] w]; cbn; [reflexivity|].
      destruct (ok r); cbn; [|reflexivity].
      destruct (content r); reflexivity.
Qed.

(** ** A page of results *)

(** X15. [performSearch] of [search-page.tsx] sends one request and
    then either throws with the page untouched, or returns the body of
    a successful answer with the results, the total count, the current
    page and the search time all set from it: the four cells are never
    updated in part, and it never completes without one or the other. *)
Theorem X15_perform_search_all_or_nothing :
  forall (Env : Type) (net : Request -> Env -> FetchResult * Env)
         (api : option jsstring)
         (s : Search.Paged.State) (page : Z)
         (sys : Sys Search.Paged.State Empty_set Env),
    let req := paged_search api s page in
    let out := Search.Paged.performSearch net api s page sys in
    env (snd out) = snd (net req (env sys)) /\
    trace (snd out) = trace sys ++ [Fetch req (fst (net req (env sys)))] /\
    timers (snd out) = timers sys /\
    ((exists e, fst out = Throw e /\ store (snd out) = store sys) \/
     (exists r data,
        fst (net req (env sys)) = Answer r /\
        ok r = true /\ content r = Parsed data /\
        fst out = Return data /\
        store (snd out) = page_loaded data page (store sys))).
Proof.
  intros Env net api s page sys. cbv zeta.
  unfold Search.Paged.performSearch, paged_search, page_loaded, property_of,
    Search.Paged.setResults, Search.Paged.setSearchTime, Search.Paged.setTotalCount,
    Search.Paged.setCurrentPage.
  unfold_js. cbn.
  destruct (net _ (env sys)) as [[reason|r] w]; cbn.
  - repeat split. left. eexists. split; reflexivity.
  - destruct (ok r) eqn:Hok; cbn.
    + destruct (content r) as [data|m] eqn:Hc; cbn.
      * destruct data; cbn; repeat split;
          first [ left; eexists; split; reflexivity
                | right; eexists; eexists; repeat split; try eassumption; reflexivity ].
      * repeat split. left. eexists. split; reflexivity.
    + repeat split. left. eexists. split; reflexivity.
Qed.

(** ** The shell *)

(** X14. After any clicks on the navigation, both shells show the page
    of the button clicked last (the search page before any click) and
    highlight exactly its button: in [App.jsx] the last alternative of
    [main] is reached for the settings page only, and in [Home] exactly
    one of the three conditionals renders. *)
Theorem X14_navigation_shows_the_clicked_page :
  forall clicks : list Shell.page,
    let jsx := fold_left (fun cur b => Shell.Jsx.onClick b cur) clicks
                 Shell.Jsx.initial in
    let tsx := fold_left (fun cur b => Shell.Tsx.onClick b cur)
                 (map Shell.Tsx.item_of clicks) Shell.Tsx.initial in
    Shell.Jsx.main jsx = last_clicked clicks /\
    (forall b, Shell.Jsx.highlighted b jsx = Shell.page_eqb b (last_clicked clicks)) /\
    Shell.Tsx.main tsx = [last_clicked clicks] /\
    map Shell.Tsx.id (filter (Shell.Tsx.isActive tsx) Shell.Tsx.navItems)
    = [last_clicked clicks].
Proof.
  intros clicks. cbv zeta.
  assert (J : fold_left (fun cur b => Shell.Jsx.onClick b cur) clicks Shell.Jsx.initial
              = Shell.id_of (last_clicked clicks)).
  { unfold last_clicked.
    induction clicks as [|b clicks IH] using rev_ind; [reflexivity|].
    rewrite fold_left_app, last_last. reflexivity. }
  assert (T : fold_left (fun cur b => Shell.Tsx.onClick b cur)
                (map Shell.Tsx.item_of clicks) Shell.Tsx.initial
              = last_clicked clicks).
  { unfold last_clicked.
    induction clicks as [|b clicks IH] using rev_ind; [reflexivity|].
    rewrite map_app, fold_left_app, last_last. now destruct b. }
  rewrite J, T.
  destruct (last_clicked clicks); repeat split; intros b; destruct b; reflexivity.
Qed.
